(** * Browser-side OAuth 2.0 authorization-code-with-PKCE client

    A shallow embedding of [scripts/oauth.js], of the callback and bootstrap
    functions of [scripts/scripts.js] and of [scripts/session.js], together
    with the properties the design document states about them.

    Conventions of the embedding:
    - a JavaScript string of 8-bit characters is a [string]; where the code
      hands a string to [TextEncoder] or to the URL parser it is a list of
      UTF-16 code units;
    - a byte or a 32-bit word is a [Z], with the wrap-around written out;
    - [sessionStorage] is a [gmap string item];
    - platform services the code calls ([crypto.getRandomValues], [fetch],
      the origin of a URL, the clock) are inputs of the functions that use
      them; the digest, the encoders and the reading of a query are written
      out;
    - an event handler runs to completion; what it did to the page is the
      new value of the page state, what it asked of the outside world is a
      list of effects. *)

From Stdlib Require Import ZArith String Ascii List Bool Lia.
From stdpp Require Import gmap strings list.
Import ListNotations.

Local Open Scope Z_scope.
Local Set Warnings "-register-all".

(** ** Strings the way the scripts use them *)

Module JsString.

(** [s[i]] used as a piece of a [join('')]: the one-character string, or
    nothing where JavaScript yields [undefined]. *)
Definition char_at (s : string) (i : nat) : string :=
  match String.get i s with
  | Some c => String c EmptyString
  | None => EmptyString
  end.

(** [parts.join('')] *)
Definition join (parts : list string) : string :=
  fold_right String.append EmptyString parts.

(** [s.replace(/c/g, r)] for a one-character pattern. *)
Fixpoint replace_all (c : ascii) (r : string) (s : string) : string :=
  match s with
  | EmptyString => EmptyString
  | String a s' =>
      String.append (if Ascii.eqb a c then r else String a EmptyString)
                    (replace_all c r s')
  end.

(** Does [p] start [s]? *)
Fixpoint starts_with (p s : string) : bool :=
  match p, s with
  | EmptyString, _ => true
  | String a p', String b s' => Ascii.eqb a b && starts_with p' s'
  | String _ _, EmptyString => false
  end.

Fixpoint drop (n : nat) (s : string) : string :=
  match n, s with
  | O, _ => s
  | S n', String _ s' => drop n' s'
  | S _, EmptyString => EmptyString
  end.

(** [s.replace(pat, rep)] with a string pattern: the first occurrence
    only. [rep] holds no [$], so it is inserted as it is. *)
Fixpoint replace_first (pat rep s : string) : string :=
  if starts_with pat s then String.append rep (drop (String.length pat) s)
  else match s with
       | EmptyString => EmptyString
       | String a s' => String a (replace_first pat rep s')
       end.

(** The UTF-16 code units of a string of 8-bit characters. *)
Definition units (s : string) : list Z :=
  map (fun c => Z.of_nat (nat_of_ascii c)) (list_ascii_of_string s).

(** Truthiness of a string value. *)
Definition nonempty (s : string) : bool :=
  match s with EmptyString => false | String _ _ => true end.

End JsString.

(** ** SHA-256 (FIPS 180-4), the digest behind [crypto.subtle.digest] *)

Module Sha256.

Definition w32 (x : Z) : Z := x mod 2 ^ 32.
Definition add32 (x y : Z) : Z := w32 (x + y).
Definition ROTR (n x : Z) : Z :=
  Z.lor (Z.shiftr x n) (w32 (Z.shiftl x (32 - n))).
Definition SHR (n x : Z) : Z := Z.shiftr x n.
Definition not32 (x : Z) : Z := Z.lxor x (2 ^ 32 - 1).

Definition Ch (x y z : Z) : Z := Z.lxor (Z.land x y) (Z.land (not32 x) z).
Definition Maj (x y z : Z) : Z :=
  Z.lxor (Z.lxor (Z.land x y) (Z.land x z)) (Z.land y z).
Definition Sigma0 (x : Z) : Z := Z.lxor (Z.lxor (ROTR 2 x) (ROTR 13 x)) (ROTR 22 x).
Definition Sigma1 (x : Z) : Z := Z.lxor (Z.lxor (ROTR 6 x) (ROTR 11 x)) (ROTR 25 x).
Definition sigma0 (x : Z) : Z := Z.lxor (Z.lxor (ROTR 7 x) (ROTR 18 x)) (SHR 3 x).
Definition sigma1 (x : Z) : Z := Z.lxor (Z.lxor (ROTR 17 x) (ROTR 19 x)) (SHR 10 x).

(** The constants are defined the way the standard defines them: from the
    square and cube roots of the first primes. *)
Definition is_prime (p : nat) : bool :=
  forallb (fun d => negb (Nat.eqb (Nat.modulo p d) 0)) (seq 2 (p - 2)).

Definition primes64 : list Z :=
  map Z.of_nat (List.filter is_prime (seq 2 310)).

(** Integer cube root, one bit at a time from bit [bits - 1] down. *)
Fixpoint icbrt (bits : nat) (n r : Z) : Z :=
  match bits with
  | O => r
  | S b =>
      let c := r + 2 ^ Z.of_nat b in
      icbrt b n (if c * c * c <=? n then c else r)
  end.

(** First 32 bits of the fractional part of the cube root of [p]. *)
Definition frac_cbrt (p : Z) : Z := w32 (icbrt 40 (p * 2 ^ 96) 0).
(** First 32 bits of the fractional part of the square root of [p]. *)
Definition frac_sqrt (p : Z) : Z := w32 (Z.sqrt (p * 2 ^ 64)).

Definition K : list Z := Eval vm_compute in map frac_cbrt primes64.
Definition H0 : list Z := Eval vm_compute in map frac_sqrt (firstn 8 primes64).

(** Padding: a 1 bit, zeros, then the bit length on 64 bits. *)
Fixpoint be_bytes (n : nat) (x : Z) : list Z :=
  match n with
  | O => []
  | S n' => (Z.shiftr x (8 * Z.of_nat n')) mod 256 :: be_bytes n' x
  end.

Definition pad (msg : list Z) : list Z :=
  let len := Z.of_nat (length msg) in
  msg ++ [128] ++ repeat 0 (Z.to_nat ((55 - len) mod 64)) ++ be_bytes 8 (8 * len).

Fixpoint be_words (n : nat) (bs : list Z) : list Z :=
  match n, bs with
  | S n', b0 :: b1 :: b2 :: b3 :: rest =>
      (((b0 mod 256) * 256 + b1 mod 256) * 256 + b2 mod 256) * 256 + b3 mod 256
      :: be_words n' rest
  | _, _ => []
  end.

Fixpoint blocks (n : nat) (bs : list Z) : list (list Z) :=
  match n with
  | O => []
  | S n' => be_words 16 (firstn 64 bs) :: blocks n' (skipn 64 bs)
  end.

(** Message schedule: [n] more words after the ones in [ws]. *)
Fixpoint schedule (n : nat) (ws : list Z) : list Z :=
  match n with
  | O => ws
  | S n' =>
      let t := length ws in
      let W i := nth (t - i) ws 0 in
      schedule n' (ws ++ [add32 (add32 (sigma1 (W 2%nat)) (W 7%nat))
                                (add32 (sigma0 (W 15%nat)) (W 16%nat))])
  end.

Record regs := Regs { ra : Z; rb : Z; rc : Z; rd : Z; re : Z; rf : Z; rg : Z; rh : Z }.

Definition round (s : regs) (kw : Z * Z) : regs :=
  let '(k, w) := kw in
  let T1 := add32 (add32 (add32 (rh s) (Sigma1 (re s))) (Ch (re s) (rf s) (rg s)))
                  (add32 k w) in
  let T2 := add32 (Sigma0 (ra s)) (Maj (ra s) (rb s) (rc s)) in
  Regs (add32 T1 T2) (ra s) (rb s) (rc s) (add32 (rd s) T1) (re s) (rf s) (rg s).

Definition compress (h : regs) (block : list Z) : regs :=
  let s := fold_left round (combine K (schedule 48 block)) h in
  Regs (add32 (ra h) (ra s)) (add32 (rb h) (rb s)) (add32 (rc h) (rc s))
       (add32 (rd h) (rd s)) (add32 (re h) (re s)) (add32 (rf h) (rf s))
       (add32 (rg h) (rg s)) (add32 (rh h) (rh s)).

Definition init : regs :=
  let h i := nth i H0 0 in
  Regs (h 0%nat) (h 1%nat) (h 2%nat) (h 3%nat) (h 4%nat) (h 5%nat) (h 6%nat) (h 7%nat).

(** The 32 bytes of the digest of a byte message. *)
Definition digest (msg : list Z) : list Z :=
  let p := pad msg in
  let h := fold_left compress (blocks (length p / 64) p) init in
  flat_map (be_bytes 4) [ra h; rb h; rc h; rd h; re h; rf h; rg h; rh h].

End Sha256.

(** ** [TextEncoder.encode]: UTF-16 code units to UTF-8 bytes *)

Module TextEncoder.

Definition encode_code_point (c : Z) : list Z :=
  if c <? 128 then [c]
  else if c <? 2048 then [192 + c / 64; 128 + c mod 64]
  else if c <? 65536 then [224 + c / 4096; 128 + (c / 64) mod 64; 128 + c mod 64]
  else [240 + c / 262144; 128 + (c / 4096) mod 64; 128 + (c / 64) mod 64; 128 + c mod 64].

Definition is_high (u : Z) : bool := (55296 <=? u) && (u <=? 56319).
Definition is_low (u : Z) : bool := (56320 <=? u) && (u <=? 57343).

(** A surrogate pair is one code point; a lone surrogate is U+FFFD. *)
Fixpoint encode (us : list Z) : list Z :=
  match us with
  | [] => []
  | u :: rest =>
      if is_high u then
        match rest with
        | v :: rest' =>
            if is_low v
            then encode_code_point (65536 + (u - 55296) * 1024 + (v - 56320)) ++ encode rest'
            else encode_code_point 65533 ++ encode rest
        | [] => encode_code_point 65533
        end
      else if is_low u then encode_code_point 65533 ++ encode rest
      else encode_code_point u ++ encode rest
  end.

End TextEncoder.

(** ** [btoa]: the standard base64 encoding with padding *)

Module Base64.

Definition alphabet : string :=
  "ABCDEFGHIJKLMNOPQRSTUVWXYZabcdefghijklmnopqrstuvwxyz0123456789+/".

(** The character of a six-bit group in alphabet [abc]. *)
Definition sextet (abc : string) (i : Z) : string :=
  JsString.char_at abc (Z.to_nat (Z.land i 63)).

Definition s1 (b0 : Z) : Z := Z.shiftr b0 2.
Definition s2 (b0 b1 : Z) : Z := Z.lor (Z.shiftl (Z.land b0 3) 4) (Z.shiftr b1 4).
Definition s3 (b1 b2 : Z) : Z := Z.lor (Z.shiftl (Z.land b1 15) 2) (Z.shiftr b2 6).
Definition s4 (b2 : Z) : Z := b2.

Fixpoint btoa (bs : list Z) : string :=
  match bs with
  | [] => EmptyString
  | [b0] =>
      String.append (sextet alphabet (s1 b0))
        (String.append (sextet alphabet (s2 b0 0)) "==")
  | [b0; b1] =>
      String.append (sextet alphabet (s1 b0))
        (String.append (sextet alphabet (s2 b0 b1))
           (String.append (sextet alphabet (s3 b1 0)) "="))
  | b0 :: b1 :: b2 :: rest =>
      String.append (sextet alphabet (s1 b0))
        (String.append (sextet alphabet (s2 b0 b1))
           (String.append (sextet alphabet (s3 b1 b2))
              (String.append (sextet alphabet (s4 b2)) (btoa rest))))
  end.

End Base64.

(** ** The S256 transformation in the words of the design document

    "Challenge = base64url (no padding) of SHA-256(verifier)": the encoding
    is written here directly over the URL-safe alphabet of RFC 4648 section
    5, and emits no padding character at all. It is the reference the
    script's [generateCodeChallenge] is compared with. *)

Module S256.

Definition url_alphabet : string :=
  "ABCDEFGHIJKLMNOPQRSTUVWXYZabcdefghijklmnopqrstuvwxyz0123456789-_".

Fixpoint base64url_nopad (bs : list Z) : string :=
  match bs with
  | [] => EmptyString
  | [b0] =>
      String.append (Base64.sextet url_alphabet (Base64.s1 b0))
                    (Base64.sextet url_alphabet (Base64.s2 b0 0))
  | [b0; b1] =>
      String.append (Base64.sextet url_alphabet (Base64.s1 b0))
        (String.append (Base64.sextet url_alphabet (Base64.s2 b0 b1))
                       (Base64.sextet url_alphabet (Base64.s3 b1 0)))
  | b0 :: b1 :: b2 :: rest =>
      String.append (Base64.sextet url_alphabet (Base64.s1 b0))
        (String.append (Base64.sextet url_alphabet (Base64.s2 b0 b1))
           (String.append (Base64.sextet url_alphabet (Base64.s3 b1 b2))
              (String.append (Base64.sextet url_alphabet (Base64.s4 b2))
                             (base64url_nopad rest))))
  end.

Definition challenge_of (verifier : list Z) : string :=
  base64url_nopad (Sha256.digest (TextEncoder.encode verifier)).

End S256.

(** ** JSON values, errors and network replies *)

Module Js.

(** A parsed JSON document. Numbers are only ever tested for truthiness
    by the scripts; integers stand for them. *)
Inductive json :=
| JNull
| JBool (b : bool)
| JNum (n : Z)
| JStr (s : string)
| JArr (elems : list json)
| JObj (fields : list (string * json)).

(** A value read from a property: [None] is [undefined]. *)
Definition value := option json.

Definition truthy (v : json) : bool :=
  match v with
  | JNull => false
  | JBool b => b
  | JNum n => negb (n =? 0)
  | JStr s => JsString.nonempty s
  | JArr _ | JObj _ => true
  end.

Definition truthy_value (v : value) : bool :=
  match v with Some j => truthy j | None => false end.

(** [JSON.parse] keeps the last of several members of one name. *)
Fixpoint member (k : string) (fields : list (string * json)) : value :=
  match fields with
  | [] => None
  | (k', v) :: rest =>
      match member k rest with
      | Some later => Some later
      | None => if String.eqb k k' then Some v else None
      end
  end.

(** [v.k] on a value that is not [null]: own members of an object;
    the names the scripts read exist on no other JSON value. *)
Definition prop (k : string) (v : json) : value :=
  match v with
  | JObj fields => member k fields
  | _ => None
  end.

(** An exception value: an [Error] with its [message]. *)
Record error := Error { message : string }.

(** How a call ends. *)
Inductive completion (A : Type) :=
| Returned (a : A)
| Thrown (e : error).
Arguments Returned {A} a.
Arguments Thrown {A} e.

(** How a promise settles. *)
Inductive settled :=
| Resolves (v : value)
| Rejects (e : error).

(** What [fetch] and then [response.json()] give: the request fails, or a
    response arrives whose body parses ([Some]) or does not ([None]). *)
Inductive fetch_result :=
| NetworkError (reason : string)
| Response (ok : bool) (status : Z) (statusText : string) (body : option json).

End Js.

(** ** [scripts/config.js]: the values the auth core reads from [config.iam] *)

Record iam_config := IamConfig {
  clientId : string;
  scopes : list string;
  redirectUri : string;
  baseUrl : string;
  authorizationEndpoint : string;
  tokenEndpoint : string;
  sessionCheckInterval : Z;
  timeout : Z
}.

(** ** [scripts/oauth.js] *)

Module OAuth.

Import Js.

(** *** PKCE material *)

(** The system randomness source: an unbounded supply of raw values, read
    front to back. *)
Definition rng := nat -> Z.

(** [new Uint8Array(length)] filled by [crypto.getRandomValues]: [length]
    bytes, and the source advanced past them. *)
Definition getRandomValues (length : nat) (r : rng) : list Z * rng :=
  (map (fun i => r i mod 256) (seq 0 length), fun i => r (length + i)%nat).

Definition chars : string :=
  "ABCDEFGHIJKLMNOPQRSTUVWXYZabcdefghijklmnopqrstuvwxyz0123456789-._".

(** [byte => chars[byte % chars.length]] *)
Definition pick (byte : Z) : string :=
  JsString.char_at chars (Z.to_nat (byte mod Z.of_nat (String.length chars))).

Definition generateRandomString (length : nat) (r : rng) : string * rng :=
  let '(array, r') := getRandomValues length r in
  (JsString.join (map pick array), r').

(** [btoa(String.fromCharCode(...hash))] with [+], [/] and [=] rewritten. *)
Definition generateCodeChallenge (verifier : list Z) : string :=
  let data := TextEncoder.encode verifier in
  let hash := Sha256.digest data in
  let base64 := Base64.btoa hash in
  JsString.replace_all "=" ""
    (JsString.replace_all "/" "_" (JsString.replace_all "+" "-" base64)).

(** What [sessionStorage] holds under a key, seen through [JSON.parse]:
    a PKCE entry written by this module, some other JSON value (only its
    truthiness matters), or text that is not JSON. *)
Inductive item :=
| PkceJson (verifier challenge : string)
| OtherJson (truthy : bool)
| NotJson.

Record pkce := Pkce { state : string; verifier : string; challenge : string }.

Definition generateAndStorePKCE (r : rng) (store : gmap string item)
  : pkce * rng * gmap string item :=
  let '(state, r1) := generateRandomString 32 r in
  let '(verifier, r2) := generateRandomString 64 r1 in
  let challenge := generateCodeChallenge (JsString.units verifier) in
  (Pkce state verifier challenge, r2, <[state := PkceJson verifier challenge]> store).

(** *** Authorization request *)

(** The URL before serialisation: the endpoint and the query parameters in
    order ([URLSearchParams.toString] does the escaping). *)
Record auth_url := AuthUrl { endpoint : string; query : list (string * string) }.

Definition buildAuthUrl (cfg : iam_config) (state challenge prompt : string) : auth_url :=
  let authUrl := String.append (baseUrl cfg) (authorizationEndpoint cfg) in
  let params :=
    [ ("client_id", clientId cfg);
      ("redirect_uri", redirectUri cfg);
      ("response_type", "code");
      ("scope", String.concat " " (scopes cfg));
      ("state", state);
      ("code_challenge", challenge);
      ("code_challenge_method", "S256") ]%string in
  AuthUrl authUrl
    (if JsString.nonempty prompt then params ++ [("prompt", prompt)]%string else params).

(** *** Token exchange *)

(** A string slot that may hold [null] or [undefined]. *)
Definition field := option string.

Definition field_truthy (f : field) : bool :=
  match f with Some s => JsString.nonempty s | None => false end.

(** String conversion inside [URLSearchParams] and [+]. *)
Definition field_text (f : field) : string :=
  match f with Some s => s | None => "undefined" end.

Record token_request := TokenRequest {
  tokenUrl : string;
  form : list (string * string)
}.

Definition token_request_of (cfg : iam_config) (code : string) (verifier : field)
  : token_request :=
  TokenRequest (String.append (baseUrl cfg) (tokenEndpoint cfg))
    [ ("grant_type", "authorization_code");
      ("client_id", clientId cfg);
      ("code", code);
      ("redirect_uri", redirectUri cfg);
      ("code_verifier", field_text verifier) ]%string.

(** The rest of [exchangeCodeForToken], once the POST has an answer. *)
Definition exchangeCodeForToken (reply : fetch_result) : settled :=
  match reply with
  | NetworkError reason => Rejects (Error reason)
  | Response false _ statusText _ =>
      Rejects (Error (String.append "Token exchange failed: " statusText))
  | Response true _ _ None => Rejects (Error "Unexpected token in JSON")
  | Response true _ _ (Some JNull) =>
      Rejects (Error "Cannot read properties of null")
  | Response true _ _ (Some data) => Resolves (prop "access_token" data)
  end.

(** [JSON.parse(sessionStorage.getItem(key))], given what [getItem]
    found: the truthiness of the parsed value and its [verifier]
    property. A missing key is [null], which parses to [null]. *)
Definition JSON_parse (found : option item) : completion (bool * field) :=
  match found with
  | None => Returned (false, None)
  | Some (PkceJson v _) => Returned (true, Some v)
  | Some (OtherJson t) => Returned (t, None)
  | Some NotJson => Thrown (Error "Unexpected token in JSON")
  end.

(** *** Silent authentication *)

Inductive promise :=
| Pending
| Settled (s : settled).

(** [resolve] and [reject] act on a pending promise only. *)
Definition settle (s : settled) (p : promise) : promise :=
  match p with
  | Pending => Settled s
  | Settled _ => p
  end.

(** The part of the page one silent attempt touches. *)
Record page := Page {
  storage : gmap string item;          (* sessionStorage *)
  iframe : option auth_url;            (* the hidden frame, while in document.body *)
  timer : bool;                        (* the timeout is armed *)
  listener : bool;                     (* messageHandler is registered *)
  outcome : promise;                   (* the promise the attempt returned *)
  exchange : option token_request;     (* token POST awaiting its answer *)
  console : list string;               (* console.warn lines *)
  uncaught : list error                (* exceptions that escaped a handler *)
}.

Definition set_storage (f : gmap string item -> gmap string item) (p : page) : page :=
  Page (f (storage p)) (iframe p) (timer p) (listener p) (outcome p) (exchange p)
       (console p) (uncaught p).
Definition set_iframe (v : option auth_url) (p : page) : page :=
  Page (storage p) v (timer p) (listener p) (outcome p) (exchange p) (console p) (uncaught p).
Definition set_timer (v : bool) (p : page) : page :=
  Page (storage p) (iframe p) v (listener p) (outcome p) (exchange p) (console p) (uncaught p).
Definition set_listener (v : bool) (p : page) : page :=
  Page (storage p) (iframe p) (timer p) v (outcome p) (exchange p) (console p) (uncaught p).
Definition set_outcome (v : promise) (p : page) : page :=
  Page (storage p) (iframe p) (timer p) (listener p) v (exchange p) (console p) (uncaught p).
Definition set_exchange (v : option token_request) (p : page) : page :=
  Page (storage p) (iframe p) (timer p) (listener p) (outcome p) v (console p) (uncaught p).
Definition add_console (line : string) (p : page) : page :=
  Page (storage p) (iframe p) (timer p) (listener p) (outcome p) (exchange p)
       (console p ++ [line]) (uncaught p).
Definition add_uncaught (e : error) (p : page) : page :=
  Page (storage p) (iframe p) (timer p) (listener p) (outcome p) (exchange p)
       (console p) (uncaught p ++ [e]).

(** Handler code: it changes the page and returns or throws; what it did
    before a throw stays done. *)
Definition js (A : Type) : Type := page -> page * completion A.

#[global] Instance js_ret : MRet js := fun A a p => (p, Returned a).
#[global] Instance js_bind : MBind js := fun A B k c p =>
  match c p with
  | (p', Returned a) => k a p'
  | (p', Thrown e) => (p', Thrown e)
  end.

Definition throw {A} (e : error) : js A := fun p => (p, Thrown e).
Definition act (f : page -> page) : js unit := fun p => (f p, Returned tt).

Definition clearTimeout : js unit := act (set_timer false).
Definition removeEventListener : js unit := act (set_listener false).
Definition resolve (v : value) : js unit := act (fun p => set_outcome (settle (Resolves v) (outcome p)) p).
Definition reject (e : error) : js unit := act (fun p => set_outcome (settle (Rejects e) (outcome p)) p).
Definition console_warn (line : string) : js unit := act (add_console line).

(** [document.body.removeChild(iframe)]: a [NotFoundError] when the frame
    is not a child of the body (any more). *)
Definition removeChild : js unit := fun p =>
  match iframe p with
  | Some _ => (set_iframe None p, Returned tt)
  | None => (p, Thrown (Error "The node to be removed is not a child of this node"))
  end.

Definition parse_getItem (key : string) : js (bool * field) := fun p =>
  (p, JSON_parse (storage p !! key)).

Definition removeItem (key : string) : js unit := act (set_storage (delete key)).

(** [exchangeCodeForToken(code, verifier).then(resolve).catch(reject)]:
    the POST leaves now, the promise settles when the answer is in. *)
Definition start_exchange (cfg : iam_config) (code : string) (verifier : field) : js unit :=
  act (set_exchange (Some (token_request_of cfg code verifier))).

(** [event.data]: [null]/[undefined], or a value whose [type], [code],
    [state] and [error] properties are strings or absent, which is what
    the callback page posts. *)
Record payload := Payload {
  msg_type : field; msg_code : field; msg_state : field; msg_error : field
}.

Record message_event := MessageEvent { origin : string; data : option payload }.

Definition field_is (f : field) (s : string) : bool :=
  match f with Some t => String.eqb t s | None => false end.

Section Attempt.

Variable cfg : iam_config.
(** [new URL(s).origin]; [None] when [s] is not a URL and the
    constructor throws. *)
Variable URL_origin : string -> option string.
(** The [state] generated at the start of this attempt. *)
Variable state0 : string.

Definition on_timeout : js unit :=
  removeChild;;
  reject (Error "interaction_required").

Definition messageHandler (event : message_event) : js unit :=
  expectedOrigin ← (match URL_origin (redirectUri cfg) return js string with
                    | Some o => mret o
                    | None => throw (Error "Invalid URL")
                    end);
  if negb (String.eqb (origin event) expectedOrigin) then
    console_warn (String.concat " "
      ["Rejected postMessage from unexpected origin:"; origin event;
       "Expected:"; expectedOrigin]%string)
  else
    d ← (match data event return js payload with
         | Some d => mret d
         | None => throw (Error "Cannot read properties of null")
         end);
    if field_is (msg_type d) "oauthCallback" then
      clearTimeout;;
      removeChild;;
      removeEventListener;;
      let code := msg_code d in
      let receivedState := msg_state d in
      let error := msg_error d in
      if field_is error "interaction_required" then
        reject (Error "interaction_required")
      else if field_truthy error then
        reject (Error (String.append "OAuth error: " (field_text error)))
      else if field_truthy code && field_is receivedState state0 then
        '(pkceData, pkceData_verifier) ← parse_getItem state0;
        if (pkceData : bool) then
          removeItem state0;;
          start_exchange cfg (field_text code) pkceData_verifier
        else
          reject (Error "PKCE data not found")
      else
        reject (Error "Invalid callback")
    else (mret tt : js unit).

(** What can happen to a pending attempt. *)
Inductive event :=
| TimeoutFires
| MessageArrives (m : message_event)
| ExchangeAnswers (reply : fetch_result).

(** An exception leaving a handler is reported and dropped. *)
Definition run (h : js unit) (p : page) : page :=
  match h p with
  | (p', Returned _) => p'
  | (p', Thrown e) => add_uncaught e p'
  end.

(** The browser delivers a timeout only while the timer is armed (it is
    spent by firing), a message only to a registered listener, and the
    answer of the token POST only to the request that is waiting. *)
Definition deliver (p : page) (ev : event) : page :=
  match ev with
  | TimeoutFires =>
      if timer p then run on_timeout (set_timer false p) else p
  | MessageArrives m =>
      if listener p then run (messageHandler m) p else p
  | ExchangeAnswers reply =>
      match exchange p with
      | Some _ =>
          run (match exchangeCodeForToken reply with
               | Resolves token => resolve token
               | Rejects e => reject e
               end)
              (set_exchange None p)
      | None => p
      end
  end.

Definition deliver_all (p : page) (evs : list event) : page :=
  fold_left deliver evs p.

End Attempt.

(** [getAccessTokenSilently] up to the point where it returns its
    promise: PKCE material stored, frame injected, timer and listener
    armed. The result carries the generated [state]. *)
Definition getAccessTokenSilently (cfg : iam_config) (r : rng) (store : gmap string item)
  : string * rng * page :=
  let '(k, r', store') := generateAndStorePKCE r store in
  let authUrl := buildAuthUrl cfg (state k) (challenge k) "none" in
  (state k, r', Page store' (Some authUrl) true true Pending None [] []).

(** *** Interactive redirect and the public entry point *)

(** [redirectToLogin]: fresh PKCE material, then [window.location.href]
    is set to the interactive authorization URL. *)
Definition redirectToLogin (cfg : iam_config) (r : rng) (store : gmap string item)
  : auth_url * rng * gmap string item :=
  let '(k, r', store') := generateAndStorePKCE r store in
  (buildAuthUrl cfg (state k) (challenge k) "", r', store').

(** What [getAccessToken] does once the silent attempt has settled:
    whether it called [redirectToLogin], and how its own promise settles.
    [redirected] is how the promise of [redirectToLogin] would settle; the
    call is not awaited, so it is never looked at. *)
Record access := Access { calls_redirectToLogin : bool; returns : settled }.

Definition getAccessToken (silent : settled) (redirected : settled) : access :=
  match silent with
  | Resolves token => Access false (Resolves token)
  | Rejects error =>
      if String.eqb (message error) "interaction_required"
      then Access true (Resolves None)
      else Access false (Rejects error)
  end.

End OAuth.

(** ** [scripts/scripts.js]: the callback page and the bootstrap *)

Module Scripts.

Import Js OAuth.

(** [URLSearchParams.get]: the first value of that name, or [null]. *)
Fixpoint get (name : string) (params : list (string * string)) : field :=
  match params with
  | [] => None
  | (k, v) :: rest => if String.eqb k name then Some v else get name rest
  end.

(** The parsed [document.location]. *)
Record location := Location {
  loc_origin : string;
  pathname : string;
  searchParams : list (string * string)
}.

Inductive effect :=
| ConsoleLog (line : string)
| ConsoleWarn (line : string)
| ConsoleError (line : string)
| LocationReplace (url : string)                      (* window.location.replace(url) *)
| LocationAssign (url : auth_url)                     (* window.location.href = url *)
| FrameLoad (url : auth_url)                          (* a hidden iframe with this src *)
| ParentPostMessage (message : payload) (targetOrigin : string)
| HistoryReplaceState (url : string)
| TokenPost (request : token_request).

(** A value inside a template literal. *)
Definition interpolate (f : field) : string :=
  match f with Some s => s | None => "null" end.

(** [top_is_self] is [window.top === window.self]. *)
Definition forgeRockCallback (url : location) (top_is_self : bool) : list effect :=
  let authCode := get "code" (searchParams url) in
  let state := get "state" (searchParams url) in
  let error := get "error" (searchParams url) in
  if field_truthy state && (field_truthy authCode || field_truthy error) then
    if top_is_self then
      if field_truthy authCode then
        let applicationPath := JsString.replace_first "/callback" "/" (pathname url) in
        [ ConsoleLog "Handling callback in focus.";
          LocationReplace
            (JsString.join [applicationPath; "?code="; interpolate authCode;
                            "&state="; interpolate state]%string) ]
      else
        let applicationPath := JsString.replace_first "/callback" "/" (pathname url) in
        [ ConsoleLog "Handling callback in focus.";
          LocationReplace
            (JsString.join [applicationPath; "?error="; interpolate error;
                            "&state="; interpolate state]%string) ]
    else
      let targetOrigin := loc_origin url in
      [ ConsoleLog "Handling callback in iframe.";
        ParentPostMessage (Payload (Some "oauthCallback"%string) authCode state error)
                          targetOrigin ]
  else [].

(** How far an [async] function has got: suspended at an [await], or
    finished. *)
Inductive progress :=
| Awaiting
| Finished (c : completion unit).

Section Silent.

Variable cfg : iam_config.
Variable URL_origin : string -> option string.
Variable state0 : string.

(** The page with an empty token slot and a blank console. A handler adds
    to the console and fills the slot without reading either, so on this
    page a delivery shows what it writes and what it sends. *)
Definition blank (p : page) : page :=
  Page (storage p) (iframe p) (timer p) (listener p) (outcome p) None [] (uncaught p).

(** What one delivery asks of the outside world: the warning of the
    handler, the token POST it sends. *)
Definition asked (p : page) (ev : event) : list effect :=
  let p' := deliver cfg URL_origin state0 (blank p) ev in
  map ConsoleWarn (console p')
  ++ match exchange p' with
     | Some request => [TokenPost request]
     | None => []
     end.

Fixpoint trace (p : page) (evs : list event) : list effect :=
  match evs with
  | [] => []
  | ev :: rest => asked p ev ++ trace (deliver cfg URL_origin state0 p ev) rest
  end.

(** The events that come while the promise of the attempt is pending: an
    [await] on it resumes as soon as it has settled. *)
Fixpoint while_pending (p : page) (evs : list event) : list event :=
  match evs with
  | [] => []
  | ev :: rest =>
      match outcome p with
      | Pending => ev :: while_pending (deliver cfg URL_origin state0 p ev) rest
      | Settled _ => []
      end
  end.

End Silent.

(** [loadForgeRock]. [reply] is the answer the token endpoint gives to the
    POST of the callback branch. In the last branch the function awaits
    [getAccessToken()]: [r] is the randomness source, [URL_origin] the URL
    parser and [events] what happens to the silent attempt, in order; the
    function takes part in them until the promise of the attempt has
    settled. The result is the store afterwards, what was asked of the
    outside world, and how far the call has got; [redirectToLogin] is
    started without being awaited, and what it does is part of the
    result. *)
Definition loadForgeRock (cfg : iam_config) (URL_origin : string -> option string)
    (r : rng) (url : location) (store : gmap string item) (reply : fetch_result)
    (events : list event)
  : gmap string item * list effect * progress :=
  let code := get "code" (searchParams url) in
  let state := get "state" (searchParams url) in
  let error := get "error" (searchParams url) in
  if field_truthy error then
    (store, [ConsoleError "OAuth error:"], Finished (Returned tt))
  else if field_truthy code && field_truthy state then
    match JSON_parse (store !! interpolate state) with
    | Thrown e => (store, [], Finished (Thrown e))
    | Returned (true, pkceData_verifier) =>
        let store' := delete (interpolate state) store in
        let request := token_request_of cfg (interpolate code) pkceData_verifier in
        match exchangeCodeForToken reply with
        | Resolves _ =>
            (store', [TokenPost request; HistoryReplaceState (pathname url)],
             Finished (Returned tt))
        | Rejects _ =>
            (store', [TokenPost request; ConsoleError "Token exchange failed:"],
             Finished (Returned tt))
        end
    | Returned (false, _) =>
        (store,
         [ConsoleError "PKCE data not found - possible CSRF attack or session timeout"],
         Finished (Returned tt))
    end
  else
    let '(state0, r1, p0) := getAccessTokenSilently cfg r store in
    let during := while_pending cfg URL_origin state0 p0 events in
    let p := deliver_all cfg URL_origin state0 p0 during in
    let seen := match iframe p0 with
                | Some authUrl => [FrameLoad authUrl]
                | None => []
                end ++ trace cfg URL_origin state0 p0 during in
    match outcome p with
    | Pending => (storage p, seen, Awaiting)
    | Settled silent =>
        let access := getAccessToken silent (Resolves None) in
        if calls_redirectToLogin access then
          let '(authUrl, _, store') := redirectToLogin cfg r1 (storage p) in
          (store', seen ++ [LocationAssign authUrl], Finished (Returned tt))
        else
          match returns access with
          | Resolves _ => (storage p, seen, Finished (Returned tt))
          | Rejects _ =>
              (storage p, seen ++ [ConsoleError "Failed to get token:"],
               Finished (Returned tt))
          end
    end.

End Scripts.

(** ** The URL parser and [URLSearchParams], as far as a query goes

    What the page a navigation leads to finds in
    [new URLSearchParams(window.location.search)]. Text is a list of UTF-16
    code units, bytes are numbers. *)

Module Url.

(** Leading and trailing C0 controls and spaces are cut off a URL, tabs and
    newlines are taken out of it. *)
Fixpoint drop_leading (us : list Z) : list Z :=
  match us with
  | [] => []
  | u :: rest => if u <=? 32 then drop_leading rest else us
  end.

Definition trim (us : list Z) : list Z := rev (drop_leading (rev (drop_leading us))).

Definition tab_or_newline (u : Z) : bool := (u =? 9) || (u =? 10) || (u =? 13).

Definition clean (us : list Z) : list Z :=
  List.filter (fun u => negb (tab_or_newline u)) (trim us).

(** What precedes and what follows the first [c]. *)
Fixpoint before (c : Z) (us : list Z) : list Z :=
  match us with
  | [] => []
  | u :: rest => if u =? c then [] else u :: before c rest
  end.

Fixpoint after (c : Z) (us : list Z) : option (list Z) :=
  match us with
  | [] => None
  | u :: rest => if u =? c then Some rest else after c rest
  end.

(** The query of a URL reference: from the first [?] to the first [#]. *)
Definition query_of (reference : list Z) : option (list Z) :=
  after 63 (before 35 (clean reference)).

Definition hex_digit (n : Z) : Z := if n <? 10 then 48 + n else 55 + n.

Definition percent_encode (b : Z) : list Z := [37; hex_digit (b / 16); hex_digit (b mod 16)].

(** The bytes a query keeps escaped in an [http(s)] URL: controls, space,
    both quotes, [#], [<], [>] and everything above [~]. *)
Definition escaped_in_query (b : Z) : bool :=
  (b <=? 32) || (126 <? b) || (b =? 34) || (b =? 35) || (b =? 39) || (b =? 60) || (b =? 62).

Definition encode_query (q : list Z) : list Z :=
  flat_map (fun b => if escaped_in_query b then percent_encode b else [b])
           (TextEncoder.encode q).

(** [location.search]: empty without a query or with an empty one. *)
Definition search (reference : list Z) : list Z :=
  match query_of reference with
  | Some (u :: q) => 63 :: encode_query (u :: q)
  | _ => []
  end.

(** The pieces between separators. *)
Fixpoint split (sep : Z) (bs : list Z) : list (list Z) :=
  match bs with
  | [] => [[]]
  | b :: rest =>
      if b =? sep then [] :: split sep rest
      else match split sep rest with
           | piece :: pieces => (b :: piece) :: pieces
           | [] => [[b]]
           end
  end.

Definition is_hex (b : Z) : bool :=
  ((48 <=? b) && (b <=? 57)) || ((65 <=? b) && (b <=? 70)) || ((97 <=? b) && (b <=? 102)).

Definition hex_value (b : Z) : Z :=
  if b <=? 57 then b - 48 else if b <=? 70 then b - 55 else b - 87.

Fixpoint percent_decode (bs : list Z) : list Z :=
  match bs with
  | [] => []
  | b :: rest =>
      match rest with
      | h :: l :: rest' =>
          if (b =? 37) && is_hex h && is_hex l
          then (16 * hex_value h + hex_value l) :: percent_decode rest'
          else b :: percent_decode rest
      | _ => b :: percent_decode rest
      end
  end.

(** UTF-8 decoding that puts U+FFFD for every ill-formed sequence. *)
Inductive lead_byte :=
| Single (c : Z)
| Expect (c : Z) (more : nat) (lower upper : Z).

Definition lead (b : Z) : lead_byte :=
  if b <=? 127 then Single b
  else if (194 <=? b) && (b <=? 223) then Expect (b mod 32) 1 128 191
  else if (224 <=? b) && (b <=? 239)
       then Expect (b mod 16) 2 (if b =? 224 then 160 else 128) (if b =? 237 then 159 else 191)
  else if (240 <=? b) && (b <=? 244)
       then Expect (b mod 8) 3 (if b =? 240 then 144 else 128) (if b =? 244 then 143 else 191)
  else Single 65533.

Fixpoint utf8_decode (pending : option (Z * nat * Z * Z)) (bs : list Z) : list Z :=
  match bs with
  | [] => match pending with None => [] | Some _ => [65533] end
  | b :: rest =>
      let afresh :=
        match lead b with
        | Single c => c :: utf8_decode None rest
        | Expect c more lower upper => utf8_decode (Some (c, more, lower, upper)) rest
        end in
      match pending with
      | None => afresh
      | Some (c, more, lower, upper) =>
          if (lower <=? b) && (b <=? upper) then
            match more with
            | S (S more') => utf8_decode (Some (c * 64 + b mod 64, S more', 128, 191)) rest
            | _ => (c * 64 + b mod 64) :: utf8_decode None rest
            end
          else 65533 :: afresh
      end
  end.

(** A code point as UTF-16 code units. *)
Definition utf16 (c : Z) : list Z :=
  if c <? 65536 then [c]
  else [55296 + (c - 65536) / 1024; 56320 + (c - 65536) mod 1024].

Definition form_text (bs : list Z) : list Z :=
  flat_map utf16
    (utf8_decode None (percent_decode (map (fun b => if b =? 43 then 32 else b) bs))).

(** The [application/x-www-form-urlencoded] parser behind
    [new URLSearchParams(text)]. *)
Definition form_pair (bs : list Z) : list Z * list Z :=
  (form_text (before 61 bs),
   form_text (match after 61 bs with Some value => value | None => [] end)).

Definition URLSearchParams (text : list Z) : list (list Z * list Z) :=
  let text' := match text with 63 :: rest => rest | _ => text end in
  map form_pair
      (List.filter (fun piece => match piece with [] => false | _ => true end)
                   (split 38 (TextEncoder.encode text'))).

(** Text of 8-bit characters as a [string]; other text is outside these
    strings. *)
Fixpoint to_string (us : list Z) : option string :=
  match us with
  | [] => Some EmptyString
  | u :: rest =>
      if (0 <=? u) && (u <=? 255)
      then option_map (String (ascii_of_nat (Z.to_nat u))) (to_string rest)
      else None
  end.

Fixpoint to_params (pairs : list (list Z * list Z)) : option (list (string * string)) :=
  match pairs with
  | [] => Some []
  | (name, value) :: rest =>
      match to_string name, to_string value, to_params rest with
      | Some n, Some v, Some ps => Some ((n, v) :: ps)
      | _, _, _ => None
      end
  end.

(** The parameters the page finds after a navigation to [reference]. *)
Definition searchParams (reference : string) : option (list (string * string)) :=
  to_params (URLSearchParams (search (JsString.units reference))).

End Url.

(** ** [scripts/session.js]: the session monitor *)

Module Session.

Import Js.

Inductive effect :=
| ConsoleLog (line : string)
| ConsoleWarn (line : string)
| ConsoleError (line : string)
| PostValidate          (* POST {baseUrl}/api/iam/v1/sessions?_action=validate *)
| PostLogout            (* POST {baseUrl}/api/iam/v1/sessions?_action=logout *)
| Reload.               (* window.location.reload() *)

(** Code that talks to the outside world: what it did, and how it ended. *)
Definition io (A : Type) : Type := list effect * completion A.

#[global] Instance io_ret : MRet io := fun A a => ([], Returned a).
#[global] Instance io_bind : MBind io := fun A B k c =>
  match c with
  | (done, Returned a) => let '(more, r) := k a in (done ++ more, r)
  | (done, Thrown e) => (done, Thrown e)
  end.

Definition emit (e : effect) : io unit := ([e], Returned tt).
Definition throw {A} (e : error) : io A := ([], Thrown e).

(** [try { body } catch (err) { handler }] *)
Definition try_catch {A} (body : io A) (handler : error -> io A) : io A :=
  match body with
  | (done, Thrown e) => let '(more, r) := handler e in (done ++ more, r)
  | finished => finished
  end.

(** [await fetch(...)] with the given request: the request leaves, then
    the call returns the response or throws. *)
Definition fetch (request : effect) (reply : fetch_result)
  : io (bool * Z * option json) :=
  emit request;;
  match reply return io (bool * Z * option json) with
  | NetworkError reason => throw (Error reason)
  | Response ok status _ body => mret (ok, status, body)
  end.

(** [await resp.json()] *)
Definition json_of (body : option json) : io json :=
  match body with
  | Some data => mret data
  | None => throw (Error "Unexpected token in JSON")
  end.

Definition doLogout (reply : fetch_result) : io unit :=
  try_catch
    (fetch PostLogout reply;; mret tt)
    (fun err => emit (ConsoleError "Logout API failed:")).

(** The state of one checker: the closure variables [lastCheck] and
    [attached]. *)
Record checker := Checker { lastCheck : Z; attached : bool }.

(** [createSessionChecker()] called when the clock shows [now]. *)
Definition createSessionChecker (now : Z) : checker := Checker now false.

Definition validateSession (reply : fetch_result) : io bool :=
  try_catch
    ('(ok, status, body) ← fetch PostValidate reply;
     if negb (ok : bool) then
       emit (ConsoleWarn "Session validate API returned status");;
       mret false
     else
       data ← json_of body;
       mret (if truthy data then truthy_value (prop "valid" data) else false))
    (fun err => emit (ConsoleError "Session validation error:");; mret false).

(** One activity event as the handler meets it: the clock, and the
    answers the provider gives if it is asked. *)
Record activity := Activity {
  at_ms : Z;
  validate_reply : fetch_result;
  logout_reply : fetch_result
}.

Section Monitor.

Variable cfg : iam_config.

Definition checkIfNeeded (ev : activity) (c : checker) : checker * io unit :=
  let interval := sessionCheckInterval cfg in
  let nowTs := at_ms ev in
  if nowTs - lastCheck c >=? interval then
    (Checker nowTs (attached c),
     emit (ConsoleLog "sessionChecker: validating session at");;
     valid ← validateSession (validate_reply ev);
     if negb valid then
       emit (ConsoleLog "sessionChecker: session invalid, logging out");;
       doLogout (logout_reply ev);;
       emit Reload
     else mret tt)
  else (c, mret tt).

Definition activityHandler (ev : activity) (c : checker) : checker * io unit :=
  let '(c', body) := checkIfNeeded ev c in
  (c', try_catch body
         (fun err => emit (ConsoleError "Error during session check on activity:"))).

Definition attach (c : checker) : checker * list effect :=
  if attached c then (c, [])
  else (Checker (lastCheck c) true, [ConsoleLog "sessionChecker: attached event handlers"]).

Definition detach (c : checker) : checker * list effect :=
  if negb (attached c) then (c, [])
  else (Checker (lastCheck c) false, [ConsoleLog "sessionChecker: detached event handlers"]).

(** A run of activity events through the handler: the checker
    afterwards and everything that was done, in order. *)
Fixpoint activities (evs : list activity) (c : checker) : checker * list effect :=
  match evs with
  | [] => (c, [])
  | ev :: rest =>
      let '(c1, (done, _)) := activityHandler ev c in
      let '(c2, more) := activities rest c1 in
      (c2, done ++ more)
  end.

Definition is_validate (e : effect) : bool :=
  match e with PostValidate => true | _ => false end.

(** How many validation calls reached the provider. *)
Definition validations (done : list effect) : nat :=
  length (List.filter is_validate done).

End Monitor.

End Session.

(** ** What the properties observe *)

Module Observe.

Import Js OAuth.

(** [+], [/] and [=] rewritten as [generateCodeChallenge] does. *)
Definition urlsafe (s : string) : string :=
  JsString.replace_all "=" ""
    (JsString.replace_all "/" "_" (JsString.replace_all "+" "-" s)).

(** The character class [A-Za-z0-9-._] of the design document. *)
Definition in_class (c : ascii) : bool :=
  let n := nat_of_ascii c in
  ((65 <=? n) && (n <=? 90) || (97 <=? n) && (n <=? 122) || (48 <=? n) && (n <=? 57)
   || (n =? 45) || (n =? 46) || (n =? 95))%nat.

(** The state of an attempt without its diagnostics: PKCE store, frame,
    timer, listener, promise and pending token request. *)
Definition controller (p : page) : page :=
  Page (storage p) (iframe p) (timer p) (listener p) (outcome p) (exchange p) [] [].

(** A message the handler acts on: sent from the origin of the redirect
    URI, with [type] equal to ['oauthCallback']. *)
Definition accepted (cfg : iam_config) (URL_origin : string -> option string)
    (m : message_event) : bool :=
  match URL_origin (redirectUri cfg), data m with
  | Some o, Some d => String.eqb (origin m) o && field_is (msg_type d) "oauthCallback"
  | _, _ => false
  end.

(** A callback message that carries a code and the state of the attempt,
    and no error. *)
Definition code_callback (cfg : iam_config) (URL_origin : string -> option string)
    (state0 : string) (m : message_event) : bool :=
  accepted cfg URL_origin m
  && match data m with
     | Some d => negb (field_truthy (msg_error d)) && field_truthy (msg_code d)
                 && field_is (msg_state d) state0
     | None => false
     end.

(** A top-level callback URL that carries a code and state [s], and no
    error. *)
Definition code_url (s : string) (url : Scripts.location) : bool :=
  negb (field_truthy (Scripts.get "error" (Scripts.searchParams url)))
  && field_truthy (Scripts.get "code" (Scripts.searchParams url))
  && field_is (Scripts.get "state" (Scripts.searchParams url)) s
  && JsString.nonempty s.

(** A character that stands for itself in a query value: printable ASCII
    other than the space, the quotes and [#], [%], [&], [+], [<], [>]. *)
Definition stands_for_itself (u : Z) : bool :=
  (32 <? u) && (u <? 127)
  && negb ((u =? 34) || (u =? 35) || (u =? 37) || (u =? 38) || (u =? 39)
           || (u =? 43) || (u =? 60) || (u =? 62)).

Definition plain (s : string) : bool := forallb stands_for_itself (JsString.units s).

(** A plain parameter name holds no [=] either. *)
Definition plain_name (s : string) : bool :=
  forallb (fun u => stands_for_itself u && negb (u =? 61)) (JsString.units s).

(** A path as the URL parser leaves it in [pathname]: no control, no space,
    no [?] and no [#]. *)
Definition is_path (s : string) : bool :=
  forallb (fun u => (32 <? u) && negb ((u =? 35) || (u =? 63))) (JsString.units s).

(** [name=value] pieces joined by [&]. *)
Fixpoint query_string (pairs : list (string * string)) : string :=
  match pairs with
  | [] => EmptyString
  | [(name, value)] => String.append name (String "=" value)
  | (name, value) :: rest =>
      String.append name (String "=" (String.append value (String "&" (query_string rest))))
  end.

(** The code units of one [name=value] piece. *)
Definition piece (pair : string * string) : list Z :=
  JsString.units (fst pair) ++ 61 :: JsString.units (snd pair).

Definition plain_pair (pair : string * string) : Prop :=
  plain_name (fst pair) = true /\ plain (snd pair) = true.

(** A code unit that a query carries as it is, [&] and [=] among them. *)
Definition quiet (u : Z) : Prop :=
  32 < u < 127 /\ u <> 34 /\ u <> 35 /\ u <> 37 /\ u <> 39 /\ u <> 43 /\ u <> 60 /\ u <> 62.

(** The token requests among what was done, in order. *)
Definition posts (done : list Scripts.effect) : list token_request :=
  flat_map (fun e => match e with
                     | Scripts.TokenPost request => [request]
                     | _ => []
                     end) done.

(** Whether the interactive redirect is among what was done. *)
Definition redirects (done : list Scripts.effect) : bool :=
  existsb (fun e => match e with
                    | Scripts.LocationAssign _ => true
                    | _ => false
                    end) done.

(** The words of the design document for a reply that does not show a
    live session: the request failed, the status is not a success, the body
    is not JSON, or its [valid] field is falsy. *)
Definition fails_validation (reply : fetch_result) : bool :=
  match reply with
  | NetworkError _ => true
  | Response false _ _ _ => true
  | Response true _ _ None => true
  | Response true _ _ (Some data) => negb (truthy_value (prop "valid" data))
  end.

(** What the monitor asked of the provider and of the page, without the
    console lines. *)
Definition requests (done : list Session.effect) : list Session.effect :=
  List.filter (fun e => match e with
                        | Session.PostValidate | Session.PostLogout | Session.Reload => true
                        | _ => false
                        end) done.

End Observe.

(** ** The end-to-end scenario of the design document

    Configuration [{authEndpoint: 'https://idp/authorize', tokenEndpoint:
    'https://idp/token', clientId: 'abc', redirectUri:
    'https://app/callback'}] and a fixed supply of random values. *)

Module Scenario.

Import Js OAuth.

Definition cfg : iam_config :=
  IamConfig "abc" ["openid"; "profile"; "email"; "attribute:agent_ids.read"]%string
            "https://app/callback" "https://idp" "/authorize" "/token" 120000 10000.

Definition URL_origin (s : string) : option string :=
  if String.eqb s "https://app/callback" then Some "https://app"%string else None.

Definition entropy : rng := fun i => 7 * Z.of_nat i + 3.

Definition start := getAccessTokenSilently cfg entropy ∅.
Definition state0 : string := fst (fst start).
Definition page0 : page := snd start.

Definition material : pkce := fst (fst (generateAndStorePKCE entropy ∅)).

(** The message the framed callback page posts. *)
Definition callback (code state error : field) : message_event :=
  MessageEvent "https://app" (Some (Payload (Some "oauthCallback"%string) code state error)).

Definition token_reply : fetch_result :=
  Response true 200 "OK" (Some (JObj [("access_token"%string, JStr "tok123")])).

End Scenario.

(** ** [scripts/scripts.js]: link helpers and the fonts flag *)

Module Links.

Import OAuth.

(** [s.includes(p)], which is also [s.indexOf(p) !== -1]. *)
Fixpoint includes (s p : string) : bool :=
  JsString.starts_with p s
  || match s with
     | EmptyString => false
     | String _ s' => includes s' p
     end.

(** [getEDSLink]; [aemRoot] is [window.hlx.aemRoot], which the script sets
    to ['/content/cil']. *)
Definition getEDSLink (aemRoot : field) (aemPath : string) : string :=
  if field_truthy aemRoot then
    JsString.replace_first "/index" "/"
      (JsString.replace_first ".html" ""
         (JsString.replace_first (field_text aemRoot) "" aemPath))
  else aemPath.

(** [getLink] *)
Definition getLink (aemRoot : field) (edsPath : string) : string :=
  if field_truthy aemRoot
     && negb (JsString.starts_with (field_text aemRoot) edsPath)
     && negb (includes edsPath ".html")
  then JsString.join [field_text aemRoot; edsPath; ".html"%string]
  else edsPath.

(** What [loadFonts] leaves in [sessionStorage] once the style sheet is
    loaded: the text ['true'] under ['fonts-loaded'], except on localhost. *)
Definition loadFonts (hostname : string) (store : gmap string item) : gmap string item :=
  if negb (includes hostname "localhost")
  then <["fonts-loaded"%string := OtherJson true]> store
  else store.

End Links.

(** ** [scripts/session.js]: the listeners of [attach] and [detach] *)

Module SessionDom.

Import Js Session.

Inductive target := Window | Document.

Definition target_eqb (a b : target) : bool :=
  match a, b with
  | Window, Window | Document, Document => true
  | _, _ => false
  end.

(** A registration of [activityHandler]: the target and the event type. *)
Definition registration : Type := target * string.

Definition registration_eqb (a b : registration) : bool :=
  target_eqb (fst a) (fst b) && String.eqb (snd a) (snd b).

Definition registered (k : registration) (regs : list registration) : bool :=
  existsb (registration_eqb k) regs.

(** [addEventListener] with a listener that is already registered for that
    type on that target does nothing. *)
Definition addEventListener (regs : list registration) (k : registration)
  : list registration :=
  if registered k regs then regs else regs ++ [k].

Definition removeEventListener (regs : list registration) (k : registration)
  : list registration :=
  List.filter (fun r => negb (registration_eqb k r)) regs.

(** The nine registrations, in the order of the source. *)
Definition activity_events : list registration :=
  [ (Window, "click"); (Window, "keypress"); (Window, "focus");
    (Window, "mousemove"); (Window, "scroll"); (Window, "blur");
    (Window, "touchstart"); (Window, "touchmove");
    (Document, "visibilitychange") ]%string.

(** A checker and the registrations of its handler. *)
Record monitor := Monitor { state : checker; regs : list registration }.

Definition attach (m : monitor) : monitor * list effect :=
  if attached (state m) then (m, [])
  else (Monitor (Checker (lastCheck (state m)) true)
                (fold_left addEventListener activity_events (regs m)),
        [ConsoleLog "sessionChecker: attached event handlers"]).

Definition detach (m : monitor) : monitor * list effect :=
  if negb (attached (state m)) then (m, [])
  else (Monitor (Checker (lastCheck (state m)) false)
                (fold_left removeEventListener activity_events (regs m)),
        [ConsoleLog "sessionChecker: detached event handlers"]).

(** An event of type [snd k] fired on target [fst k]: the handler runs if
    it is registered for it. *)
Definition dispatch (cfg : iam_config) (k : registration) (ev : activity) (m : monitor)
  : monitor * list effect :=
  if registered k (regs m) then
    let '(c, (done, _)) := activityHandler cfg ev (state m) in
    (Monitor c (regs m), done)
  else (m, []).

End SessionDom.

(** ** [blocks/header]: the logout link *)

Module Header.

Import Js Session.

(** The click handler of the logout link, after [preventDefault]. *)
Definition logout_click (reply : fetch_result) : io unit :=
  doLogout reply;;
  emit Reload.

End Header.

(** ** [scripts/config.js] *)

Module Config.

Import Js.

(** [toLowerCase] on a string of 8-bit characters. *)
Definition lower_char (c : ascii) : ascii :=
  let n := nat_of_ascii c in
  if ((65 <=? n) && (n <=? 90) || (192 <=? n) && (n <=? 214)
      || (216 <=? n) && (n <=? 222))%nat
  then ascii_of_nat (n + 32) else c.

Fixpoint toLowerCase (s : string) : string :=
  match s with
  | EmptyString => EmptyString
  | String c s' => String (lower_char c) (toLowerCase s')
  end.

Definition dev : string := "https://publish-p138853-e1404402.adobeaemcloud.com/".
Definition stage : string := "https://publish-p138853-e1404403.adobeaemcloud.com/".
Definition prod : string := "https://publish-p138853-e1404355.adobeaemcloud.com/".

(** What [env[key]] can be: one of the three URLs, or a member inherited
    from [Object.prototype]. *)
Inductive env_value :=
| EnvUrl (url : string)
| EnvInherited (name : string).

(** [env[key]]; the only all-lowercase names on [Object.prototype] are
    [constructor] and [__proto__]. *)
Definition env_member (key : string) : option env_value :=
  if String.eqb key "dev" then Some (EnvUrl dev)
  else if String.eqb key "stage" then Some (EnvUrl stage)
  else if String.eqb key "prod" then Some (EnvUrl prod)
  else if String.eqb key "constructor" || String.eqb key "__proto__"
       then Some (EnvInherited key)
  else None.

(** [v.k] where [v] may be [undefined] or [null], which throws. *)
Definition member_of (k : string) (v : value) : completion value :=
  match v with
  | None | Some JNull => Thrown (Error "Cannot read properties")
  | Some j => Returned (prop k j)
  end.

(** [v[0]] *)
Definition first_of (v : value) : completion value :=
  match v with
  | None | Some JNull => Thrown (Error "Cannot read properties")
  | Some (JArr elems) => Returned (head elems)
  | Some (JStr s) =>
      Returned (match s with
                | EmptyString => None
                | String c _ => Some (JStr (String c EmptyString))
                end)
  | Some (JObj fields) => Returned (member "0" fields)
  | Some _ => Returned None
  end.

(** [data.environment?.toLowerCase()]: [undefined] for a missing or [null]
    environment, a [TypeError] for a value without that method. *)
Definition environment_key (environment : value) : completion (option string) :=
  match environment with
  | None | Some JNull => Returned None
  | Some (JStr s) => Returned (Some (toLowerCase s))
  | Some _ => Thrown (Error "toLowerCase is not a function")
  end.

Record config := MkConfig {
  app_baseUrl : string;
  app_environment : env_value;
  iam_clientId : value;
  iam_scopes : list string;
  iam_redirectUri : string;
  iam_baseUrl : value;
  iam_brand : value;                 (* spliced into the three endpoints *)
  iam_sessionCheckInterval : value;
  iam_timeout : value
}.

(** A value inside a template literal; [text_of] is the string conversion
    of a JSON value that is not a string. *)
Definition template (text_of : json -> string) (v : value) : string :=
  match v with
  | None => "undefined"
  | Some (JStr s) => s
  | Some j => text_of j
  end.

Definition authorizationEndpoint (text_of : json -> string) (c : config) : string :=
  JsString.join ["/api/openid/oauth/v3/"; template text_of (iam_brand c); "/authorize"]%string.
Definition tokenEndpoint (text_of : json -> string) (c : config) : string :=
  JsString.join ["/api/openid/oauth/v3/"; template text_of (iam_brand c); "/access_token"]%string.
Definition sessionEndpoint (text_of : json -> string) (c : config) : string :=
  JsString.join ["/api/openid/oauth/v3/"; template text_of (iam_brand c); "/sessions"]%string.

(** [env[key] || env.dev] *)
Definition choose_environment (key : option string) : env_value :=
  match env_member (match key with Some k => k | None => "undefined"%string end) with
  | Some v => v
  | None => EnvUrl dev
  end.

(** The object literal, for values [configValues] that are not [undefined]
    or [null]. *)
Definition assemble (origin : string) (environment : env_value) (configValues : json)
  : config :=
  MkConfig origin environment (prop "clientId" configValues)
    ["openid"; "profile"; "email"; "attribute:agent_ids.read"]%string
    (String.append origin "/callback")
    (prop "baseUrl" configValues) (prop "brand" configValues)
    (prop "sessionCheckInterval" configValues) (prop "timeout" configValues).

(** The body of the [try] block once the fetch has an answer. *)
Definition build (origin : string) (reply : fetch_result) : completion config :=
  match reply with
  | NetworkError reason => Thrown (Error reason)
  | Response _ _ _ None => Thrown (Error "Unexpected token in JSON")
  | Response _ _ _ (Some data) =>
      match member_of "data" (Some data) with
      | Thrown e => Thrown e
      | Returned data_data =>
          match first_of data_data with
          | Thrown e => Thrown e
          | Returned configValues =>
              match environment_key (prop "environment" data) with
              | Thrown e => Thrown e
              | Returned key =>
                  match configValues with
                  | None | Some JNull =>
                      (* configValues.clientId *)
                      Thrown (Error "Cannot read properties")
                  | Some values =>
                      Returned (assemble origin (choose_environment key) values)
                  end
              end
          end
      end
  end.

(** [forgeRockConfig]: the configuration, or [undefined] after one line on
    the console. *)
Definition forgeRockConfig (origin : string) (reply : fetch_result)
  : list string * option config :=
  match build origin reply with
  | Returned c => ([], Some c)
  | Thrown _ => (["Error loading ForgeRock Config:"%string], None)
  end.

End Config.

(** ** [blocks/distributor]: the caller of [getAccessToken] *)

Module Distributor.

Import Js OAuth.

Fixpoint take (n : nat) (s : string) : string :=
  match n, s with
  | S n', String c s' => String c (take n' s')
  | _, _ => EmptyString
  end.

(** [formatPhoneNumber] for a number that is a string or absent. *)
Definition formatPhoneNumber (num : field) : string :=
  let str := match num with
             | Some s => s
             | None => EmptyString
             end in
  if (4 <=? String.length str)%nat
  then JsString.join [take 4 str; " "; take 3 (JsString.drop 4 str); " ";
                      JsString.drop 7 str]%string
  else str.

Inductive effect :=
| ConsoleError (line : string)
| FetchDealerInfo (url authorization : string)
| ShowFailure.          (* the block shows "Failed to load distributor details." *)

(** [decorate] from the call of [getAccessToken] to the dealer-info
    request (the block is not on localhost or an author page).
    [environment] is the text of [config.app.environment], or [None] when
    [forgeRockConfig] returned [undefined]; [token] is how [getAccessToken]
    settles. *)
Definition decorate_request (text_of : json -> string) (environment : option string)
    (token : settled) : list effect :=
  match token with
  | Resolves accessToken =>
      match environment with
      | Some env =>
          [ FetchDealerInfo (String.append env "/bin/dealerinfo.json")
              (String.append "Bearer " (Config.template text_of accessToken)) ]
      | None => [ ConsoleError "Error loading dealer details:"; ShowFailure ]
      end
  | Rejects _ =>
      [ ConsoleError "Error loading dealer details:"; ShowFailure ]
  end.

End Distributor.

(** ** [scripts/scripts.js]: moving attributes between elements *)

Module Dom.

(** The attributes of an element, in document order, by qualified name as
    the document stores it. *)
Definition attrs : Type := list (string * string).

(** [el.getAttribute(name)]: the value of the first attribute of that
    name, or [null]. *)
Fixpoint getAttribute (name : string) (a : attrs) : option string :=
  match a with
  | [] => None
  | (k, v) :: rest => if String.eqb k name then Some v else getAttribute name rest
  end.

(** [el.setAttribute(name, value)]: the first attribute of that name gets
    the value; without one, a new attribute is appended. *)
Fixpoint setAttribute (name value : string) (a : attrs) : attrs :=
  match a with
  | [] => [(name, value)]
  | (k, v) :: rest =>
      if String.eqb k name then (k, value) :: rest
      else (k, v) :: setAttribute name value rest
  end.

(** [el.removeAttribute(name)]: the first attribute of that name goes. *)
Fixpoint removeAttribute (name : string) (a : attrs) : attrs :=
  match a with
  | [] => []
  | (k, v) :: rest =>
      if String.eqb k name then rest else (k, v) :: removeAttribute name rest
  end.

(** The elements of the document by identity; two references to one
    element are one key. *)
Abbreviation document := (gmap nat attrs).

Definition attributes (doc : document) (el : nat) : attrs :=
  match doc !! el with
  | Some a => a
  | None => []
  end.

(** The body of the [forEach]; [to] is [None] for a [null] or [undefined]
    target. *)
Definition move_one (from : nat) (to : option nat) (doc : document) (attr : string)
  : document :=
  match getAttribute attr (attributes doc from) with
  | Some value =>
      if JsString.nonempty value then
        let doc1 := match to with
                    | Some t => <[t := setAttribute attr value (attributes doc t)]> doc
                    | None => doc
                    end in
        <[from := removeAttribute attr (attributes doc1 from)]> doc1
      else doc
  | None => doc
  end.

(** [moveAttributes(from, to, attributes)]; without a list, the names of all
    attributes of [from]. *)
Definition moveAttributes (doc : document) (from : nat) (to : option nat)
    (names : option (list string)) : document :=
  let names := match names with
               | Some l => l
               | None => map fst (attributes doc from)
               end in
  fold_left (move_one from to) names doc.

Definition is_instrumentation (attr : string) : bool :=
  JsString.starts_with "data-aue-" attr || JsString.starts_with "data-richtext-" attr.

Definition moveInstrumentation (doc : document) (from : nat) (to : option nat) : document :=
  moveAttributes doc from to
    (Some (List.filter is_instrumentation (map fst (attributes doc from)))).

(** Is [name] in the list and does [from0] hold a non-empty value for it? *)
Definition moved (names : list string) (from0 : attrs) (name : string) : bool :=
  existsb (String.eqb name) names && OAuth.field_truthy (getAttribute name from0).

End Dom.

(** * Properties *)

(** ** Strings and lists *)

Lemma list_ind3 {A} (P : list A -> Prop) :
  P [] ->
  (forall a, P [a]) ->
  (forall a b, P [a; b]) ->
  (forall a b c l, P l -> P (a :: b :: c :: l)) ->
  forall l, P l.
Proof.
  intros H0 H1 H2 H3 l.
  enough (forall n (k : list A), (length k <= n)%nat -> P k) as Hn
    by (apply (Hn (length l)); lia).
  induction n as [|n IH]; intros k Hk.
  - destruct k; [exact H0 | simpl in Hk; lia].
  - destruct k as [|a [|b [|c k]]]; auto.
    apply H3, IH. simpl in Hk. lia.
Qed.

Lemma append_String a (s t : string) :
  String.append (String a s) t = String a (String.append s t).
Proof. reflexivity. Qed.

Lemma append_assoc (s t u : string) :
  String.append (String.append s t) u = String.append s (String.append t u).
Proof.
  induction s as [|a s IH]; [reflexivity|].
  now rewrite !append_String, IH.
Qed.

Lemma append_empty_r (s : string) : String.append s EmptyString = s.
Proof.
  induction s as [|a s IH]; [reflexivity|].
  now rewrite append_String, IH.
Qed.

Lemma replace_all_app c r (s t : string) :
  JsString.replace_all c r (String.append s t)
  = String.append (JsString.replace_all c r s) (JsString.replace_all c r t).
Proof.
  induction s as [|a s IH]; [reflexivity|].
  rewrite append_String. cbn [JsString.replace_all].
  now rewrite IH, append_assoc.
Qed.

Lemma append_one c (t : string) :
  String.append (String c EmptyString) t = String c t.
Proof. reflexivity. Qed.

Lemma join_cons (s : string) (parts : list string) :
  JsString.join (s :: parts) = String.append s (JsString.join parts).
Proof. reflexivity. Qed.

Lemma small_nat_cases (P : nat -> Prop) (bound : nat) :
  (forall n, (n < bound)%nat -> P n) ->
  forall z : Z, 0 <= z < Z.of_nat bound -> P (Z.to_nat z).
Proof. intros H z Hz. apply H. lia. Qed.

Lemma land_63_range (i : Z) : 0 <= Z.land i 63 < 64.
Proof.
  change 63 with (Z.ones 6). rewrite Z.land_ones by lia.
  change (2 ^ 6) with 64. apply Z.mod_pos_bound. lia.
Qed.

(** ** PKCE material generator *)

Module GeneratorFacts.

Import OAuth Observe.

Lemma urlsafe_app (s t : string) :
  urlsafe (String.append s t) = String.append (urlsafe s) (urlsafe t).
Proof. unfold urlsafe. now rewrite !replace_all_app. Qed.

Lemma urlsafe_sextet (i : Z) :
  urlsafe (Base64.sextet Base64.alphabet i) = Base64.sextet S256.url_alphabet i.
Proof.
  unfold Base64.sextet.
  apply (small_nat_cases
           (fun n => urlsafe (JsString.char_at Base64.alphabet n)
                     = JsString.char_at S256.url_alphabet n) 64).
  - intros n Hn. do 64 (destruct n as [|n]; [reflexivity|]). lia.
  - apply land_63_range.
Qed.

Lemma btoa_urlsafe (bs : list Z) :
  urlsafe (Base64.btoa bs) = S256.base64url_nopad bs.
Proof.
  induction bs as [| b0 | b0 b1 | b0 b1 b2 rest IH] using list_ind3.
  - reflexivity.
  - cbn [Base64.btoa S256.base64url_nopad].
    rewrite !urlsafe_app, !urlsafe_sextet.
    change (urlsafe "==") with EmptyString.
    now rewrite append_empty_r.
  - cbn [Base64.btoa S256.base64url_nopad].
    rewrite !urlsafe_app, !urlsafe_sextet.
    change (urlsafe "=") with EmptyString.
    now rewrite append_empty_r.
  - cbn [Base64.btoa S256.base64url_nopad].
    rewrite !urlsafe_app, !urlsafe_sextet. now rewrite IH.
Qed.

End GeneratorFacts.

(** C4. For every verifier, [generateCodeChallenge] is the base64url
    encoding without padding of the SHA-256 digest of the UTF-8 bytes of the
    verifier; being a function of the verifier alone it is deterministic.
    On the verifier of the RFC 7636 example it yields the challenge of that
    example. *)
Theorem C4_generateCodeChallenge_is_S256 :
  (forall verifier : list Z,
      OAuth.generateCodeChallenge verifier = S256.challenge_of verifier)
  /\ OAuth.generateCodeChallenge
       (JsString.units "dBjftJeZ4CVP-mB92K27uhbUJU1p1r_wW1gFWFOEjXk")
     = "E9Melhoa2OwvFrEMTJguCHaoeK1t8URWbuGJSstw-cM"%string.
Proof.
  split.
  - intros verifier. unfold OAuth.generateCodeChallenge, S256.challenge_of.
    apply GeneratorFacts.btoa_urlsafe.
  - vm_compute. reflexivity.
Qed.

Module RandomStringFacts.

Import OAuth Observe.

Lemma get_In (s : string) : forall n c,
  String.get n s = Some c -> In c (list_ascii_of_string s).
Proof.
  induction s as [|a s IH]; intros n c H; [discriminate|].
  destruct n as [|n]; simpl in H.
  - injection H as ->. now left.
  - right. eauto.
Qed.

(** A byte always selects one character, taken from [chars] at the
    residue of the byte modulo 65. *)
Lemma pick_one (byte : Z) :
  exists c, pick byte = String c EmptyString
            /\ String.get (Z.to_nat (byte mod 65)) chars = Some c
            /\ in_class c = true.
Proof.
  unfold pick. change (Z.of_nat (String.length chars)) with 65.
  apply (small_nat_cases
           (fun n => exists c, JsString.char_at chars n = String c EmptyString
                               /\ String.get n chars = Some c /\ in_class c = true) 65).
  - intros n Hn.
    do 65 (destruct n as [|n]; [eexists; repeat split; reflexivity|]). lia.
  - apply Z.mod_pos_bound. lia.
Qed.

Lemma join_pick_length (bytes : list Z) :
  String.length (JsString.join (map pick bytes)) = length bytes.
Proof.
  induction bytes as [|b bytes IH]; [reflexivity|].
  destruct (pick_one b) as (c & Hc & _).
  rewrite map_cons, join_cons, Hc, append_one.
  cbn [String.length length]. now rewrite IH.
Qed.

Lemma join_pick_class (bytes : list Z) :
  forallb Observe.in_class (list_ascii_of_string (JsString.join (map pick bytes))) = true.
Proof.
  induction bytes as [|b bytes IH]; [reflexivity|].
  destruct (pick_one b) as (c & Hc & _ & Hclass).
  rewrite map_cons, join_cons, Hc, append_one.
  cbn [list_ascii_of_string forallb]. now rewrite Hclass.
Qed.

Lemma generateRandomString_eq (n : nat) (r : rng) :
  generateRandomString n r
  = (JsString.join (map pick (map (fun i => r i mod 256) (seq 0 n))),
     fun i => r (n + i)%nat).
Proof. reflexivity. Qed.

Lemma generateAndStorePKCE_eq (r : rng) (store : gmap string item) :
  generateAndStorePKCE r store
  = let s := fst (generateRandomString 32 r) in
    let v := fst (generateRandomString 64 (snd (generateRandomString 32 r))) in
    let c := generateCodeChallenge (JsString.units v) in
    (Pkce s v c, snd (generateRandomString 64 (snd (generateRandomString 32 r))),
     <[s := PkceJson v c]> store).
Proof. reflexivity. Qed.

Lemma chars_NoDup : NoDup (list_ascii_of_string chars).
Proof.
  apply (bool_decide_unpack _). vm_compute. exact I.
Qed.

End RandomStringFacts.

(** C5, as the code has it. Every generated [state] has length 32 and every
    generated [verifier] length 64; each character is [chars[byte % 65]] for
    one random byte, and so lies in the class [A-Za-z0-9-._], whose 65
    symbols are exactly those of [chars]. *)
Theorem C5_state_and_verifier_shape (r : OAuth.rng) (store : gmap string OAuth.item) :
  let k := fst (fst (OAuth.generateAndStorePKCE r store)) in
  String.length (OAuth.state k) = 32%nat
  /\ String.length (OAuth.verifier k) = 64%nat
  /\ forallb Observe.in_class (list_ascii_of_string (OAuth.state k)) = true
  /\ forallb Observe.in_class (list_ascii_of_string (OAuth.verifier k)) = true
  /\ OAuth.state k
     = JsString.join (map (fun i => OAuth.pick (r i mod 256)) (seq 0 32))
  /\ OAuth.verifier k
     = JsString.join (map (fun i => OAuth.pick (r (32 + i)%nat mod 256)) (seq 0 64))
  /\ (forall byte, OAuth.pick byte = JsString.char_at OAuth.chars (Z.to_nat (byte mod 65)))
  /\ String.length OAuth.chars = 65%nat
  /\ NoDup (list_ascii_of_string OAuth.chars)
  /\ (forall c, Observe.in_class c = existsb (Ascii.eqb c) (list_ascii_of_string OAuth.chars)).
Proof.
  rewrite RandomStringFacts.generateAndStorePKCE_eq.
  rewrite !RandomStringFacts.generateRandomString_eq.
  cbn [fst snd OAuth.state OAuth.verifier]. rewrite !map_map.
  repeat split.
  - rewrite <- (map_map (fun i => r i mod 256) OAuth.pick).
    now rewrite RandomStringFacts.join_pick_length, length_map, length_seq.
  - rewrite <- (map_map (fun i => r (32 + i)%nat mod 256) OAuth.pick).
    now rewrite RandomStringFacts.join_pick_length, length_map, length_seq.
  - rewrite <- (map_map (fun i => r i mod 256) OAuth.pick).
    apply RandomStringFacts.join_pick_class.
  - rewrite <- (map_map (fun i => r (32 + i)%nat mod 256) OAuth.pick).
    apply RandomStringFacts.join_pick_class.
  - exact RandomStringFacts.chars_NoDup.
  - intros c. destruct c as [[] [] [] [] [] [] [] []]; reflexivity.
Qed.

(** C5 as stated fails: no alphabet of 66 distinct symbols is the set of
    characters the generator can draw. *)
Lemma C5_no_alphabet_of_66 :
  ~ (exists abc : list ascii,
        length abc = 66%nat /\ NoDup abc
        /\ forall c, In c abc <-> exists byte, OAuth.pick byte = String c EmptyString).
Proof.
  intros (abc & Hlen & Hnd & Hset).
  assert (Hincl : incl abc (list_ascii_of_string OAuth.chars)).
  { intros c Hc. apply Hset in Hc as [byte Hbyte].
    destruct (RandomStringFacts.pick_one byte) as (c' & Hc' & Hget & _).
    rewrite Hc' in Hbyte. injection Hbyte as <-.
    eapply RandomStringFacts.get_In, Hget. }
  apply NoDup_ListNoDup in Hnd. apply (NoDup_incl_length Hnd) in Hincl.
  rewrite Hlen in Hincl. vm_compute in Hincl. lia.
Qed.

(** ** Silent-auth controller *)

(** Unfolds a handler down to the page it builds. *)
Ltac handler_unfold :=
  unfold OAuth.deliver, OAuth.run, OAuth.messageHandler, OAuth.on_timeout, OAuth.parse_getItem, OAuth.removeItem,
    OAuth.start_exchange, OAuth.clearTimeout, OAuth.removeChild, OAuth.removeEventListener,
    OAuth.resolve, OAuth.reject,
    OAuth.console_warn, OAuth.act, OAuth.throw, mbind, OAuth.js_bind, mret, OAuth.js_ret,
    OAuth.set_storage, OAuth.set_iframe, OAuth.set_timer, OAuth.set_listener,
    OAuth.set_outcome, OAuth.set_exchange,
    OAuth.add_console, OAuth.add_uncaught in *.

Module SilentFacts.

Import Js OAuth Observe.

Section Attempt.

Variable cfg : iam_config.
Variable URL_origin : string -> option string.
Variable state0 : string.

Abbreviation deliver := (deliver cfg URL_origin state0).
Abbreviation deliver_all := (deliver_all cfg URL_origin state0).

(** Diagnostics never steer the controller. *)
Lemma deliver_controller (p : page) (ev : event) :
  controller (deliver p ev) = controller (deliver (controller p) ev).
Proof.
  destruct p as [st fr tm ls oc ex co un].
  destruct ev as [|m|reply]; handler_unfold; unfold controller; cbn.
  - destruct tm; [|reflexivity]. destruct fr; reflexivity.
  - destruct ls; [|reflexivity].
    destruct (URL_origin (redirectUri cfg)) as [o|]; [|reflexivity].
    destruct (negb (origin m =? o)%string); [reflexivity|].
    destruct (data m) as [d|]; [|reflexivity].
    destruct (field_is (msg_type d) "oauthCallback"); [|reflexivity].
    cbn. destruct fr; [|reflexivity]. cbn.
    destruct (field_is (msg_error d) "interaction_required"); [reflexivity|].
    destruct (field_truthy (msg_error d)); [reflexivity|].
    destruct (field_truthy (msg_code d) && field_is (msg_state d) state0); [|reflexivity].
    cbn. destruct (JSON_parse (st !! state0)) as [[[] v]|e]; reflexivity.
  - destruct ex; [|reflexivity]. destruct (exchangeCodeForToken reply); reflexivity.
Qed.

Lemma deliver_all_controller (evs : list event) : forall p q : page,
  controller p = controller q ->
  controller (deliver_all p evs) = controller (deliver_all q evs).
Proof.
  induction evs as [|ev evs IH]; intros p q Hpq; [exact Hpq|].
  cbn [OAuth.deliver_all fold_left]. apply IH.
  now rewrite (deliver_controller p), (deliver_controller q), Hpq.
Qed.

(** A message from any origin but the expected one changes nothing the
    controller looks at. *)
Lemma foreign_message_controller (p : page) (m : message_event) :
  URL_origin (redirectUri cfg) <> Some (origin m) ->
  controller (deliver p (MessageArrives m)) = controller p.
Proof.
  intros Hforeign. destruct p as [st fr tm ls oc ex co un].
  handler_unfold; unfold controller; cbn.
  destruct ls; [|reflexivity].
  destruct (URL_origin (redirectUri cfg)) as [o|]; [|reflexivity].
  destruct (String.eqb_spec (origin m) o) as [Heq|Hne]; [congruence|reflexivity].
Qed.

(** The timeout of a pending attempt rejects with [interaction_required]. *)
Lemma timeout_rejects (p : page) :
  timer p = true -> iframe p <> None -> outcome p = Pending ->
  outcome (deliver p TimeoutFires) = Settled (Rejects (Error "interaction_required")).
Proof.
  destruct p as [st fr tm ls oc ex co un]. cbn. intros -> Hfr ->.
  handler_unfold. cbn. destruct fr; [reflexivity | congruence].
Qed.

(** What the timeout callback leaves behind. *)
Lemma timeout_leaves (p : page) :
  timer p = true -> iframe p <> None ->
  let p1 := deliver p TimeoutFires in
  iframe p1 = None /\ timer p1 = false /\ listener p1 = listener p.
Proof.
  destruct p as [st fr tm ls oc ex co un]. cbn. intros -> Hfr.
  handler_unfold. cbn. destruct fr; [auto | congruence].
Qed.

(** A settled promise stays as it is, whatever arrives later. *)
Lemma settled_once (p : page) (ev : event) (s : settled) :
  outcome p = Settled s -> outcome (deliver p ev) = Settled s.
Proof.
  destruct p as [st fr tm ls oc ex co un]. cbn. intros ->.
  destruct ev as [|m|reply]; handler_unfold; cbn.
  - destruct tm; [|reflexivity]. destruct fr; reflexivity.
  - destruct ls; [|reflexivity].
    destruct (URL_origin (redirectUri cfg)) as [o|]; [|reflexivity].
    destruct (negb (origin m =? o)%string); [reflexivity|].
    destruct (data m) as [d|]; [|reflexivity].
    destruct (field_is (msg_type d) "oauthCallback"); [|reflexivity].
    cbn. destruct fr; [|reflexivity]. cbn.
    destruct (field_is (msg_error d) "interaction_required"); [reflexivity|].
    destruct (field_truthy (msg_error d)); [reflexivity|].
    destruct (field_truthy (msg_code d) && field_is (msg_state d) state0); [|reflexivity].
    cbn. destruct (JSON_parse (st !! state0)) as [[[] v]|e]; reflexivity.
  - destruct ex; [|reflexivity]. destruct (exchangeCodeForToken reply); reflexivity.
Qed.

(** An accepted message that finds the frame in place disarms the timer and
    removes the listener, so a timeout can no longer be delivered. *)
Lemma accepted_message_disarms (p : page) (m : message_event) :
  accepted cfg URL_origin m = true -> listener p = true -> iframe p <> None ->
  let p' := deliver p (MessageArrives m) in
  timer p' = false /\ listener p' = false /\ iframe p' = None
  /\ deliver p' TimeoutFires = p'.
Proof.
  unfold accepted. destruct p as [st fr tm ls oc ex co un]. cbn.
  intros Hacc -> Hfr.
  destruct (URL_origin (redirectUri cfg)) as [o|] eqn:Ho; [|discriminate].
  destruct (data m) as [d|] eqn:Hd; [|discriminate].
  apply andb_prop in Hacc as [Horigin Htype].
  destruct fr as [u|]; [|congruence].
  handler_unfold. cbn. rewrite Ho, Horigin, Hd, Htype. cbn.
  destruct (field_is (msg_error d) "interaction_required"); [now cbn|].
  destruct (field_truthy (msg_error d)); [now cbn|].
  destruct (field_truthy (msg_code d) && field_is (msg_state d) state0); [|now cbn].
  cbn. destruct (JSON_parse (st !! state0)) as [[[] v]|e]; now cbn.
Qed.

End Attempt.

End SilentFacts.

(** C1, at the input where the code departs from it. In every attempt
    whose timeout fires first, the attempt is rejected with
    [interaction_required], the frame is gone and the timer is spent, but
    the message listener is still registered. *)
Theorem C1_timeout_leaves_listener_registered
    (cfg : iam_config) (URL_origin : string -> option string)
    (r : OAuth.rng) (store : gmap string OAuth.item) :
  let start := OAuth.getAccessTokenSilently cfg r store in
  let p1 := OAuth.deliver cfg URL_origin (fst (fst start)) (snd start) OAuth.TimeoutFires in
  OAuth.outcome p1 = OAuth.Settled (Js.Rejects (Js.Error "interaction_required"))
  /\ OAuth.iframe p1 = None
  /\ OAuth.timer p1 = false
  /\ OAuth.listener p1 = true.
Proof.
  intros start p1.
  assert (Hstart : OAuth.timer (snd start) = true /\ OAuth.iframe (snd start) <> None
                   /\ OAuth.outcome (snd start) = OAuth.Pending
                   /\ OAuth.listener (snd start) = true).
  { unfold start, OAuth.getAccessTokenSilently.
    rewrite RandomStringFacts.generateAndStorePKCE_eq. cbn [fst snd].
    split; [reflexivity|]. split; [discriminate|]. split; reflexivity. }
  destruct Hstart as (Htm & Hfr & Hoc & Hls).
  destruct (SilentFacts.timeout_leaves cfg URL_origin (fst (fst start)) (snd start) Htm Hfr)
    as (Hfr1 & Htm1 & Hls1).
  fold p1 in Hfr1, Htm1, Hls1.
  split; [now apply SilentFacts.timeout_rejects|].
  split; [exact Hfr1|]. split; [exact Htm1|]. now rewrite Hls1.
Qed.

(** C1, continued on the scenario of the design document: a callback that
    arrives after the timeout still enters the handler, which fails at
    [removeChild] before it reaches [removeEventListener]. *)
Example C1_late_callback_runs_handler :
  let p2 := OAuth.deliver_all Scenario.cfg Scenario.URL_origin Scenario.state0 Scenario.page0
              [OAuth.TimeoutFires;
               OAuth.MessageArrives
                 (Scenario.callback (Some "xyz"%string) (Some Scenario.state0) None)] in
  OAuth.listener p2 = true
  /\ OAuth.uncaught p2 = [Js.Error "The node to be removed is not a child of this node"]
  /\ OAuth.outcome p2 = OAuth.Settled (Js.Rejects (Js.Error "interaction_required")).
Proof. vm_compute. auto. Qed.

(** C2. A message whose origin is not the origin of the configured redirect
    URI leaves the PKCE store, the frame, the timer, the listener, the
    promise and the pending token request as they were; everything that
    happens afterwards happens as if the message had never arrived, and a
    pending attempt still times out with [interaction_required]. *)
Theorem C2_foreign_origin_message_ignored
    (cfg : iam_config) (URL_origin : string -> option string) (state0 : string)
    (p : OAuth.page) (m : OAuth.message_event) :
  URL_origin (redirectUri cfg) <> Some (OAuth.origin m) ->
  let p' := OAuth.deliver cfg URL_origin state0 p (OAuth.MessageArrives m) in
  (OAuth.storage p' = OAuth.storage p /\ OAuth.iframe p' = OAuth.iframe p
   /\ OAuth.timer p' = OAuth.timer p /\ OAuth.listener p' = OAuth.listener p
   /\ OAuth.outcome p' = OAuth.outcome p /\ OAuth.exchange p' = OAuth.exchange p)
  /\ (forall evs,
        Observe.controller (OAuth.deliver_all cfg URL_origin state0 p' evs)
        = Observe.controller (OAuth.deliver_all cfg URL_origin state0 p evs))
  /\ (OAuth.timer p = true -> OAuth.iframe p <> None -> OAuth.outcome p = OAuth.Pending ->
      OAuth.outcome (OAuth.deliver cfg URL_origin state0 p' OAuth.TimeoutFires)
      = OAuth.Settled (Js.Rejects (Js.Error "interaction_required"))).
Proof.
  intros Hforeign p'.
  pose proof (SilentFacts.foreign_message_controller cfg URL_origin state0 p m Hforeign)
    as Hsame.
  fold p' in Hsame. unfold Observe.controller in Hsame.
  injection Hsame as Hst Hfr Htm Hls Hoc Hex.
  split; [auto 10|]. split.
  - intros evs. apply SilentFacts.deliver_all_controller.
    unfold Observe.controller. congruence.
  - intros Ht Hf Ho. apply SilentFacts.timeout_rejects; congruence.
Qed.

(** C2 on the scenario: a message from [https://evil]. *)
Lemma C2_foreign_origin_witness :
  let m := OAuth.MessageEvent "https://evil"
             (Some (OAuth.Payload (Some "oauthCallback"%string) (Some "xyz"%string)
                                  (Some Scenario.state0) None)) in
  let p' := OAuth.deliver Scenario.cfg Scenario.URL_origin Scenario.state0 Scenario.page0
              (OAuth.MessageArrives m) in
  Scenario.URL_origin (redirectUri Scenario.cfg) <> Some (OAuth.origin m)
  /\ OAuth.storage p' = OAuth.storage Scenario.page0
  /\ OAuth.iframe p' = OAuth.iframe Scenario.page0
  /\ OAuth.timer p' = true /\ OAuth.listener p' = true
  /\ OAuth.outcome p' = OAuth.Pending /\ OAuth.exchange p' = None
  /\ OAuth.outcome (OAuth.deliver Scenario.cfg Scenario.URL_origin Scenario.state0 p'
                                  OAuth.TimeoutFires)
     = OAuth.Settled (Js.Rejects (Js.Error "interaction_required")).
Proof.
  intros m p'.
  assert (Hforeign : Scenario.URL_origin (redirectUri Scenario.cfg) <> Some (OAuth.origin m))
    by (vm_compute; discriminate).
  destruct (C2_foreign_origin_message_ignored Scenario.cfg Scenario.URL_origin
              Scenario.state0 Scenario.page0 m Hforeign)
    as ((Hst & Hfr & Htm & Hls & Hoc & Hex) & _ & Hlater).
  fold p' in Hst, Hfr, Htm, Hls, Hoc, Hex, Hlater.
  split; [exact Hforeign|]. split; [exact Hst|]. split; [exact Hfr|].
  split; [now rewrite Htm|]. split; [now rewrite Hls|].
  split; [now rewrite Hoc|]. split; [now rewrite Hex|].
  apply Hlater; [reflexivity | discriminate | reflexivity].
Defined.

(** ** PKCE material and the requests that carry it *)

Module RequestFacts.

Import Js OAuth Scripts.

(** The parameters a built URL carries. *)
Lemma buildAuthUrl_query (cfg : iam_config) (s c prompt : string) :
  let u := buildAuthUrl cfg s c prompt in
  get "state" (query u) = Some s
  /\ get "code_challenge" (query u) = Some c
  /\ get "code_challenge_method" (query u) = Some "S256"%string
  /\ get "response_type" (query u) = Some "code"%string
  /\ get "prompt" (query u) = (if JsString.nonempty prompt then Some prompt else None).
Proof.
  unfold buildAuthUrl. destruct (JsString.nonempty prompt); cbn; auto.
Qed.

Lemma generated_state_nonempty (r : rng) (store : gmap string item) :
  JsString.nonempty (state (fst (fst (generateAndStorePKCE r store)))) = true.
Proof.
  rewrite RandomStringFacts.generateAndStorePKCE_eq.
  rewrite !RandomStringFacts.generateRandomString_eq. cbn [fst snd state].
  pose proof (RandomStringFacts.join_pick_length (map (fun i => r i mod 256) (seq 0 32)))
    as Hlen.
  rewrite length_map, length_seq in Hlen.
  destruct (JsString.join _); [discriminate | reflexivity].
Qed.

(** What [generateAndStorePKCE] leaves in the store. *)
Lemma generated_entry (r : rng) (store : gmap string item) :
  let g := generateAndStorePKCE r store in
  let k := fst (fst g) in
  snd g !! state k = Some (PkceJson (verifier k) (challenge k))
  /\ (forall key, key <> state k -> snd g !! key = store !! key)
  /\ challenge k = generateCodeChallenge (JsString.units (verifier k)).
Proof.
  intros g k. unfold g, k. rewrite RandomStringFacts.generateAndStorePKCE_eq.
  cbn [fst snd state verifier challenge].
  split; [apply lookup_insert_eq|]. split; [|reflexivity].
  intros key Hkey. now apply lookup_insert_ne.
Qed.

Lemma getAccessTokenSilently_eq (cfg : iam_config) (r : rng) (store : gmap string item) :
  getAccessTokenSilently cfg r store
  = let g := generateAndStorePKCE r store in
    let k := fst (fst g) in
    (state k, snd (fst g),
     Page (snd g) (Some (buildAuthUrl cfg (state k) (challenge k) "none"))
          true true Pending None [] []).
Proof.
  unfold getAccessTokenSilently.
  destruct (generateAndStorePKCE r store) as [[k r'] store']. reflexivity.
Qed.

Lemma redirectToLogin_eq (cfg : iam_config) (r : rng) (store : gmap string item) :
  redirectToLogin cfg r store
  = let g := generateAndStorePKCE r store in
    let k := fst (fst g) in
    (buildAuthUrl cfg (state k) (challenge k) "", snd (fst g), snd g).
Proof.
  unfold redirectToLogin.
  destruct (generateAndStorePKCE r store) as [[k r'] store']. reflexivity.
Qed.

End RequestFacts.

(** ** The PKCE store *)

Module StoreFacts.

Import Js OAuth Observe Scripts.

Lemma field_is_Some (f : field) (s : string) : field_is f s = true <-> f = Some s.
Proof.
  destruct f as [t|]; cbn; [|split; discriminate].
  rewrite String.eqb_eq. split; congruence.
Qed.

Lemma field_is_truthy (f : field) (s : string) :
  field_is f s = true -> s <> EmptyString -> field_truthy f = true.
Proof.
  intros H Hs. apply field_is_Some in H as ->. now destruct s.
Qed.

Section Attempt.

Variable cfg : iam_config.
Variable URL_origin : string -> option string.
Variable state0 : string.

Abbreviation deliver := (deliver cfg URL_origin state0).
Abbreviation deliver_all := (deliver_all cfg URL_origin state0).
Abbreviation code_callback := (code_callback cfg URL_origin state0).

(** The store changes only when a code callback is handled, and then by
    the removal of the entry of this attempt. *)
Lemma storage_deliver (p : page) (ev : event) :
  storage (deliver p ev) = storage p
  \/ (exists m, ev = MessageArrives m /\ code_callback m = true
                /\ storage (deliver p ev) = delete state0 (storage p)).
Proof.
  destruct p as [st fr tm ls oc ex co un].
  destruct ev as [|m|reply]; handler_unfold; cbn.
  - left. destruct tm; [|reflexivity]. destruct fr; reflexivity.
  - destruct ls; [|now left].
    destruct (URL_origin (redirectUri cfg)) as [o|] eqn:Ho; [|now left].
    destruct (origin m =? o)%string eqn:Horigin; [|now left]. cbn.
    destruct (data m) as [d|] eqn:Hd; [|now left].
    destruct (field_is (msg_type d) "oauthCallback") eqn:Htype; [|now left].
    cbn. destruct fr; [|now left]. cbn.
    destruct (field_is (msg_error d) "interaction_required"); [now left|].
    destruct (field_truthy (msg_error d)) eqn:Herr; [now left|].
    destruct (field_truthy (msg_code d)) eqn:Hcode; [|now left].
    destruct (field_is (msg_state d) state0) eqn:Hstate; [|now left].
    cbn. destruct (JSON_parse (st !! state0)) as [[[] v]|e]; cbn; [|now left..].
    right. exists m. repeat split.
    unfold Observe.code_callback, accepted.
    now rewrite Ho, Hd, Horigin, Htype, Herr, Hcode, Hstate.
  - left. destruct ex; [|reflexivity]. destruct (exchangeCodeForToken reply); reflexivity.
Qed.

Lemma removed_stays_removed (evs : list event) : forall p : page,
  storage p !! state0 = None -> storage (deliver_all p evs) !! state0 = None.
Proof.
  induction evs as [|ev evs IH]; intros p Hp; [exact Hp|].
  cbn [OAuth.deliver_all fold_left]. apply IH.
  destruct (storage_deliver p ev) as [-> | (m & _ & _ & ->)]; [exact Hp|].
  apply lookup_delete_eq.
Qed.

(** Handling a code callback whose entry is in the store. *)
Lemma consume_in_handler (p : page) (m : message_event) (d : payload) (v c : string) :
  listener p = true -> iframe p <> None ->
  code_callback m = true -> data m = Some d ->
  storage p !! state0 = Some (PkceJson v c) ->
  let p' := deliver p (MessageArrives m) in
  storage p' = delete state0 (storage p)
  /\ exchange p' = Some (token_request_of cfg (field_text (msg_code d)) (Some v))
  /\ outcome p' = outcome p.
Proof.
  unfold code_callback, accepted.
  destruct p as [st fr tm ls oc ex co un]. cbn.
  intros -> Hfr Hcb Hd Hst. rewrite Hd in Hcb.
  destruct (URL_origin (redirectUri cfg)) as [o|] eqn:Ho; [|discriminate].
  destruct fr as [u|]; [|congruence].
  apply andb_prop in Hcb as [Hacc Hrest].
  apply andb_prop in Hacc as [Horigin Htype].
  apply andb_prop in Hrest as [Hrest Hstate].
  apply andb_prop in Hrest as [Herr Hcode].
  apply negb_true_iff in Herr.
  handler_unfold. cbn. rewrite Ho, Horigin, Hd, Htype. cbn.
  destruct (field_is (msg_error d) "interaction_required") eqn:Hir.
  { apply field_is_truthy in Hir; [congruence | discriminate]. }
  rewrite Herr, Hcode, Hstate. cbn. rewrite Hst. cbn. auto.
Qed.

(** Handling a code callback whose entry is not in the store (any more). *)
Lemma missing_in_handler (p : page) (m : message_event) :
  listener p = true -> iframe p <> None -> outcome p = Pending ->
  code_callback m = true ->
  storage p !! state0 = None ->
  outcome (deliver p (MessageArrives m)) = Settled (Rejects (Error "PKCE data not found")).
Proof.
  unfold code_callback, accepted.
  destruct p as [st fr tm ls oc ex co un]. cbn.
  intros -> Hfr -> Hcb Hst.
  destruct (URL_origin (redirectUri cfg)) as [o|] eqn:Ho; [|discriminate].
  destruct (data m) as [d|] eqn:Hd; [|discriminate].
  destruct fr as [u|]; [|congruence].
  apply andb_prop in Hcb as [Hacc Hrest].
  apply andb_prop in Hacc as [Horigin Htype].
  apply andb_prop in Hrest as [Hrest Hstate].
  apply andb_prop in Hrest as [Herr Hcode].
  apply negb_true_iff in Herr.
  handler_unfold. cbn. rewrite Ho, Horigin, Hd, Htype. cbn.
  destruct (field_is (msg_error d) "interaction_required") eqn:Hir.
  { apply field_is_truthy in Hir; [congruence | discriminate]. }
  rewrite Herr, Hcode, Hstate. cbn. rewrite Hst. reflexivity.
Qed.

(** A key of the store keeps its value through every event, unless it is
    the state of the attempt and a code callback is among the events. *)
Lemma lookup_deliver_all (evs : list event) : forall (p : page) (k : string),
  storage (deliver_all p evs) !! k = storage p !! k
  \/ (k = state0 /\ exists m, In (MessageArrives m) evs /\ code_callback m = true).
Proof.
  induction evs as [|ev evs IH]; intros p k; [now left|].
  change (deliver_all p (ev :: evs)) with (deliver_all (deliver p ev) evs).
  destruct (IH (deliver p ev) k) as [Hrest | (-> & m & Hin & Hm)].
  - rewrite Hrest.
    destruct (storage_deliver p ev) as [-> | (m & -> & Hm & ->)]; [now left|].
    destruct (decide (k = state0)) as [-> | Hk].
    + right. split; [reflexivity|]. exists m. split; [now left | exact Hm].
    + left. now apply lookup_delete_ne.
  - right. split; [reflexivity|]. exists m. split; [now right | exact Hm].
Qed.

Lemma while_pending_In (ev : event) (evs : list event) : forall p : page,
  In ev (while_pending cfg URL_origin state0 p evs) -> In ev evs.
Proof.
  induction evs as [|first evs IH]; intros p Hin; [exact Hin|].
  cbn [while_pending] in Hin. destruct (outcome p); [|destruct Hin].
  destruct Hin as [-> | Hin]; [now left | right; eauto].
Qed.

End Attempt.

Lemma code_url_inv (s : string) (url : location) :
  code_url s url = true ->
  field_truthy (get "error" (searchParams url)) = false
  /\ field_truthy (get "code" (searchParams url)) = true
  /\ get "state" (searchParams url) = Some s
  /\ field_truthy (Some s) = true.
Proof.
  unfold code_url. intros H.
  apply andb_prop in H as [H Hs]. apply andb_prop in H as [H Hstate].
  apply andb_prop in H as [Herr Hcode].
  apply negb_true_iff in Herr. apply field_is_Some in Hstate. auto.
Qed.

Lemma code_url_intro (url : location) (s : string) :
  field_truthy (get "error" (searchParams url)) = false ->
  field_truthy (get "code" (searchParams url)) = true ->
  get "state" (searchParams url) = Some s -> JsString.nonempty s = true ->
  code_url s url = true.
Proof.
  intros Herr Hcode Hstate Hs. unfold code_url.
  now rewrite Herr, Hcode, Hstate, Hs; cbn; rewrite String.eqb_refl.
Qed.

(** The bootstrap consuming an entry that is in the store. *)
Lemma consume_in_bootstrap (cfg : iam_config) (URL_origin : string -> option string)
    (r : rng) (url : location) (s v c : string)
    (store : gmap string item) (reply : fetch_result) (events : list event) :
  code_url s url = true -> store !! s = Some (PkceJson v c) ->
  fst (fst (loadForgeRock cfg URL_origin r url store reply events)) = delete s store.
Proof.
  intros (Herr & Hcode & Hstate & Hs)%code_url_inv Hst.
  unfold loadForgeRock. rewrite Herr, Hcode, Hstate, Hs. cbn. rewrite Hst. cbn.
  destruct (exchangeCodeForToken reply); reflexivity.
Qed.

(** The bootstrap looking up an entry that is not in the store. *)
Lemma missing_in_bootstrap (cfg : iam_config) (URL_origin : string -> option string)
    (r : rng) (url : location) (s : string)
    (store : gmap string item) (reply : fetch_result) (events : list event) :
  code_url s url = true -> store !! s = None ->
  loadForgeRock cfg URL_origin r url store reply events
  = (store,
     [ConsoleError "PKCE data not found - possible CSRF attack or session timeout"],
     Finished (Returned tt)).
Proof.
  intros (Herr & Hcode & Hstate & Hs)%code_url_inv Hst.
  unfold loadForgeRock. rewrite Herr, Hcode, Hstate, Hs. cbn. now rewrite Hst.
Qed.

(** The branch of the bootstrap that awaits [getAccessToken()]. *)
Lemma bootstrap_silent (cfg : iam_config) (URL_origin : string -> option string)
    (r : rng) (url : location) (store : gmap string item) (reply : fetch_result)
    (events : list event) :
  field_truthy (get "error" (searchParams url)) = false ->
  field_truthy (get "code" (searchParams url))
  && field_truthy (get "state" (searchParams url)) = false ->
  let g := generateAndStorePKCE r store in
  let k := fst (fst g) in
  let authUrl := buildAuthUrl cfg (state k) (challenge k) "none" in
  let p0 := Page (snd g) (Some authUrl) true true Pending None [] [] in
  let during := while_pending cfg URL_origin (state k) p0 events in
  let p := deliver_all cfg URL_origin (state k) p0 during in
  let seen := FrameLoad authUrl :: trace cfg URL_origin (state k) p0 during in
  loadForgeRock cfg URL_origin r url store reply events
  = match outcome p with
    | Pending => (storage p, seen, Awaiting)
    | Settled silent =>
        if calls_redirectToLogin (getAccessToken silent (Resolves None)) then
          let g2 := generateAndStorePKCE (snd (fst g)) (storage p) in
          let k2 := fst (fst g2) in
          (snd g2, seen ++ [LocationAssign (buildAuthUrl cfg (state k2) (challenge k2) "")],
           Finished (Returned tt))
        else
          match returns (getAccessToken silent (Resolves None)) with
          | Resolves _ => (storage p, seen, Finished (Returned tt))
          | Rejects _ =>
              (storage p, seen ++ [ConsoleError "Failed to get token:"],
               Finished (Returned tt))
          end
    end.
Proof.
  intros Herr Hcs g k authUrl p0 during p seen.
  unfold loadForgeRock. rewrite Herr, Hcs.
  rewrite RequestFacts.getAccessTokenSilently_eq. cbn zeta.
  fold g. fold k. fold authUrl. fold p0. cbn [iframe]. fold during. fold p.
  change ([FrameLoad authUrl] ++ trace cfg URL_origin (state k) p0 during) with seen.
  destruct (outcome p) as [|silent]; [reflexivity|].
  destruct (calls_redirectToLogin (getAccessToken silent (Resolves None))); [|reflexivity].
  rewrite RequestFacts.redirectToLogin_eq. reflexivity.
Qed.

(** The bootstrap takes a key out of the store only by consuming it: the
    state of a code URL, or the state its own silent attempt generated, once
    a code callback for it has arrived. *)
Lemma removal_in_bootstrap (cfg : iam_config) (URL_origin : string -> option string)
    (r : rng) (url : location) (store : gmap string item) (reply : fetch_result)
    (events : list event) (k : string) :
  store !! k <> None ->
  fst (fst (loadForgeRock cfg URL_origin r url store reply events)) !! k = None ->
  code_url k url = true
  \/ (k = fst (fst (getAccessTokenSilently cfg r store))
      /\ exists m, In (MessageArrives m) events
                   /\ code_callback cfg URL_origin k m = true).
Proof.
  intros Hin.
  destruct (field_truthy (get "error" (searchParams url))) eqn:Herr.
  { unfold loadForgeRock. rewrite Herr. cbn. congruence. }
  destruct (field_truthy (get "code" (searchParams url))
            && field_truthy (get "state" (searchParams url))) eqn:Hcs.
  - apply andb_prop in Hcs as [Hcode Hstate].
    destruct (get "state" (searchParams url)) as [s|] eqn:Hs; [|discriminate].
    unfold loadForgeRock. rewrite Herr, Hcode, Hs, Hstate. cbn.
    destruct (JSON_parse (store !! s)) as [[[] v]|e]; cbn; [|congruence..].
    intros Hgone. left.
    assert (Hk : k = s).
    { destruct (decide (k = s)) as [|Hne]; [assumption|].
      assert (Hkeep : delete s store !! k = store !! k) by now apply lookup_delete_ne.
      destruct (exchangeCodeForToken reply); cbn in Hgone; congruence. }
    subst k. now apply code_url_intro.
  - rewrite (bootstrap_silent cfg URL_origin r url store reply events Herr Hcs).
    rewrite RequestFacts.getAccessTokenSilently_eq. cbn zeta. cbn [fst].
    set (g := generateAndStorePKCE r store).
    set (s0 := state (fst (fst g))).
    set (p0 := Page (snd g) _ true true Pending None [] []).
    set (during := while_pending cfg URL_origin s0 p0 events).
    intros Hgone. right.
    assert (Hend : storage (deliver_all cfg URL_origin s0 p0 during) !! k = None).
    { destruct (outcome (deliver_all cfg URL_origin s0 p0 during)) as [|silent];
        [exact Hgone|].
      destruct (calls_redirectToLogin (getAccessToken silent (Resolves None)));
        [|destruct (returns (getAccessToken silent (Resolves None))); exact Hgone].
      cbn zeta in Hgone. cbn [fst] in Hgone.
      rewrite RandomStringFacts.generateAndStorePKCE_eq in Hgone. cbn zeta in Hgone.
      cbn [snd] in Hgone.
      now apply lookup_insert_None in Hgone as [Hfree _]. }
    destruct (lookup_deliver_all cfg URL_origin s0 during p0 k)
      as [Hsame | (-> & m & Hm & Hcb)];
      [|split; [reflexivity|]; exists m; split; [|exact Hcb];
        now apply while_pending_In in Hm].
    exfalso. rewrite Hend in Hsame. cbn [storage p0] in Hsame.
    destruct (RequestFacts.generated_entry r store) as (Hentry & Hothers & _).
    cbn zeta in Hentry, Hothers. fold g in Hentry, Hothers. fold s0 in Hentry, Hothers.
    destruct (decide (k = s0)) as [-> | Hne].
    + unfold p0 in Hsame. cbn [storage] in Hsame. congruence.
    + unfold p0 in Hsame. cbn [storage] in Hsame.
      rewrite (Hothers k Hne) in Hsame. congruence.
Qed.

End StoreFacts.

(** C3, as the code has it. When the handler of the silent attempt receives
    a code callback with the state of the attempt and finds the entry, the
    entry leaves the store at once, before the token request has an answer
    and whatever that answer is; from then on a lookup by the same state
    finds nothing, in the handler ([PKCE data not found]) and in the
    bootstrap alike. The bootstrap consumes an entry the same way. Nothing
    else removes an entry: an event of the attempt changes the store only
    when it is a code callback, and a key that the bootstrap found in the
    store and left out of it is the state of a code URL, or the state its
    own silent attempt generated and received a code callback for. *)
Theorem C3_entry_removed_when_consumed
    (cfg : iam_config) (URL_origin : string -> option string) (state0 : string)
    (p : OAuth.page) (m : OAuth.message_event) (d : OAuth.payload) (v c : string) :
  OAuth.listener p = true -> OAuth.iframe p <> None ->
  Observe.code_callback cfg URL_origin state0 m = true -> OAuth.data m = Some d ->
  OAuth.storage p !! state0 = Some (OAuth.PkceJson v c) ->
  let p' := OAuth.deliver cfg URL_origin state0 p (OAuth.MessageArrives m) in
  (OAuth.storage p' = delete state0 (OAuth.storage p)
   /\ OAuth.exchange p'
      = Some (OAuth.token_request_of cfg (OAuth.field_text (OAuth.msg_code d)) (Some v))
   /\ OAuth.outcome p' = OAuth.outcome p)
  /\ (forall evs,
        OAuth.storage (OAuth.deliver_all cfg URL_origin state0 p' evs) !! state0 = None)
  /\ (forall q m',
        OAuth.listener q = true -> OAuth.iframe q <> None -> OAuth.outcome q = OAuth.Pending ->
        Observe.code_callback cfg URL_origin state0 m' = true ->
        OAuth.storage q = OAuth.storage p' ->
        OAuth.outcome (OAuth.deliver cfg URL_origin state0 q (OAuth.MessageArrives m'))
        = OAuth.Settled (Js.Rejects (Js.Error "PKCE data not found")))
  /\ (forall r url reply events,
        Observe.code_url state0 url = true ->
        Scripts.loadForgeRock cfg URL_origin r url (OAuth.storage p') reply events
        = (OAuth.storage p',
           [Scripts.ConsoleError
              "PKCE data not found - possible CSRF attack or session timeout"],
           Scripts.Finished (Js.Returned tt)))
  /\ (forall r url store reply events,
        Observe.code_url state0 url = true ->
        store !! state0 = Some (OAuth.PkceJson v c) ->
        fst (fst (Scripts.loadForgeRock cfg URL_origin r url store reply events))
        = delete state0 store)
  /\ (forall q ev,
        OAuth.storage (OAuth.deliver cfg URL_origin state0 q ev) <> OAuth.storage q ->
        exists m', ev = OAuth.MessageArrives m'
                   /\ Observe.code_callback cfg URL_origin state0 m' = true)
  /\ (forall r url store reply events k,
        store !! k <> None ->
        fst (fst (Scripts.loadForgeRock cfg URL_origin r url store reply events)) !! k
        = None ->
        Observe.code_url k url = true
        \/ (k = fst (fst (OAuth.getAccessTokenSilently cfg r store))
            /\ exists m', In (OAuth.MessageArrives m') events
                          /\ Observe.code_callback cfg URL_origin k m' = true)).
Proof.
  intros Hls Hfr Hcb Hd Hst p'.
  destruct (StoreFacts.consume_in_handler cfg URL_origin state0 p m d v c
              Hls Hfr Hcb Hd Hst) as (Hgone & Hex & Hoc).
  fold p' in Hgone, Hex, Hoc.
  assert (Hnone : OAuth.storage p' !! state0 = None)
    by (rewrite Hgone; apply lookup_delete_eq).
  repeat apply conj; try assumption.
  - intros evs. now apply StoreFacts.removed_stays_removed.
  - intros q m' Hq1 Hq2 Hq3 Hm' Hsame.
    apply StoreFacts.missing_in_handler; try assumption. now rewrite Hsame.
  - intros r url reply events Hurl.
    now apply StoreFacts.missing_in_bootstrap with (s := state0).
  - intros r url store reply events Hurl Hstore.
    now apply StoreFacts.consume_in_bootstrap with (v := v) (c := c).
  - intros q ev Hchanged.
    destruct (StoreFacts.storage_deliver cfg URL_origin state0 q ev)
      as [Hsame | (m' & Hev & Hm' & _)]; [contradiction | eauto].
  - intros r url store reply events k Hin Hleft.
    now apply StoreFacts.removal_in_bootstrap with (reply := reply).
Qed.

(** C3 on the scenario: the callback [{code: 'xyz', state: <generated>}]. *)
Lemma C3_consumption_witness :
  let m := Scenario.callback (Some "xyz"%string) (Some Scenario.state0) None in
  let p' := OAuth.deliver Scenario.cfg Scenario.URL_origin Scenario.state0 Scenario.page0
              (OAuth.MessageArrives m) in
  OAuth.storage Scenario.page0 !! Scenario.state0
  = Some (OAuth.PkceJson (OAuth.verifier Scenario.material) (OAuth.challenge Scenario.material))
  /\ OAuth.storage p' = delete Scenario.state0 (OAuth.storage Scenario.page0)
  /\ OAuth.outcome p' = OAuth.Pending.
Proof.
  intros m p'.
  assert (Hst : OAuth.storage Scenario.page0 !! Scenario.state0
                = Some (OAuth.PkceJson (OAuth.verifier Scenario.material)
                                       (OAuth.challenge Scenario.material)))
    by (vm_compute; reflexivity).
  split; [exact Hst|].
  destruct (C3_entry_removed_when_consumed Scenario.cfg Scenario.URL_origin
              Scenario.state0 Scenario.page0 m
              (OAuth.Payload (Some "oauthCallback"%string) (Some "xyz"%string)
                             (Some Scenario.state0) None)
              (OAuth.verifier Scenario.material) (OAuth.challenge Scenario.material))
    as ((Hgone & _ & Hoc) & _).
  - reflexivity.
  - discriminate.
  - vm_compute. reflexivity.
  - reflexivity.
  - exact Hst.
  - split; [exact Hgone | exact Hoc].
Defined.

(** C3 as stated fails on a state mismatch: the callback [{code: 'xyz',
    state: 'forged'}] ends the attempt with [Invalid callback], disarms the
    timer and the listener, and the entry stored for the attempt is still in
    the store. *)
Lemma C3_mismatch_leaves_entry :
  let p1 := OAuth.deliver Scenario.cfg Scenario.URL_origin Scenario.state0 Scenario.page0
              (OAuth.MessageArrives
                 (Scenario.callback (Some "xyz"%string) (Some "forged"%string) None)) in
  OAuth.outcome p1 = OAuth.Settled (Js.Rejects (Js.Error "Invalid callback"))
  /\ OAuth.timer p1 = false /\ OAuth.listener p1 = false
  /\ OAuth.storage p1 !! Scenario.state0
     = Some (OAuth.PkceJson (OAuth.verifier Scenario.material)
                            (OAuth.challenge Scenario.material)).
Proof. vm_compute. auto. Qed.

(** ** The public entry point *)

(** C8. [getAccessToken] calls [redirectToLogin] exactly when the silent
    attempt rejects with the message [interaction_required]; a rejection
    with any other message is the rejection of [getAccessToken] itself, and
    no redirect is started. A token is passed on as it is. *)
Theorem C8_redirect_exactly_on_interaction_required
    (silent redirected : Js.settled) :
  (OAuth.calls_redirectToLogin (OAuth.getAccessToken silent redirected) = true
   <-> exists e, silent = Js.Rejects e /\ Js.message e = "interaction_required"%string)
  /\ (forall e, silent = Js.Rejects e -> Js.message e <> "interaction_required"%string ->
        OAuth.getAccessToken silent redirected = OAuth.Access false (Js.Rejects e))
  /\ (forall token, silent = Js.Resolves token ->
        OAuth.getAccessToken silent redirected = OAuth.Access false (Js.Resolves token)).
Proof.
  unfold OAuth.getAccessToken. repeat split.
  - destruct silent as [token|e]; cbn; [discriminate|].
    destruct (String.eqb_spec (Js.message e) "interaction_required"); [eauto | discriminate].
  - intros (e & -> & He). now rewrite He.
  - intros e -> He.
    destruct (String.eqb_spec (Js.message e) "interaction_required"); [contradiction | reflexivity].
  - now intros token ->.
Qed.

(** C10. When the silent attempt rejects with [interaction_required],
    [getAccessToken] starts [redirectToLogin] and, however that call would
    settle, resolves with [undefined]. This is the outcome of every attempt
    whose timeout fires first. *)
Theorem C10_redirect_path_resolves_undefined
    (cfg : iam_config) (URL_origin : string -> option string)
    (r : OAuth.rng) (store : gmap string OAuth.item) (redirected : Js.settled) :
  OAuth.getAccessToken (Js.Rejects (Js.Error "interaction_required")) redirected
  = OAuth.Access true (Js.Resolves None)
  /\ (let start := OAuth.getAccessTokenSilently cfg r store in
      let p1 := OAuth.deliver cfg URL_origin (fst (fst start)) (snd start) OAuth.TimeoutFires in
      exists silent, OAuth.outcome p1 = OAuth.Settled silent
                     /\ OAuth.getAccessToken silent redirected
                        = OAuth.Access true (Js.Resolves None)).
Proof.
  split; [reflexivity|].
  intros start p1. exists (Js.Rejects (Js.Error "interaction_required")).
  split; [|reflexivity].
  unfold p1, start, OAuth.getAccessTokenSilently.
  rewrite RandomStringFacts.generateAndStorePKCE_eq.
  cbn [fst snd]. apply SilentFacts.timeout_rejects; [reflexivity | discriminate | reflexivity].
Qed.

(** ** Queries read back *)

Module UrlFacts.

Import Url Observe.

Ltac units_cases :=
  repeat match goal with
         | |- context [(?u =? ?c)%Z] => destruct (Z.eqb_spec u c)
         | |- context [(?lo <=? ?u)%Z] => destruct (Z.leb_spec lo u)
         | |- context [(?u <? ?hi)%Z] => destruct (Z.ltb_spec u hi)
         end; cbn [andb orb negb]; try lia.

Lemma drop_leading_keeps (us : list Z) : Forall (fun u => 32 < u) us -> drop_leading us = us.
Proof. intros [|u rest Hu _]; [reflexivity|]. cbn. units_cases. reflexivity. Qed.

Lemma clean_keeps (us : list Z) : Forall (fun u => 32 < u) us -> clean us = us.
Proof.
  intros Hus. unfold clean, trim.
  rewrite (drop_leading_keeps us Hus).
  rewrite drop_leading_keeps by now apply Forall_rev.
  rewrite rev_involutive.
  induction Hus as [|u rest Hu _ IH]; [reflexivity|].
  cbn [List.filter].
  assert (Hno : tab_or_newline u = false) by (unfold tab_or_newline; units_cases; reflexivity).
  rewrite Hno. cbn [negb]. now rewrite IH.
Qed.

Lemma before_absent (c : Z) (us : list Z) : Forall (fun u => u <> c) us -> before c us = us.
Proof.
  induction 1 as [|u rest Hu _ IH]; [reflexivity|].
  cbn. units_cases. now rewrite IH.
Qed.

Lemma before_first (c : Z) (us rest : list Z) :
  Forall (fun u => u <> c) us -> before c (us ++ c :: rest) = us.
Proof.
  induction 1 as [|u us' Hu _ IH]; cbn.
  - now rewrite Z.eqb_refl.
  - units_cases. now rewrite IH.
Qed.

Lemma after_first (c : Z) (us rest : list Z) :
  Forall (fun u => u <> c) us -> after c (us ++ c :: rest) = Some rest.
Proof.
  induction 1 as [|u us' Hu _ IH]; cbn.
  - now rewrite Z.eqb_refl.
  - units_cases. exact IH.
Qed.

Lemma encode_ascii (us : list Z) :
  Forall (fun u => 0 <= u < 128) us -> TextEncoder.encode us = us.
Proof.
  induction 1 as [|u rest Hu _ IH]; [reflexivity|].
  cbn [TextEncoder.encode]. unfold TextEncoder.is_high, TextEncoder.is_low.
  units_cases. unfold TextEncoder.encode_code_point. units_cases.
  cbn. now rewrite IH.
Qed.

Lemma encode_query_keeps (q : list Z) :
  Forall (fun u => quiet u) q -> encode_query q = q.
Proof.
  intros Hq. unfold encode_query. rewrite encode_ascii.
  - induction Hq as [|u rest Hu _ IH]; [reflexivity|].
    cbn [flat_map]. rewrite IH. unfold quiet in Hu. unfold escaped_in_query.
    units_cases. reflexivity.
  - eapply List.Forall_impl; [|exact Hq]. unfold quiet. cbn. lia.
Qed.

Lemma split_whole (sep : Z) (bs : list Z) :
  Forall (fun u => u <> sep) bs -> split sep bs = [bs].
Proof.
  induction 1 as [|b rest Hb _ IH]; [reflexivity|].
  cbn. units_cases. now rewrite IH.
Qed.

Lemma split_first (sep : Z) (bs rest : list Z) :
  Forall (fun u => u <> sep) bs -> split sep (bs ++ sep :: rest) = bs :: split sep rest.
Proof.
  induction 1 as [|b bs' Hb _ IH]; cbn.
  - now rewrite Z.eqb_refl.
  - units_cases. now rewrite IH.
Qed.

Lemma percent_decode_keeps (bs : list Z) :
  Forall (fun u => u <> 37) bs -> percent_decode bs = bs.
Proof.
  induction 1 as [|b rest Hb _ IH]; [reflexivity|].
  cbn [percent_decode]. rewrite IH.
  destruct rest as [|h [|l rest']]; try reflexivity.
  destruct (Z.eqb_spec b 37); [contradiction | reflexivity].
Qed.

Lemma utf8_decode_ascii (bs : list Z) :
  Forall (fun u => 0 <= u < 128) bs -> utf8_decode None bs = bs.
Proof.
  induction 1 as [|b rest Hb _ IH]; [reflexivity|].
  cbn [utf8_decode]. unfold lead. units_cases. now rewrite IH.
Qed.

Lemma form_text_keeps (bs : list Z) :
  Forall (fun u => 0 <= u < 128 /\ u <> 37 /\ u <> 43) bs -> form_text bs = bs.
Proof.
  intros Hbs. unfold form_text.
  assert (Hmap : map (fun b => if b =? 43 then 32 else b) bs = bs).
  { induction Hbs as [|b rest Hb _ IH]; [reflexivity|].
    cbn. rewrite IH. units_cases. reflexivity. }
  rewrite Hmap, percent_decode_keeps, utf8_decode_ascii.
  - clear Hmap. induction Hbs as [|b rest Hb _ IH]; [reflexivity|].
    cbn [flat_map]. rewrite IH. unfold utf16. units_cases. reflexivity.
  - eapply List.Forall_impl; [|exact Hbs]. cbn. lia.
  - eapply List.Forall_impl; [|exact Hbs]. cbn. lia.
Qed.

Lemma units_app (a b : string) :
  JsString.units (String.append a b) = JsString.units a ++ JsString.units b.
Proof.
  unfold JsString.units. induction a as [|c a IH]; [reflexivity|].
  cbn. now rewrite <- IH.
Qed.

Lemma units_String (c : ascii) (s : string) :
  JsString.units (String c s) = Z.of_nat (nat_of_ascii c) :: JsString.units s.
Proof. reflexivity. Qed.

Lemma to_string_units (s : string) : to_string (JsString.units s) = Some s.
Proof.
  induction s as [|c s IH]; [reflexivity|].
  rewrite units_String. cbn [to_string]. rewrite IH.
  pose proof (nat_ascii_bounded c) as Hc.
  units_cases. rewrite Nat2Z.id, ascii_nat_embedding. reflexivity.
Qed.


Lemma plain_units (s : string) :
  plain s = true -> Forall (fun u => quiet u /\ u <> 38) (JsString.units s).
Proof.
  intros Hs. apply List.Forall_forall. intros u Hu.
  apply (proj1 (forallb_forall _ _) Hs) in Hu. revert Hu.
  unfold stands_for_itself, quiet. units_cases; intros; discriminate.
Qed.

Lemma plain_name_units (s : string) :
  plain_name s = true -> Forall (fun u => quiet u /\ u <> 38 /\ u <> 61) (JsString.units s).
Proof.
  intros Hs. apply List.Forall_forall. intros u Hu.
  apply (proj1 (forallb_forall _ _) Hs) in Hu. revert Hu.
  unfold stands_for_itself, quiet. units_cases; intros; discriminate.
Qed.

Lemma is_path_units (s : string) :
  is_path s = true -> Forall (fun u => 32 < u /\ u <> 35 /\ u <> 63) (JsString.units s).
Proof.
  intros Hs. apply List.Forall_forall. intros u Hu.
  apply (proj1 (forallb_forall _ _) Hs) in Hu. revert Hu.
  units_cases; intros; discriminate.
Qed.

Lemma piece_units (pair : string * string) :
  plain_pair pair -> Forall (fun u => quiet u /\ u <> 38) (piece pair).
Proof.
  intros [Hn Hv]. unfold piece. apply Forall_app. split.
  - eapply List.Forall_impl; [|exact (plain_name_units _ Hn)]. cbn. tauto.
  - constructor; [unfold quiet; lia | now apply plain_units].
Qed.

Lemma units_query_string (pair : string * string) (rest : list (string * string)) :
  JsString.units (query_string (pair :: rest))
  = match rest with
    | [] => piece pair
    | _ :: _ => piece pair ++ 38 :: JsString.units (query_string rest)
    end.
Proof.
  destruct pair as [n v]. unfold piece. cbn [fst snd query_string].
  destruct rest as [|next rest].
  - now rewrite units_app, units_String.
  - rewrite units_app, units_String, units_app, units_String.
    now rewrite <- app_assoc.
Qed.

Lemma query_string_units (pairs : list (string * string)) :
  Forall plain_pair pairs -> Forall quiet (JsString.units (query_string pairs)).
Proof.
  induction 1 as [|pair rest Hpair Hrest IH]; [constructor|].
  rewrite units_query_string.
  assert (Hpiece : Forall quiet (piece pair)).
  { eapply List.Forall_impl; [|exact (piece_units pair Hpair)]. cbn. tauto. }
  destruct rest as [|next rest]; [exact Hpiece|].
  apply Forall_app. split; [exact Hpiece|].
  constructor; [unfold quiet; lia | exact IH].
Qed.

Lemma pieces_of_query (pairs : list (string * string)) :
  Forall plain_pair pairs ->
  List.filter (fun piece => match piece with [] => false | _ => true end)
              (split 38 (JsString.units (query_string pairs)))
  = map piece pairs.
Proof.
  induction 1 as [|pair rest Hpair Hrest IH]; [reflexivity|].
  rewrite units_query_string.
  assert (Hno : Forall (fun u => u <> 38) (piece pair)).
  { eapply List.Forall_impl; [|exact (piece_units pair Hpair)]. cbn. tauto. }
  assert (Hsome : match piece pair with [] => false | _ => true end = true).
  { unfold piece. now destruct (JsString.units (fst pair)). }
  destruct rest as [|next rest].
  - rewrite split_whole by exact Hno. cbn [List.filter map]. now rewrite Hsome.
  - rewrite split_first by exact Hno. cbn [List.filter]. rewrite Hsome, IH. reflexivity.
Qed.

Lemma form_pair_piece (pair : string * string) :
  plain_pair pair ->
  form_pair (piece pair) = (JsString.units (fst pair), JsString.units (snd pair)).
Proof.
  intros [Hn Hv]. unfold form_pair, piece.
  pose proof (plain_name_units _ Hn) as Hname.
  pose proof (plain_units _ Hv) as Hvalue.
  rewrite before_first, after_first
    by (eapply List.Forall_impl; [|exact Hname]; cbn; tauto).
  rewrite !form_text_keeps; [reflexivity| |].
  - eapply List.Forall_impl; [|exact Hvalue]. unfold quiet. cbn. lia.
  - eapply List.Forall_impl; [|exact Hname]. unfold quiet. cbn. lia.
Qed.

Lemma to_params_units (pairs : list (string * string)) :
  to_params (map (fun pair => (JsString.units (fst pair), JsString.units (snd pair))) pairs)
  = Some pairs.
Proof.
  induction pairs as [|[n v] rest IH]; [reflexivity|].
  cbn [map to_params fst snd]. now rewrite !to_string_units, IH.
Qed.

(** The query of [path?name=value&...] is read back as it was written, when
    names and values are plain. *)
Lemma searchParams_plain (path : string) (pairs : list (string * string)) :
  is_path path = true -> Forall plain_pair pairs ->
  searchParams (String.append path (String "?" (query_string pairs))) = Some pairs.
Proof.
  intros Hpath Hpairs. unfold searchParams.
  rewrite units_app, units_String.
  change (Z.of_nat (nat_of_ascii "?")) with 63.
  pose proof (is_path_units _ Hpath) as Hp.
  pose proof (query_string_units _ Hpairs) as Hq.
  set (P := JsString.units path) in *.
  set (Q := JsString.units (query_string pairs)) in *.
  assert (Hsearch : URLSearchParams (search (P ++ 63 :: Q))
                    = map form_pair
                        (List.filter (fun piece => match piece with [] => false | _ => true end)
                                     (split 38 Q))).
  { unfold search, query_of.
    rewrite clean_keeps, before_absent, after_first.
    - destruct Q as [|u q] eqn:HQ; [reflexivity|].
      rewrite encode_query_keeps by exact Hq.
      unfold URLSearchParams. rewrite encode_ascii; [reflexivity|].
      eapply List.Forall_impl; [|exact Hq]. unfold quiet. cbn. lia.
    - eapply List.Forall_impl; [|exact Hp]. cbn. tauto.
    - apply Forall_app. split.
      + eapply List.Forall_impl; [|exact Hp]. cbn. tauto.
      + constructor; [lia|]. eapply List.Forall_impl; [|exact Hq]. unfold quiet. cbn. lia.
    - apply Forall_app. split.
      + eapply List.Forall_impl; [|exact Hp]. cbn. tauto.
      + constructor; [lia|]. eapply List.Forall_impl; [|exact Hq]. unfold quiet. cbn. lia. }
  rewrite Hsearch. unfold Q. rewrite pieces_of_query by exact Hpairs.
  rewrite map_map.
  rewrite (map_ext_Forall _ (fun pair => (JsString.units (fst pair), JsString.units (snd pair)))).
  - apply to_params_units.
  - eapply List.Forall_impl; [|exact Hpairs]. intros pair. apply form_pair_piece.
Qed.

Lemma drop_units (P : Z -> bool) (n : nat) : forall s : string,
  forallb P (JsString.units s) = true -> forallb P (JsString.units (JsString.drop n s)) = true.
Proof.
  induction n as [|n IH]; intros s Hs; [exact Hs|].
  destruct s as [|a s]; [reflexivity|].
  cbn [JsString.drop]. apply IH.
  rewrite units_String in Hs. cbn [forallb] in Hs. now apply andb_prop in Hs.
Qed.

(** A replacement made of admissible characters keeps a text admissible. *)
Lemma replace_first_units (P : Z -> bool) (pat rep : string) :
  forallb P (JsString.units rep) = true ->
  forall s : string,
    forallb P (JsString.units s) = true ->
    forallb P (JsString.units (JsString.replace_first pat rep s)) = true.
Proof.
  intros Hrep. induction s as [|a s IH]; intros Hs; cbn [JsString.replace_first].
  - destruct (JsString.starts_with pat EmptyString); [|reflexivity].
    rewrite units_app, forallb_app, Hrep. now apply drop_units.
  - destruct (JsString.starts_with pat (String a s)).
    + rewrite units_app, forallb_app, Hrep. now apply drop_units.
    + rewrite units_String in Hs |- *. cbn [forallb] in Hs |- *.
      apply andb_prop in Hs as [Ha Hs]. now rewrite Ha, IH.
Qed.

End UrlFacts.

(** ** Callback dispatcher *)



(** ** Session monitor *)

Ltac monitor_unfold :=
  unfold Session.activityHandler, Session.checkIfNeeded, Session.validateSession,
    Session.doLogout, Session.fetch, Session.json_of, Session.try_catch, Session.emit,
    Session.throw, mbind, Session.io_bind, mret, Session.io_ret in *.

Module SessionFacts.

Import Js Session Observe.

(** A falsy JSON value has no [valid] member. *)
Lemma falsy_has_no_member (k : string) (data : json) :
  truthy data = false -> prop k data = None.
Proof. destruct data; cbn; congruence. Qed.

(** [validateSession] never throws; its verdict is [false] exactly on the
    replies that fail validation; it sends one request. *)
Lemma validateSession_verdict (reply : fetch_result) :
  exists done,
    validateSession reply = (done, Returned (negb (fails_validation reply)))
    /\ requests done = [PostValidate] /\ validations done = 1%nat.
Proof.
  destruct reply as [reason | [] status statusText [data|]];
    monitor_unfold; cbn; eauto.
  destruct (truthy data) eqn:Hdata.
  - rewrite negb_involutive. eauto.
  - rewrite (falsy_has_no_member _ _ Hdata). cbn. eauto.
Qed.

(** [doLogout] never throws, whatever the logout endpoint answers. *)
Lemma doLogout_returns (reply : fetch_result) :
  exists done,
    doLogout reply = (done, Returned tt)
    /\ requests done = [PostLogout] /\ validations done = 0%nat
    /\ (forall reason, reply = NetworkError reason ->
          done = [PostLogout; ConsoleError "Logout API failed:"]).
Proof.
  destruct reply as [reason | ok status statusText body]; monitor_unfold; cbn.
  - eexists. repeat split.
  - eexists. repeat split. discriminate.
Qed.

Section Monitor.

Variable cfg : iam_config.

(** Below the interval the handler does nothing at all. *)
Lemma handler_throttled (ev : activity) (c : checker) :
  at_ms ev - lastCheck c < sessionCheckInterval cfg ->
  activityHandler cfg ev c = (c, ([], Returned tt)).
Proof.
  intros Hlt. unfold activityHandler, checkIfNeeded.
  destruct (Z.geb_spec (at_ms ev - lastCheck c) (sessionCheckInterval cfg)); [lia|].
  reflexivity.
Qed.

(** From the interval on it validates once, and logs out and reloads when
    the reply fails validation. It never throws. *)
Lemma handler_checks (ev : activity) (c : checker) :
  sessionCheckInterval cfg <= at_ms ev - lastCheck c ->
  exists done,
    activityHandler cfg ev c = (Checker (at_ms ev) (attached c), (done, Returned tt))
    /\ validations done = 1%nat
    /\ requests done
       = if fails_validation (validate_reply ev)
         then [PostValidate; PostLogout; Reload] else [PostValidate].
Proof.
  intros Hge. unfold activityHandler, checkIfNeeded.
  destruct (Z.geb_spec (at_ms ev - lastCheck c) (sessionCheckInterval cfg)); [|lia].
  destruct (validateSession_verdict (validate_reply ev)) as (v & -> & Hv & Hn).
  destruct (doLogout_returns (logout_reply ev)) as (l & Hl & Hlr & Hln & _).
  unfold validations, requests in *.
  destruct (fails_validation (validate_reply ev)); cbn.
  - unfold mbind, io_bind, emit, try_catch. rewrite Hl. cbn.
    eexists. split; [reflexivity|].
    repeat (cbn [List.filter is_validate]; rewrite ?List.filter_app).
    rewrite ?length_app, Hv, Hlr, Hn, Hln. cbn. auto.
  - unfold mbind, io_bind, emit, try_catch, mret, io_ret. cbn.
    eexists. split; [reflexivity|].
    repeat (cbn [List.filter is_validate]; rewrite ?List.filter_app).
    rewrite ?length_app, Hv, Hn. cbn. auto.
Qed.

(** The whole trace of a check that goes through. *)
Lemma handler_trace (ev : activity) (c : checker) :
  sessionCheckInterval cfg <= at_ms ev - lastCheck c ->
  activityHandler cfg ev c
  = (Checker (at_ms ev) (attached c),
     (ConsoleLog "sessionChecker: validating session at"
      :: fst (validateSession (validate_reply ev))
      ++ (if fails_validation (validate_reply ev)
          then ConsoleLog "sessionChecker: session invalid, logging out"
               :: fst (doLogout (logout_reply ev)) ++ [Reload]
          else []),
      Returned tt)).
Proof.
  intros Hge. unfold activityHandler, checkIfNeeded.
  destruct (Z.geb_spec (at_ms ev - lastCheck c) (sessionCheckInterval cfg)); [|lia].
  destruct (validateSession_verdict (validate_reply ev)) as (v & -> & _).
  destruct (doLogout_returns (logout_reply ev)) as (l & -> & _).
  destruct (fails_validation (validate_reply ev)); cbn.
  - unfold mbind, io_bind, emit, try_catch. cbn. reflexivity.
  - unfold mbind, io_bind, emit, try_catch, mret, io_ret. cbn.
    now rewrite app_nil_r.
Qed.

Lemma activities_cons (ev : activity) (rest : list activity) (c : checker) :
  activities cfg (ev :: rest) c
  = (fst (activities cfg rest (fst (activityHandler cfg ev c))),
     fst (snd (activityHandler cfg ev c))
     ++ snd (activities cfg rest (fst (activityHandler cfg ev c)))).
Proof.
  cbn [activities].
  destruct (activityHandler cfg ev c) as [c1 [done r]]. cbn [fst snd].
  destruct (activities cfg rest c1) as [c2 more]. reflexivity.
Qed.

Lemma validations_app (a b : list effect) :
  validations (a ++ b) = (validations a + validations b)%nat.
Proof. unfold validations. now rewrite List.filter_app, length_app. Qed.

(** Events that all fall in one window shorter than the interval: no call
    once a check has been made in the window, and at most one call in all. *)
Lemma window_validations (t0 : Z) (evs : list activity) : forall c : checker,
  (forall ev, In ev evs -> t0 <= at_ms ev < t0 + sessionCheckInterval cfg) ->
  (validations (snd (activities cfg evs c)) <= 1)%nat
  /\ (t0 <= lastCheck c -> validations (snd (activities cfg evs c)) = 0%nat).
Proof.
  induction evs as [|ev rest IH]; intros c Hwin; [cbn; auto|].
  assert (Hev : t0 <= at_ms ev < t0 + sessionCheckInterval cfg) by (apply Hwin; now left).
  assert (Hrest : forall e, In e rest -> t0 <= at_ms e < t0 + sessionCheckInterval cfg)
    by (intros e He; apply Hwin; now right).
  rewrite activities_cons. cbn [snd]. rewrite validations_app.
  destruct (Z.lt_ge_cases (at_ms ev - lastCheck c) (sessionCheckInterval cfg)) as [Hlt|Hge].
  - rewrite (handler_throttled ev c Hlt). cbn [fst snd]. apply (IH c Hrest).
  - destruct (handler_checks ev c Hge) as (done & -> & Hone & _). cbn [fst snd].
    rewrite Hone.
    destruct (IH (Checker (at_ms ev) (attached c)) Hrest) as [_ Hzero].
    rewrite Hzero by (cbn; lia). split; [lia|]. intros Hc. lia.
Qed.

End Monitor.

End SessionFacts.

(** C6, as the code has it. An activity event leads to a validation call
    exactly when at least [sessionCheckInterval] has passed since the last
    check, and is a no-op otherwise; events that all fall within less than
    the interval lead to at most one call; two events at least the interval
    apart lead to two calls when the first of them is itself at least the
    interval after the last check, and to one call (made by the second)
    when the first comes earlier than that. *)
Theorem C6_activity_throttle (cfg : iam_config) :
  (forall ev c,
      Session.at_ms ev - Session.lastCheck c < sessionCheckInterval cfg ->
      Session.activityHandler cfg ev c = (c, ([], Js.Returned tt)))
  /\ (forall ev c,
        sessionCheckInterval cfg <= Session.at_ms ev - Session.lastCheck c ->
        Session.validations (fst (snd (Session.activityHandler cfg ev c))) = 1%nat
        /\ Session.lastCheck (fst (Session.activityHandler cfg ev c)) = Session.at_ms ev)
  /\ (forall t0 evs c,
        (forall ev, In ev evs ->
                    t0 <= Session.at_ms ev < t0 + sessionCheckInterval cfg) ->
        (Session.validations (snd (Session.activities cfg evs c)) <= 1)%nat)
  /\ (forall e1 e2 c,
        sessionCheckInterval cfg <= Session.at_ms e1 - Session.lastCheck c ->
        sessionCheckInterval cfg <= Session.at_ms e2 - Session.at_ms e1 ->
        Session.validations (snd (Session.activities cfg [e1; e2] c)) = 2%nat)
  /\ (forall e1 e2 c,
        0 <= Session.at_ms e1 - Session.lastCheck c < sessionCheckInterval cfg ->
        sessionCheckInterval cfg <= Session.at_ms e2 - Session.at_ms e1 ->
        Session.validations (snd (Session.activities cfg [e1; e2] c)) = 1%nat).
Proof.
  repeat apply conj.
  - apply SessionFacts.handler_throttled.
  - intros ev c Hge.
    destruct (SessionFacts.handler_checks cfg ev c Hge) as (done & -> & Hone & _).
    now cbn.
  - intros t0 evs c Hwin. now apply (SessionFacts.window_validations cfg t0 evs c).
  - intros e1 e2 c H1 H2.
    rewrite !SessionFacts.activities_cons.
    destruct (SessionFacts.handler_checks cfg e1 c H1) as (d1 & -> & Hone1 & _).
    cbn [fst snd].
    destruct (SessionFacts.handler_checks cfg e2
                (Session.Checker (Session.at_ms e1) (Session.attached c)))
      as (d2 & -> & Hone2 & _); [cbn; lia|].
    cbn [fst snd Session.activities].
    now rewrite !SessionFacts.validations_app, Hone1, Hone2.
  - intros e1 e2 c H1 H2.
    rewrite !SessionFacts.activities_cons.
    rewrite (SessionFacts.handler_throttled cfg e1 c) by lia.
    cbn [fst snd].
    destruct (SessionFacts.handler_checks cfg e2 c) as (d2 & -> & Hone2 & _); [lia|].
    cbn [fst snd Session.activities].
    now rewrite !SessionFacts.validations_app, Hone2.
Qed.

(** C6 on a checker created at time 0 with an interval of 120000 ms: events
    at 120000 and 240000 lead to two calls. *)
Lemma C6_two_calls_witness :
  let ok := Js.Response true 200 "OK" (Some (Js.JObj [("valid"%string, Js.JBool true)])) in
  Session.validations
    (snd (Session.activities Scenario.cfg
            [Session.Activity 120000 ok ok; Session.Activity 240000 ok ok]
            (Session.createSessionChecker 0)))
  = 2%nat.
Proof.
  intros ok.
  apply (proj1 (proj2 (proj2 (proj2 (C6_activity_throttle Scenario.cfg)))));
    vm_compute; discriminate.
Defined.

(** C6 as stated fails for a first event that comes before the first
    interval has passed: with an interval of 120000 ms and a checker created
    at time 0, events at 1000 and 200000 are more than the interval apart
    and lead to one validation call, not two. *)
Lemma C6_early_first_event_one_call :
  let ok := Js.Response true 200 "OK" (Some (Js.JObj [("valid"%string, Js.JBool true)])) in
  let e1 := Session.Activity 1000 ok ok in
  let e2 := Session.Activity 200000 ok ok in
  Session.at_ms e2 - Session.at_ms e1 > sessionCheckInterval Scenario.cfg
  /\ Session.validations
       (snd (Session.activities Scenario.cfg [e1; e2] (Session.createSessionChecker 0)))
     = 1%nat.
Proof. vm_compute. auto. Qed.

(** C7. Session validation fails closed. A failed request, a status that is
    not a success, a body that is not JSON and a falsy [valid] field all
    give the verdict [false], without an exception. When a check goes
    through and the reply fails validation, the monitor posts to the logout
    endpoint and then reloads the page; a failure of the logout request is
    written to the console and the reload happens all the same. *)
Theorem C7_session_validation_fails_closed
    (cfg : iam_config) (ev : Session.activity) (c : Session.checker) :
  sessionCheckInterval cfg <= Session.at_ms ev - Session.lastCheck c ->
  Observe.fails_validation (Session.validate_reply ev) = true ->
  let done := fst (snd (Session.activityHandler cfg ev c)) in
  snd (Session.validateSession (Session.validate_reply ev)) = Js.Returned false
  /\ snd (snd (Session.activityHandler cfg ev c)) = Js.Returned tt
  /\ done = Session.ConsoleLog "sessionChecker: validating session at"
            :: fst (Session.validateSession (Session.validate_reply ev))
            ++ Session.ConsoleLog "sessionChecker: session invalid, logging out"
            :: fst (Session.doLogout (Session.logout_reply ev)) ++ [Session.Reload]
  /\ Observe.requests done = [Session.PostValidate; Session.PostLogout; Session.Reload]
  /\ snd (Session.doLogout (Session.logout_reply ev)) = Js.Returned tt
  /\ (forall reason, Session.logout_reply ev = Js.NetworkError reason ->
        fst (Session.doLogout (Session.logout_reply ev))
        = [Session.PostLogout; Session.ConsoleError "Logout API failed:"])
  /\ (forall reason,
        snd (Session.validateSession (Js.NetworkError reason)) = Js.Returned false)
  /\ (forall status statusText body,
        snd (Session.validateSession (Js.Response false status statusText body))
        = Js.Returned false)
  /\ (forall status statusText,
        snd (Session.validateSession (Js.Response true status statusText None))
        = Js.Returned false)
  /\ (forall status statusText data,
        Js.truthy_value (Js.prop "valid" data) = false ->
        snd (Session.validateSession (Js.Response true status statusText (Some data)))
        = Js.Returned false).
Proof.
  intros Hge Hfails done.
  assert (Hverdict : forall reply, Observe.fails_validation reply = true ->
                       snd (Session.validateSession reply) = Js.Returned false).
  { intros reply Hr.
    destruct (SessionFacts.validateSession_verdict reply) as (v & -> & _).
    now rewrite Hr. }
  pose proof (SessionFacts.handler_trace cfg ev c Hge) as Htrace.
  rewrite Hfails in Htrace.
  destruct (SessionFacts.handler_checks cfg ev c Hge) as (d & Hd & _ & Hreq).
  rewrite Hfails in Hreq.
  destruct (SessionFacts.doLogout_returns (Session.logout_reply ev))
    as (l & Hl & _ & _ & Hfailed).
  assert (Hdone : done = d) by (unfold done; now rewrite Hd).
  repeat apply conj.
  - now apply Hverdict.
  - now rewrite Hd.
  - unfold done. now rewrite Htrace.
  - now rewrite Hdone.
  - now rewrite Hl.
  - intros reason Hreason. rewrite Hl. cbn. now apply (Hfailed reason).
  - intros reason. now apply Hverdict.
  - intros status statusText body. now apply Hverdict.
  - intros status statusText. now apply Hverdict.
  - intros status statusText data Hdata. apply Hverdict. cbn. now rewrite Hdata.
Qed.

(** C7 on a reply with status 401 and a logout request that fails. *)
Lemma C7_fails_closed_witness :
  let ev := Session.Activity 120000 (Js.Response false 401 "Unauthorized" None)
                             (Js.NetworkError "Failed to fetch") in
  Session.activityHandler Scenario.cfg ev (Session.createSessionChecker 0)
  = (Session.Checker 120000 false,
     ([ Session.ConsoleLog "sessionChecker: validating session at";
        Session.PostValidate;
        Session.ConsoleWarn "Session validate API returned status";
        Session.ConsoleLog "sessionChecker: session invalid, logging out";
        Session.PostLogout;
        Session.ConsoleError "Logout API failed:";
        Session.Reload ],
      Js.Returned tt))
  /\ Observe.requests
       (fst (snd (Session.activityHandler Scenario.cfg ev (Session.createSessionChecker 0))))
     = [Session.PostValidate; Session.PostLogout; Session.Reload].
Proof.
  intros ev. split; [vm_compute; reflexivity|].
  apply (C7_session_validation_fails_closed Scenario.cfg ev (Session.createSessionChecker 0)).
  - vm_compute. discriminate.
  - reflexivity.
Defined.


(** ** The end-to-end scenarios of the design document *)

(** The silent URL carries [prompt=none]; the callback [{code: 'xyz',
    state: <generated>}] leads to a POST to the token endpoint with
    [code=xyz] and the stored verifier, and the reply
    [{"access_token": "tok123"}] resolves the attempt with that token. *)
Example scenario_silent_success :
  let cb := OAuth.MessageArrives
              (Scenario.callback (Some "xyz"%string) (Some Scenario.state0) None) in
  let p1 := OAuth.deliver Scenario.cfg Scenario.URL_origin Scenario.state0 Scenario.page0 cb in
  let p2 := OAuth.deliver Scenario.cfg Scenario.URL_origin Scenario.state0 p1
              (OAuth.ExchangeAnswers Scenario.token_reply) in
  (exists u, OAuth.iframe Scenario.page0 = Some u
             /\ Scripts.get "prompt" (OAuth.query u) = Some "none"%string)
  /\ OAuth.exchange p1
     = Some (OAuth.TokenRequest "https://idp/token"
               [ ("grant_type", "authorization_code"); ("client_id", "abc");
                 ("code", "xyz"); ("redirect_uri", "https://app/callback");
                 ("code_verifier", OAuth.verifier Scenario.material) ]%string)
  /\ OAuth.outcome p2 = OAuth.Settled (Js.Resolves (Some (Js.JStr "tok123")))
  /\ OAuth.timer p2 = false /\ OAuth.listener p2 = false /\ OAuth.iframe p2 = None.
Proof.
  intros cb p1 p2. split.
  - eexists. split; [vm_compute; reflexivity | vm_compute; reflexivity].
  - vm_compute. auto 6.
Qed.

(** The callback [{error: 'interaction_required', state: <generated>}]
    rejects the silent attempt, and [getAccessToken] then starts the
    interactive redirect, which stores material under a different [state]. *)
Example scenario_interaction_required :
  let cb := OAuth.MessageArrives
              (Scenario.callback None (Some Scenario.state0)
                                 (Some "interaction_required"%string)) in
  let p1 := OAuth.deliver Scenario.cfg Scenario.URL_origin Scenario.state0 Scenario.page0 cb in
  let '(k, r') := fst (OAuth.generateAndStorePKCE Scenario.entropy ∅) in
  let '(k2, _) := fst (OAuth.generateAndStorePKCE r' ∅) in
  OAuth.outcome p1 = OAuth.Settled (Js.Rejects (Js.Error "interaction_required"))
  /\ OAuth.getAccessToken (Js.Rejects (Js.Error "interaction_required")) (Js.Resolves None)
     = OAuth.Access true (Js.Resolves None)
  /\ OAuth.state k2 <> OAuth.state k.
Proof. vm_compute. repeat split; discriminate. Qed.

(** * Further properties of the code *)

(** ** The requests of the two flows *)

(** X1. [generateAndStorePKCE] reads exactly 96 random values: the entry is
    stored under the generated [state], every other key of the store keeps
    its value, the stored challenge is the S256 transform of the stored
    verifier, and the next generation starts at the 97th value. *)
Theorem X1_generateAndStorePKCE_store (r : OAuth.rng) (store : gmap string OAuth.item) :
  let g := OAuth.generateAndStorePKCE r store in
  let k := fst (fst g) in
  snd g !! OAuth.state k = Some (OAuth.PkceJson (OAuth.verifier k) (OAuth.challenge k))
  /\ (forall key, key <> OAuth.state k -> snd g !! key = store !! key)
  /\ OAuth.challenge k = S256.challenge_of (JsString.units (OAuth.verifier k))
  /\ (forall i, snd (fst g) i = r (96 + i)%nat)
  /\ OAuth.state (fst (fst (OAuth.generateAndStorePKCE (snd (fst g)) (snd g))))
     = JsString.join (map (fun i => OAuth.pick (r (96 + i)%nat mod 256)) (seq 0 32)).
Proof.
  intros g k.
  destruct (RequestFacts.generated_entry r store) as (Hentry & Hothers & Hchallenge).
  fold g in Hentry, Hothers, Hchallenge. fold k in Hentry, Hothers, Hchallenge.
  split; [exact Hentry|]. split; [exact Hothers|]. split.
  - rewrite Hchallenge. unfold OAuth.generateCodeChallenge, S256.challenge_of.
    apply GeneratorFacts.btoa_urlsafe.
  - assert (Hr : forall i, snd (fst g) i = r (96 + i)%nat).
    { intros i. unfold g. rewrite RandomStringFacts.generateAndStorePKCE_eq.
      rewrite !RandomStringFacts.generateRandomString_eq. cbn [fst snd].
      f_equal. }
    split; [exact Hr|].
    rewrite RandomStringFacts.generateAndStorePKCE_eq.
    rewrite !RandomStringFacts.generateRandomString_eq. cbn [fst snd OAuth.state].
    rewrite map_map. reflexivity.
Qed.

Module FlowFacts.

Import Js OAuth Scripts Observe.

(** The whole of a bootstrap run that finds its entry. *)
Lemma bootstrap_trace (cfg : iam_config) (URL_origin : string -> option string)
    (r : rng) (url : location) (s : string)
    (store : gmap string item) (reply : fetch_result) (events : list event)
    (verifier : field) :
  code_url s url = true ->
  JSON_parse (store !! s) = Returned (true, verifier) ->
  loadForgeRock cfg URL_origin r url store reply events
  = (delete s store,
     [ TokenPost (token_request_of cfg (interpolate (get "code" (searchParams url))) verifier);
       match exchangeCodeForToken reply with
       | Resolves _ => HistoryReplaceState (pathname url)
       | Rejects _ => ConsoleError "Token exchange failed:"
       end ],
     Finished (Returned tt)).
Proof.
  intros (Herr & Hcode & Hstate & Hs)%StoreFacts.code_url_inv Hparse.
  unfold loadForgeRock. rewrite Herr, Hcode, Hstate, Hs. cbn. rewrite Hparse.
  destruct (exchangeCodeForToken reply); reflexivity.
Qed.

End FlowFacts.

(** X2. The silent attempt binds its token request to its authorization
    request. The hidden frame is sent to a URL with [prompt=none] that
    carries the generated [state] and, as [code_challenge], the S256
    transform of a verifier; when a code callback with that [state] is
    handled, the token request that leaves carries the code of the callback
    and that same verifier. *)
Theorem X2_silent_request_binds_verifier
    (cfg : iam_config) (URL_origin : string -> option string)
    (r : OAuth.rng) (store : gmap string OAuth.item)
    (m : OAuth.message_event) (d : OAuth.payload) :
  let start := OAuth.getAccessTokenSilently cfg r store in
  let state0 := fst (fst start) in
  Observe.code_callback cfg URL_origin state0 m = true ->
  OAuth.data m = Some d ->
  exists u v request,
    OAuth.iframe (snd start) = Some u
    /\ Scripts.get "prompt" (OAuth.query u) = Some "none"%string
    /\ Scripts.get "state" (OAuth.query u) = Some state0
    /\ Scripts.get "code_challenge" (OAuth.query u)
       = Some (S256.challenge_of (JsString.units v))
    /\ OAuth.exchange (OAuth.deliver cfg URL_origin state0 (snd start) (OAuth.MessageArrives m))
       = Some request
    /\ Scripts.get "code" (OAuth.form request) = Some (OAuth.field_text (OAuth.msg_code d))
    /\ Scripts.get "code_verifier" (OAuth.form request) = Some v
    /\ Scripts.get "grant_type" (OAuth.form request) = Some "authorization_code"%string.
Proof.
  intros start state0 Hcb Hd. unfold state0, start in *. clear start state0.
  rewrite RequestFacts.getAccessTokenSilently_eq in *. cbn [fst snd] in *.
  destruct (RequestFacts.generated_entry r store) as (Hentry & _ & Hchallenge).
  cbn zeta in Hentry, Hchallenge. cbn zeta.
  set (g := OAuth.generateAndStorePKCE r store) in *.
  set (k := fst (fst g)) in *.
  destruct (RequestFacts.buildAuthUrl_query cfg (OAuth.state k) (OAuth.challenge k) "none")
    as (Hstate & Hcc & _ & _ & Hprompt).
  destruct (StoreFacts.consume_in_handler cfg URL_origin (OAuth.state k)
              (OAuth.Page (snd g)
                 (Some (OAuth.buildAuthUrl cfg (OAuth.state k) (OAuth.challenge k) "none"))
                 true true OAuth.Pending None [] [])
              m d (OAuth.verifier k) (OAuth.challenge k))
    as (_ & Hex & _); [reflexivity | discriminate | exact Hcb | exact Hd | exact Hentry |].
  eexists _, (OAuth.verifier k), _.
  split; [reflexivity|]. split; [exact Hprompt|]. split; [exact Hstate|]. split.
  - rewrite Hcc, Hchallenge. f_equal.
    unfold OAuth.generateCodeChallenge, S256.challenge_of.
    apply GeneratorFacts.btoa_urlsafe.
  - split; [exact Hex|]. repeat split.
Qed.

(** X2 on the scenario of the design document. *)
Lemma X2_silent_binding_witness :
  exists u v request,
    OAuth.iframe Scenario.page0 = Some u
    /\ Scripts.get "code_challenge" (OAuth.query u)
       = Some (S256.challenge_of (JsString.units v))
    /\ OAuth.exchange
         (OAuth.deliver Scenario.cfg Scenario.URL_origin Scenario.state0 Scenario.page0
            (OAuth.MessageArrives
               (Scenario.callback (Some "xyz"%string) (Some Scenario.state0) None)))
       = Some request
    /\ Scripts.get "code_verifier" (OAuth.form request) = Some v.
Proof.
  destruct (X2_silent_request_binds_verifier Scenario.cfg Scenario.URL_origin
              Scenario.entropy ∅
              (Scenario.callback (Some "xyz"%string) (Some Scenario.state0) None)
              (OAuth.Payload (Some "oauthCallback"%string) (Some "xyz"%string)
                             (Some Scenario.state0) None))
    as (u & v & request & Hu & _ & _ & Hcc & Hex & _ & Hv & _).
  - vm_compute. reflexivity.
  - reflexivity.
  - exists u, v, request. auto.
Defined.

(** X3. The interactive flow is bound the same way. [redirectToLogin]
    navigates to a URL without [prompt] that carries a fresh [state] and
    the S256 transform of a verifier, and stores the entry under that
    [state]; when the bootstrap later meets a URL with a code and that
    [state], it removes the entry and posts the code with that verifier. *)
Theorem X3_interactive_request_binds_verifier
    (cfg : iam_config) (URL_origin : string -> option string)
    (r r' : OAuth.rng) (store : gmap string OAuth.item)
    (url : Scripts.location) (reply : Js.fetch_result) (events : list OAuth.event) :
  let red := OAuth.redirectToLogin cfg r store in
  let k := fst (fst (OAuth.generateAndStorePKCE r store)) in
  Observe.code_url (OAuth.state k) url = true ->
  Scripts.get "prompt" (OAuth.query (fst (fst red))) = None
  /\ Scripts.get "state" (OAuth.query (fst (fst red))) = Some (OAuth.state k)
  /\ Scripts.get "code_challenge" (OAuth.query (fst (fst red)))
     = Some (S256.challenge_of (JsString.units (OAuth.verifier k)))
  /\ Scripts.loadForgeRock cfg URL_origin r' url (snd red) reply events
     = (delete (OAuth.state k) (snd red),
        [ Scripts.TokenPost
            (OAuth.token_request_of cfg
               (Scripts.interpolate (Scripts.get "code" (Scripts.searchParams url)))
               (Some (OAuth.verifier k)));
          match OAuth.exchangeCodeForToken reply with
          | Js.Resolves _ => Scripts.HistoryReplaceState (Scripts.pathname url)
          | Js.Rejects _ => Scripts.ConsoleError "Token exchange failed:"
          end ],
        Scripts.Finished (Js.Returned tt)).
Proof.
  intros red k Hurl. unfold red. rewrite RequestFacts.redirectToLogin_eq.
  cbn zeta. cbn [fst snd]. fold k.
  destruct (RequestFacts.generated_entry r store) as (Hentry & _ & Hchallenge).
  cbn zeta in Hentry, Hchallenge. fold k in Hentry, Hchallenge.
  destruct (RequestFacts.buildAuthUrl_query cfg (OAuth.state k) (OAuth.challenge k) "")
    as (Hstate & Hcc & _ & _ & Hprompt).
  split; [exact Hprompt|]. split; [exact Hstate|]. split.
  - rewrite Hcc, Hchallenge. f_equal.
    unfold OAuth.generateCodeChallenge, S256.challenge_of.
    apply GeneratorFacts.btoa_urlsafe.
  - apply FlowFacts.bootstrap_trace; [exact Hurl|].
    now rewrite Hentry.
Qed.

(** X3 on the scenario: the provider comes back with
    [?code=xyz&state=<generated>]. *)
Lemma X3_interactive_binding_witness :
  let url := Scripts.Location "https://app" "/"
               [("code"%string, "xyz"%string); ("state"%string, Scenario.state0)] in
  fst (fst (Scripts.loadForgeRock Scenario.cfg Scenario.URL_origin Scenario.entropy url
              (snd (OAuth.redirectToLogin Scenario.cfg Scenario.entropy ∅))
              Scenario.token_reply []))
  = delete Scenario.state0 (snd (OAuth.redirectToLogin Scenario.cfg Scenario.entropy ∅)).
Proof.
  intros url.
  destruct (X3_interactive_request_binds_verifier Scenario.cfg Scenario.URL_origin
              Scenario.entropy Scenario.entropy ∅ url
              Scenario.token_reply []) as (_ & _ & _ & Hrun).
  - vm_compute. reflexivity.
  - rewrite Hrun. reflexivity.
Defined.

(** X4. A token exchange that fails still spends the entry and leaves the
    code in the address bar ([history.replaceState] is not called); loading
    the same URL again finds no entry and sends nothing. *)
Theorem X4_failed_exchange_spends_entry
    (cfg : iam_config) (URL_origin : string -> option string) (r : OAuth.rng)
    (url : Scripts.location) (s v c : string)
    (store : gmap string OAuth.item) (reply : Js.fetch_result) (events : list OAuth.event)
    (e : Js.error) :
  Observe.code_url s url = true ->
  store !! s = Some (OAuth.PkceJson v c) ->
  OAuth.exchangeCodeForToken reply = Js.Rejects e ->
  Scripts.loadForgeRock cfg URL_origin r url store reply events
  = (delete s store,
     [ Scripts.TokenPost
         (OAuth.token_request_of cfg
            (Scripts.interpolate (Scripts.get "code" (Scripts.searchParams url))) (Some v));
       Scripts.ConsoleError "Token exchange failed:" ],
     Scripts.Finished (Js.Returned tt))
  /\ (forall r' reply' events',
        Scripts.loadForgeRock cfg URL_origin r' url (delete s store) reply' events'
        = (delete s store,
           [Scripts.ConsoleError
              "PKCE data not found - possible CSRF attack or session timeout"],
           Scripts.Finished (Js.Returned tt))).
Proof.
  intros Hurl Hentry Hfail. split.
  - rewrite (FlowFacts.bootstrap_trace cfg URL_origin r url s store reply events (Some v)
               Hurl)
      by now rewrite Hentry.
    now rewrite Hfail.
  - intros r' reply' events'. apply StoreFacts.missing_in_bootstrap with (s := s);
      [exact Hurl | apply lookup_delete_eq].
Qed.

(** X4 with a 400 from the token endpoint. *)
Lemma X4_failed_exchange_witness :
  let url := Scripts.Location "https://app" "/" [("code", "xyz"); ("state", "s1")]%string in
  let store : gmap string OAuth.item := {[ "s1"%string := OAuth.PkceJson "v1" "c1" ]} in
  Scripts.loadForgeRock Scenario.cfg Scenario.URL_origin Scenario.entropy url store
    (Js.Response false 400 "Bad Request" None) []
  = (delete "s1"%string store,
     [ Scripts.TokenPost (OAuth.token_request_of Scenario.cfg "xyz" (Some "v1"%string));
       Scripts.ConsoleError "Token exchange failed:" ],
     Scripts.Finished (Js.Returned tt)).
Proof.
  intros url store.
  apply (X4_failed_exchange_spends_entry Scenario.cfg Scenario.URL_origin
           Scenario.entropy url "s1" "v1" "c1" store
           (Js.Response false 400 "Bad Request" None) []
           (Js.Error "Token exchange failed: Bad Request")); reflexivity.
Defined.

(** X5. The lookup of the bootstrap accepts any truthy JSON value stored
    under the [state] of the URL, not only a PKCE entry. Once [loadFonts]
    has set its flag, a URL with a code and [state=fonts-loaded] passes the
    lookup: the flag is removed and the code is posted with
    [code_verifier=undefined]. *)
Theorem X5_fonts_flag_passes_the_lookup
    (cfg : iam_config) (URL_origin : string -> option string) (r : OAuth.rng)
    (hostname : string) (url : Scripts.location)
    (store : gmap string OAuth.item) (reply : Js.fetch_result)
    (events : list OAuth.event) :
  Links.includes hostname "localhost" = false ->
  Observe.code_url "fonts-loaded" url = true ->
  let store1 := Links.loadFonts hostname store in
  let run := Scripts.loadForgeRock cfg URL_origin r url store1 reply events in
  fst (fst run) = delete "fonts-loaded"%string store1
  /\ exists request rest,
       snd (fst run) = Scripts.TokenPost request :: rest
       /\ Scripts.get "code_verifier" (OAuth.form request) = Some "undefined"%string
       /\ Scripts.get "code" (OAuth.form request)
          = Some (Scripts.interpolate (Scripts.get "code" (Scripts.searchParams url))).
Proof.
  intros Hhost Hurl store1 run. unfold run.
  rewrite (FlowFacts.bootstrap_trace cfg URL_origin r url "fonts-loaded" store1 reply
             events None Hurl).
  - split; [reflexivity|]. eexists _, _. split; [reflexivity|]. split; reflexivity.
  - unfold store1, Links.loadFonts. rewrite Hhost. cbn [negb].
    now rewrite lookup_insert_eq.
Qed.

(** X5 on [https://app/?code=xyz&state=fonts-loaded]. *)
Lemma X5_fonts_flag_witness :
  let url := Scripts.Location "https://app" "/"
               [("code", "xyz"); ("state", "fonts-loaded")]%string in
  fst (fst (Scripts.loadForgeRock Scenario.cfg Scenario.URL_origin Scenario.entropy url
              (Links.loadFonts "app" ∅) Scenario.token_reply []))
  = delete "fonts-loaded"%string (Links.loadFonts "app" ∅).
Proof.
  intros url.
  apply (X5_fonts_flag_passes_the_lookup Scenario.cfg Scenario.URL_origin
           Scenario.entropy "app" url ∅ Scenario.token_reply []); reflexivity.
Defined.

Module HandlerFacts.

Import Js OAuth Observe.

Section Attempt.

Variable cfg : iam_config.
Variable URL_origin : string -> option string.
Variable state0 : string.

Abbreviation deliver := (deliver cfg URL_origin state0).
Abbreviation deliver_all := (deliver_all cfg URL_origin state0).
Abbreviation code_callback := (code_callback cfg URL_origin state0).

(** A token request appears only when a code callback finds a truthy value
    under the state of the attempt. *)
Lemma exchange_deliver (p : page) (ev : event) :
  exchange (deliver p ev) = exchange p
  \/ exchange (deliver p ev) = None
  \/ (exists m verifier,
        ev = MessageArrives m /\ code_callback m = true
        /\ JSON_parse (storage p !! state0) = Returned (true, verifier)
        /\ storage (deliver p ev) = delete state0 (storage p)).
Proof.
  destruct p as [st fr tm ls oc ex co un].
  destruct ev as [|m|reply]; handler_unfold; cbn.
  - left. destruct tm; [|reflexivity]. destruct fr; reflexivity.
  - destruct ls; [|now left].
    destruct (URL_origin (redirectUri cfg)) as [o|] eqn:Ho; [|now left].
    destruct (origin m =? o)%string eqn:Horigin; [|now left]. cbn.
    destruct (data m) as [d|] eqn:Hd; [|now left].
    destruct (field_is (msg_type d) "oauthCallback") eqn:Htype; [|now left].
    cbn. destruct fr; [|now left]. cbn.
    destruct (field_is (msg_error d) "interaction_required"); [now left|].
    destruct (field_truthy (msg_error d)) eqn:Herr; [now left|].
    destruct (field_truthy (msg_code d)) eqn:Hcode; [|now left].
    destruct (field_is (msg_state d) state0) eqn:Hstate; [|now left].
    cbn. destruct (JSON_parse (st !! state0)) as [[[] v]|e] eqn:Hparse; cbn; [|now left..].
    right. right. exists m, v. repeat split.
    unfold Observe.code_callback, accepted.
    now rewrite Ho, Hd, Horigin, Htype, Herr, Hcode, Hstate.
  - destruct ex; [|now left]. right. left.
    destruct (exchangeCodeForToken reply); reflexivity.
Qed.

(** With the listener removed and the timer disarmed, neither a message nor
    a timeout is delivered. *)
Lemma disarmed_ignores (p : page) :
  listener p = false -> timer p = false ->
  deliver p TimeoutFires = p /\ forall m, deliver p (MessageArrives m) = p.
Proof.
  destruct p as [st fr tm ls oc ex co un]. cbn. now intros -> ->.
Qed.

Lemma settled_forever (evs : list event) : forall (p : page) (s : settled),
  outcome p = Settled s -> outcome (deliver_all p evs) = Settled s.
Proof.
  induction evs as [|ev evs IH]; intros p s Hp; [exact Hp|].
  cbn [OAuth.deliver_all fold_left]. apply IH.
  now apply SilentFacts.settled_once.
Qed.

(** The answer of the token endpoint settles a pending attempt. *)
Lemma answer_settles (p : page) (reply : fetch_result) :
  exchange p <> None -> outcome p = Pending ->
  outcome (deliver p (ExchangeAnswers reply)) = Settled (exchangeCodeForToken reply)
  /\ exchange (deliver p (ExchangeAnswers reply)) = None.
Proof.
  destruct p as [st fr tm ls oc ex co un]. cbn. intros Hex ->.
  destruct ex; [|congruence]. handler_unfold. cbn.
  destruct (exchangeCodeForToken reply); cbn; auto.
Qed.

(** How the handler settles the attempt, branch by branch. *)
Lemma handler_outcome (p : page) (m : message_event) (d : payload) :
  listener p = true -> iframe p <> None -> outcome p = Pending ->
  accepted cfg URL_origin m = true -> data m = Some d ->
  let after := outcome (deliver p (MessageArrives m)) in
  (msg_error d = Some "interaction_required"%string
   /\ after = Settled (Rejects (Error "interaction_required")))
  \/ (msg_error d <> Some "interaction_required"%string
      /\ (after = Pending
          \/ after = Settled (Rejects (Error (String.append "OAuth error: "
                                                (field_text (msg_error d)))))
          \/ after = Settled (Rejects (Error "PKCE data not found"))
          \/ after = Settled (Rejects (Error "Invalid callback")))).
Proof.
  unfold accepted. destruct p as [st fr tm ls oc ex co un]. cbn.
  intros -> Hfr -> Hacc Hd. rewrite Hd in Hacc.
  destruct (URL_origin (redirectUri cfg)) as [o|] eqn:Ho; [|discriminate].
  apply andb_prop in Hacc as [Horigin Htype].
  destruct fr as [u|]; [|congruence].
  handler_unfold. cbn. rewrite Ho, Horigin, Hd, Htype. cbn.
  destruct (field_is (msg_error d) "interaction_required") eqn:Hir.
  { left. apply StoreFacts.field_is_Some in Hir. auto. }
  right. split.
  { intros Heq. rewrite Heq in Hir. discriminate. }
  destruct (field_truthy (msg_error d)); [cbn; auto|].
  destruct (field_truthy (msg_code d) && field_is (msg_state d) state0); [|cbn; auto].
  cbn. destruct (JSON_parse (st !! state0)) as [[[] v]|e]; cbn; auto.
Qed.

End Attempt.

End HandlerFacts.

Ltac nothing_sent :=
  left; cbn; split; [reflexivity|]; split; [reflexivity|];
  let H := fresh in
  intros H; first [discriminate H | split; [first [exact H | reflexivity] | reflexivity]].

Module BootstrapFacts.

Import Js OAuth Scripts Observe.

Lemma posts_app (done more : list effect) :
  posts (done ++ more) = posts done ++ posts more.
Proof. apply flat_map_app. Qed.

Lemma redirects_app (done more : list effect) :
  redirects (done ++ more) = redirects done || redirects more.
Proof. apply existsb_app. Qed.

Section Attempt.

Variable cfg : iam_config.
Variable URL_origin : string -> option string.
Variable state0 : string.

Abbreviation deliver := (deliver cfg URL_origin state0).
Abbreviation deliver_all := (deliver_all cfg URL_origin state0).
Abbreviation code_callback := (code_callback cfg URL_origin state0).
Abbreviation asked := (asked cfg URL_origin state0).
Abbreviation trace := (trace cfg URL_origin state0).

(** One delivery either sends nothing and, if the listener is still there
    afterwards, has left the store alone; or it is a code callback that found
    a truthy value under the state of the attempt, removed it, removed the
    listener and sent one token request. *)
Lemma asked_cases (p : page) (ev : event) :
  (posts (asked p ev) = [] /\ redirects (asked p ev) = false
   /\ (listener (deliver p ev) = true ->
       listener p = true /\ storage (deliver p ev) = storage p))
  \/ (exists m d verifier,
        ev = MessageArrives m /\ listener p = true /\ code_callback m = true
        /\ data m = Some d
        /\ JSON_parse (storage p !! state0) = Returned (true, verifier)
        /\ asked p ev = [TokenPost (token_request_of cfg (field_text (msg_code d)) verifier)]
        /\ listener (deliver p ev) = false
        /\ storage (deliver p ev) = delete state0 (storage p)).
Proof.
  destruct p as [st fr tm ls oc ex co un].
  destruct ev as [|m|reply]; unfold Scripts.asked, blank; handler_unfold; cbn.
  - destruct tm; [|nothing_sent]. destruct fr; nothing_sent.
  - destruct ls; [|nothing_sent].
    destruct (URL_origin (redirectUri cfg)) as [o|] eqn:Ho; [|nothing_sent].
    destruct (origin m =? o)%string eqn:Horigin; [|nothing_sent]. cbn.
    destruct (data m) as [d|] eqn:Hd; [|nothing_sent].
    destruct (field_is (msg_type d) "oauthCallback") eqn:Htype; [|nothing_sent].
    cbn. destruct fr; [|nothing_sent]. cbn.
    destruct (field_is (msg_error d) "interaction_required"); [nothing_sent|].
    destruct (field_truthy (msg_error d)) eqn:Herr; [nothing_sent|].
    destruct (field_truthy (msg_code d)) eqn:Hcode; [|nothing_sent].
    destruct (field_is (msg_state d) state0) eqn:Hstate; [|nothing_sent].
    cbn. destruct (JSON_parse (st !! state0)) as [[[] v]|e] eqn:Hparse; cbn;
      [|nothing_sent..].
    right. exists m, d, v. repeat split; [|exact Hd].
    unfold Observe.code_callback, accepted.
    now rewrite Ho, Hd, Horigin, Htype, Herr, Hcode, Hstate.
  - destruct ex; [|nothing_sent].
    destruct (exchangeCodeForToken reply); nothing_sent.
Qed.

(** Without the listener nothing is sent any more. *)
Lemma quiet (evs : list event) : forall p : page,
  listener p = false ->
  posts (trace p evs) = [] /\ redirects (trace p evs) = false.
Proof.
  induction evs as [|ev evs IH]; intros p Hls; [now split|].
  cbn [Scripts.trace]. rewrite posts_app, redirects_app.
  destruct (asked_cases p ev)
    as [(Hnone & Hstay & Hkeep) | (m & d & v & _ & Hon & _)]; [|congruence].
  rewrite Hnone, Hstay. apply IH.
  destruct (listener (deliver p ev)) eqn:Hafter; [|reflexivity].
  destruct (Hkeep eq_refl) as [Hon _]. congruence.
Qed.

(** While the listener is there the entry of the attempt is in the store;
    so a run of events sends at most one token request, for a code callback
    among the events and with the verifier of that entry, and the entry is
    gone afterwards. *)
Lemma trace_posts (v c : string) (evs : list event) : forall p : page,
  (listener p = true -> storage p !! state0 = Some (PkceJson v c)) ->
  redirects (trace p evs) = false
  /\ (posts (trace p evs) = []
      \/ exists m d,
           In (MessageArrives m) evs /\ code_callback m = true /\ data m = Some d
           /\ posts (trace p evs)
              = [token_request_of cfg (field_text (msg_code d)) (Some v)]
           /\ storage (deliver_all p evs) !! state0 = None).
Proof.
  induction evs as [|ev evs IH]; intros p Hinv; [split; [reflexivity | now left]|].
  cbn [Scripts.trace]. rewrite posts_app, redirects_app.
  change (deliver_all p (ev :: evs)) with (deliver_all (deliver p ev) evs).
  destruct (asked_cases p ev)
    as [(Hnone & Hstay & Hkeep)
       | (m & d & verifier & -> & Hon & Hm & Hd & Hparse & Hsent & Hoff & Hgone)].
  - rewrite Hnone, Hstay.
    destruct (IH (deliver p ev)) as [Hred [Hrest | (m & d & Hin & Hrest)]].
    + intros Hafter. destruct (Hkeep Hafter) as [Hon ->]. auto.
    + split; [exact Hred | now left].
    + split; [exact Hred|]. right. exists m, d. split; [now right | exact Hrest].
  - rewrite Hsent.
    destruct (quiet evs (deliver p (MessageArrives m)) Hoff) as [Hquiet Hred].
    rewrite Hquiet, Hred. split; [reflexivity|].
    right. exists m, d. split; [now left|]. split; [exact Hm|]. split; [exact Hd|].
    split.
    + rewrite (Hinv Hon) in Hparse. cbn in Hparse. injection Hparse as <-. reflexivity.
    + apply StoreFacts.removed_stays_removed. rewrite Hgone. apply lookup_delete_eq.
Qed.

End Attempt.

End BootstrapFacts.

(** X6. The bootstrap sends at most one code to the token endpoint in a
    run, and only with a value of the store in hand that it has removed
    first. On a code URL that is the truthy value stored under the [state]
    of the URL. Otherwise it is the entry that the run's own silent attempt
    stored, a code callback with the [state] of that attempt is among the
    events, the request carries the code of the callback and the verifier of
    the entry, and unless the run goes on to the interactive redirect the
    entry is not in the store at the end. *)
Theorem X6_bootstrap_posts_only_with_entry
    (cfg : iam_config) (URL_origin : string -> option string) (r : OAuth.rng)
    (url : Scripts.location) (store : gmap string OAuth.item)
    (reply : Js.fetch_result) (events : list OAuth.event)
    (request : OAuth.token_request) :
  let run := Scripts.loadForgeRock cfg URL_origin r url store reply events in
  let k := fst (fst (OAuth.generateAndStorePKCE r store)) in
  In (Scripts.TokenPost request) (snd (fst run)) ->
  Observe.posts (snd (fst run)) = [request]
  /\ ((exists s verifier,
         Observe.code_url s url = true
         /\ OAuth.JSON_parse (store !! s) = Js.Returned (true, verifier)
         /\ fst (fst run) = delete s store
         /\ request
            = OAuth.token_request_of cfg
                (Scripts.interpolate (Scripts.get "code" (Scripts.searchParams url)))
                verifier)
      \/ (exists m d,
            In (OAuth.MessageArrives m) events
            /\ Observe.code_callback cfg URL_origin (OAuth.state k) m = true
            /\ OAuth.data m = Some d
            /\ request
               = OAuth.token_request_of cfg (OAuth.field_text (OAuth.msg_code d))
                   (Some (OAuth.verifier k))
            /\ (Observe.redirects (snd (fst run)) = false ->
                fst (fst run) !! OAuth.state k = None))).
Proof.
  intros run k. unfold run.
  assert (Hposts : forall done rq,
             In (Scripts.TokenPost rq) done -> In rq (Observe.posts done)).
  { intros done rq Hin. unfold Observe.posts. apply in_flat_map.
    exists (Scripts.TokenPost rq). split; [exact Hin | now left]. }
  destruct (OAuth.field_truthy (Scripts.get "error" (Scripts.searchParams url))) eqn:Herr.
  { unfold Scripts.loadForgeRock. rewrite Herr. cbn. intuition discriminate. }
  destruct (OAuth.field_truthy (Scripts.get "code" (Scripts.searchParams url))
            && OAuth.field_truthy (Scripts.get "state" (Scripts.searchParams url)))
    eqn:Hcs.
  - apply andb_prop in Hcs as [Hcode Hstate].
    destruct (Scripts.get "state" (Scripts.searchParams url)) as [s|] eqn:Hs;
      [|discriminate].
    unfold Scripts.loadForgeRock. rewrite Herr, Hcode, Hs, Hstate. cbn.
    destruct (OAuth.JSON_parse (store !! s)) as [[[] verifier]|e] eqn:Hparse;
      [| cbn; intuition discriminate ..].
    intros Hin.
    assert (Hrq : request
                  = OAuth.token_request_of cfg
                      (Scripts.interpolate (Scripts.get "code" (Scripts.searchParams url)))
                      verifier).
    { destruct (OAuth.exchangeCodeForToken reply); cbn in Hin;
        destruct Hin as [Heq | [Heq | []]]; try discriminate; now injection Heq. }
    split.
    + rewrite Hrq. destruct (OAuth.exchangeCodeForToken reply); reflexivity.
    + left. exists s, verifier.
      split; [now apply StoreFacts.code_url_intro|]. split; [exact Hparse|].
      split; [destruct (OAuth.exchangeCodeForToken reply); reflexivity | exact Hrq].
  - rewrite (StoreFacts.bootstrap_silent cfg URL_origin r url store reply events Herr Hcs).
    cbn zeta. fold k.
    set (authUrl := OAuth.buildAuthUrl cfg (OAuth.state k) (OAuth.challenge k) "none").
    set (p0 := OAuth.Page _ (Some authUrl) true true OAuth.Pending None [] []).
    destruct (RequestFacts.generated_entry r store) as (Hentry & _ & _).
    cbn zeta in Hentry. fold k in Hentry.
    set (during := Scripts.while_pending cfg URL_origin (OAuth.state k) p0 events).
    destruct (BootstrapFacts.trace_posts cfg URL_origin (OAuth.state k)
                (OAuth.verifier k) (OAuth.challenge k) during p0 (fun _ => Hentry))
      as [Hred Htrace].
    set (p := OAuth.deliver_all cfg URL_origin (OAuth.state k) p0 during) in *.
    set (seen := Scripts.FrameLoad authUrl
                 :: Scripts.trace cfg URL_origin (OAuth.state k) p0 during) in *.
    assert (Hseen : Observe.posts seen
                    = Observe.posts (Scripts.trace cfg URL_origin (OAuth.state k) p0 during))
      by reflexivity.
    assert (Hquiet : Observe.redirects seen = false) by exact Hred.
    assert (Hcases :
      forall done store',
        Observe.posts done = Observe.posts seen ->
        (Observe.redirects done = false -> store' = OAuth.storage p) ->
        In (Scripts.TokenPost request) done ->
        Observe.posts done = [request]
        /\ ((exists s verifier,
               Observe.code_url s url = true
               /\ OAuth.JSON_parse (store !! s) = Js.Returned (true, verifier)
               /\ store' = delete s store
               /\ request
                  = OAuth.token_request_of cfg
                      (Scripts.interpolate
                         (Scripts.get "code" (Scripts.searchParams url)))
                      verifier)
            \/ (exists m d,
                  In (OAuth.MessageArrives m) events
                  /\ Observe.code_callback cfg URL_origin (OAuth.state k) m = true
                  /\ OAuth.data m = Some d
                  /\ request
                     = OAuth.token_request_of cfg (OAuth.field_text (OAuth.msg_code d))
                         (Some (OAuth.verifier k))
                  /\ (Observe.redirects done = false ->
                      store' !! OAuth.state k = None)))).
    { intros done store' Hsame Hstore Hin. apply Hposts in Hin.
      rewrite Hsame, Hseen in Hin |- *.
      destruct Htrace as [Hnone | (m & d & Hm & Hcb & Hd & Hsent & Hgone)].
      - rewrite Hnone in Hin. destruct Hin.
      - rewrite Hsent in Hin |- *. destruct Hin as [<- | []].
        split; [reflexivity|]. right. exists m, d.
        split; [now apply StoreFacts.while_pending_In in Hm|].
        repeat (split; [assumption || reflexivity|]).
        intros Hno. now rewrite (Hstore Hno). }
    destruct (OAuth.outcome p) as [|silent].
    + cbn [fst snd]. apply Hcases; auto.
    + destruct (OAuth.calls_redirectToLogin
                  (OAuth.getAccessToken silent (Js.Resolves None))).
      * cbn [fst snd]. apply Hcases.
        -- rewrite BootstrapFacts.posts_app. cbn. apply app_nil_r.
        -- rewrite BootstrapFacts.redirects_app. cbn. rewrite orb_true_r. discriminate.
      * destruct (OAuth.returns (OAuth.getAccessToken silent (Js.Resolves None)));
          cbn [fst snd]; apply Hcases; auto.
        rewrite BootstrapFacts.posts_app. cbn. apply app_nil_r.
Qed.

(** X6 on the scenario: the page is loaded without parameters, the framed
    callback hands [{code: 'xyz', state: <generated>}] to the silent attempt
    and the token endpoint answers. *)
Lemma X6_bootstrap_post_witness :
  let url := Scripts.Location "https://app" "/" [] in
  let events := [ OAuth.MessageArrives
                    (Scenario.callback (Some "xyz"%string) (Some Scenario.state0) None);
                  OAuth.ExchangeAnswers Scenario.token_reply ] in
  let run := Scripts.loadForgeRock Scenario.cfg Scenario.URL_origin Scenario.entropy url ∅
               Scenario.token_reply events in
  Observe.posts (snd (fst run))
  = [OAuth.token_request_of Scenario.cfg "xyz" (Some (OAuth.verifier Scenario.material))]
  /\ snd run = Scripts.Finished (Js.Returned tt).
Proof.
  intros url events run. split; [|vm_compute; reflexivity].
  apply (X6_bootstrap_posts_only_with_entry Scenario.cfg Scenario.URL_origin
           Scenario.entropy url ∅ Scenario.token_reply events
           (OAuth.token_request_of Scenario.cfg "xyz"
              (Some (OAuth.verifier Scenario.material)))).
  vm_compute. right. left. reflexivity.
Defined.

(** X7. In the silent attempt a token request is started only by a code
    callback from the expected origin that carries the [state] of the
    attempt, and only when the store holds a truthy value under that
    [state], which the same handler run removes. No other event makes a
    token request appear. *)
Theorem X7_handler_posts_only_with_entry
    (cfg : iam_config) (URL_origin : string -> option string) (state0 : string)
    (p : OAuth.page) (ev : OAuth.event) (request : OAuth.token_request) :
  OAuth.exchange (OAuth.deliver cfg URL_origin state0 p ev) = Some request ->
  OAuth.exchange p <> Some request ->
  exists m verifier,
    ev = OAuth.MessageArrives m
    /\ Observe.code_callback cfg URL_origin state0 m = true
    /\ OAuth.JSON_parse (OAuth.storage p !! state0) = Js.Returned (true, verifier)
    /\ OAuth.storage (OAuth.deliver cfg URL_origin state0 p ev)
       = delete state0 (OAuth.storage p).
Proof.
  intros Hnew Hold.
  destruct (HandlerFacts.exchange_deliver cfg URL_origin state0 p ev)
    as [Hsame | [Hnone | Hposted]].
  - congruence.
  - congruence.
  - exact Hposted.
Qed.

(** X7 on the scenario. *)
Lemma X7_handler_post_witness :
  exists m verifier,
    Observe.code_callback Scenario.cfg Scenario.URL_origin Scenario.state0 m = true
    /\ OAuth.JSON_parse (OAuth.storage Scenario.page0 !! Scenario.state0)
       = Js.Returned (true, verifier).
Proof.
  destruct (X7_handler_posts_only_with_entry Scenario.cfg Scenario.URL_origin
              Scenario.state0 Scenario.page0
              (OAuth.MessageArrives
                 (Scenario.callback (Some "xyz"%string) (Some Scenario.state0) None))
              (OAuth.token_request_of Scenario.cfg "xyz"
                 (Some (OAuth.verifier Scenario.material))))
    as (m & verifier & _ & Hcb & Hparse & _).
  - vm_compute. reflexivity.
  - vm_compute. discriminate.
  - exists m, verifier. auto.
Defined.

(** X8. After one accepted callback the attempt takes no further message
    and no timeout: both leave the page exactly as it is. Only the answer
    of the token endpoint can still settle it, with the outcome of
    [exchangeCodeForToken], and that outcome is final. *)
Theorem X8_one_callback_per_attempt
    (cfg : iam_config) (URL_origin : string -> option string) (state0 : string)
    (p : OAuth.page) (m : OAuth.message_event) :
  Observe.accepted cfg URL_origin m = true ->
  OAuth.listener p = true -> OAuth.iframe p <> None ->
  let p' := OAuth.deliver cfg URL_origin state0 p (OAuth.MessageArrives m) in
  OAuth.deliver cfg URL_origin state0 p' OAuth.TimeoutFires = p'
  /\ (forall m', OAuth.deliver cfg URL_origin state0 p' (OAuth.MessageArrives m') = p')
  /\ (forall reply evs,
        OAuth.exchange p' <> None -> OAuth.outcome p' = OAuth.Pending ->
        OAuth.outcome
          (OAuth.deliver_all cfg URL_origin state0 p' (OAuth.ExchangeAnswers reply :: evs))
        = OAuth.Settled (OAuth.exchangeCodeForToken reply)).
Proof.
  intros Hacc Hls Hfr p'.
  destruct (SilentFacts.accepted_message_disarms cfg URL_origin state0 p m Hacc Hls Hfr)
    as (Htm' & Hls' & _ & _).
  fold p' in Htm', Hls'.
  destruct (HandlerFacts.disarmed_ignores cfg URL_origin state0 p' Hls' Htm')
    as [Htimeout Hmessages].
  split; [exact Htimeout|]. split; [exact Hmessages|].
  intros reply evs Hex Hoc. cbn [OAuth.deliver_all fold_left].
  apply HandlerFacts.settled_forever.
  now apply HandlerFacts.answer_settles.
Qed.

(** X8 on the scenario: a second callback and a timeout after the first. *)
Lemma X8_one_callback_witness :
  let first := OAuth.MessageArrives
                 (Scenario.callback (Some "xyz"%string) (Some Scenario.state0) None) in
  let p' := OAuth.deliver Scenario.cfg Scenario.URL_origin Scenario.state0
              Scenario.page0 first in
  OAuth.deliver_all Scenario.cfg Scenario.URL_origin Scenario.state0 p'
    [OAuth.MessageArrives
       (Scenario.callback (Some "abc"%string) (Some Scenario.state0) None)]
  = p'.
Proof.
  intros first p'.
  destruct (X8_one_callback_per_attempt Scenario.cfg Scenario.URL_origin Scenario.state0
              Scenario.page0
              (Scenario.callback (Some "xyz"%string) (Some Scenario.state0) None))
    as (_ & Hmessages & _).
  - reflexivity.
  - reflexivity.
  - discriminate.
  - cbn [OAuth.deliver_all fold_left]. apply Hmessages.
Defined.

(** X9. Of all the ways the message handler can end a pending attempt,
    only a callback whose [error] is exactly [interaction_required] makes
    [getAccessToken] start the interactive redirect; any other error of the
    provider, a state mismatch and a missing entry are rejections that
    [getAccessToken] hands to its caller. The same holds for an HTTP error
    of the token endpoint. *)
Theorem X9_only_interaction_required_redirects
    (cfg : iam_config) (URL_origin : string -> option string) (state0 : string)
    (p : OAuth.page) (m : OAuth.message_event) (d : OAuth.payload)
    (s redirected : Js.settled) :
  OAuth.listener p = true -> OAuth.iframe p <> None -> OAuth.outcome p = OAuth.Pending ->
  Observe.accepted cfg URL_origin m = true -> OAuth.data m = Some d ->
  OAuth.outcome (OAuth.deliver cfg URL_origin state0 p (OAuth.MessageArrives m))
  = OAuth.Settled s ->
  (OAuth.calls_redirectToLogin (OAuth.getAccessToken s redirected) = true
   <-> OAuth.msg_error d = Some "interaction_required"%string)
  /\ (OAuth.msg_error d <> Some "interaction_required"%string ->
      OAuth.getAccessToken s redirected = OAuth.Access false s)
  /\ (forall status statusText body,
        OAuth.getAccessToken
          (OAuth.exchangeCodeForToken (Js.Response false status statusText body)) redirected
        = OAuth.Access false
            (Js.Rejects (Js.Error (String.append "Token exchange failed: " statusText)))).
Proof.
  intros Hls Hfr Hoc Hacc Hd Hsettled.
  destruct (HandlerFacts.handler_outcome cfg URL_origin state0 p m d Hls Hfr Hoc Hacc Hd)
    as [[Herr Hafter] | [Herr Hafter]]; cbn zeta in Hafter.
  - rewrite Hafter in Hsettled. injection Hsettled as <-.
    split; [split; [auto | reflexivity]|]. split; [contradiction | reflexivity].
  - assert (Hpass : OAuth.getAccessToken s redirected = OAuth.Access false s).
    { destruct Hafter as [Hafter | [Hafter | [Hafter | Hafter]]];
        rewrite Hafter in Hsettled; [discriminate | | |];
        injection Hsettled as <-; reflexivity. }
    split; [|split; [auto | reflexivity]].
    rewrite Hpass. cbn. split; [discriminate | contradiction].
Qed.

(** X9 on the scenario: the provider answers [login_required]. *)
Lemma X9_other_error_witness :
  OAuth.getAccessToken (Js.Rejects (Js.Error "OAuth error: login_required"))
                       (Js.Resolves None)
  = OAuth.Access false (Js.Rejects (Js.Error "OAuth error: login_required")).
Proof.
  apply (proj1 (proj2
           (X9_only_interaction_required_redirects Scenario.cfg Scenario.URL_origin
              Scenario.state0 Scenario.page0
              (Scenario.callback None (Some Scenario.state0) (Some "login_required"%string))
              (OAuth.Payload (Some "oauthCallback"%string) None (Some Scenario.state0)
                             (Some "login_required"%string))
              (Js.Rejects (Js.Error "OAuth error: login_required")) (Js.Resolves None)
              eq_refl ltac:(discriminate) eq_refl eq_refl eq_refl
              ltac:(vm_compute; reflexivity))));
    discriminate.
Defined.

(** X10. The handler acts on accepted messages only. A message from
    another origin, a message whose [type] is not ['oauthCallback'] and a
    message without data all leave the store, the frame, the timer, the
    listener, the promise and the pending token request as they were. *)
Theorem X10_unaccepted_messages_change_nothing
    (cfg : iam_config) (URL_origin : string -> option string) (state0 : string)
    (p : OAuth.page) (m : OAuth.message_event) :
  Observe.accepted cfg URL_origin m = false ->
  Observe.controller (OAuth.deliver cfg URL_origin state0 p (OAuth.MessageArrives m))
  = Observe.controller p.
Proof.
  unfold Observe.accepted. intros Hno. destruct p as [st fr tm ls oc ex co un].
  handler_unfold; unfold Observe.controller; cbn.
  destruct ls; [|reflexivity].
  destruct (URL_origin (redirectUri cfg)) as [o|]; [|reflexivity].
  destruct (OAuth.data m) as [d|].
  - destruct (OAuth.origin m =? o)%string; [|reflexivity]. cbn in Hno |- *.
    now rewrite Hno.
  - destruct (OAuth.origin m =? o)%string; reflexivity.
Qed.

(** X10 on a message of another type from the expected origin. *)
Lemma X10_other_type_witness :
  let m := OAuth.MessageEvent "https://app"
             (Some (OAuth.Payload (Some "resize"%string) (Some "xyz"%string)
                                  (Some Scenario.state0) None)) in
  Observe.controller
    (OAuth.deliver Scenario.cfg Scenario.URL_origin Scenario.state0 Scenario.page0
       (OAuth.MessageArrives m))
  = Observe.controller Scenario.page0.
Proof.
  intros m.
  apply (X10_unaccepted_messages_change_nothing Scenario.cfg Scenario.URL_origin
           Scenario.state0 Scenario.page0 m).
  reflexivity.
Defined.

(** ** The callback page *)

(** X24. The callback page puts the decoded [code] and [state] into the new
    URL as they are, without escaping them. A code of the form
    [c&state=v] is therefore read by the page the navigation leads to as
    the code [c] followed by a [state] parameter [v] of its own; the
    [state] of the callback comes after it, and the first one is the one a
    lookup by name finds. *)
Theorem X24_forwarded_values_are_not_escaped
    (url : Scripts.location) (c v s : string) :
  Scripts.get "code" (Scripts.searchParams url)
  = Some (String.append c (String.append "&state=" v)) ->
  Scripts.get "state" (Scripts.searchParams url) = Some s -> s <> EmptyString ->
  Observe.is_path (Scripts.pathname url) = true ->
  Observe.plain c = true -> Observe.plain v = true -> Observe.plain s = true ->
  exists destination params,
    Scripts.forgeRockCallback url true
    = [ Scripts.ConsoleLog "Handling callback in focus.";
        Scripts.LocationReplace destination ]
    /\ Url.searchParams destination = Some params
    /\ params = [("code", c); ("state", v); ("state", s)]%string
    /\ Scripts.get "state" params = Some v.
Proof.
  intros Hcode Hstate Hs Hpath Hc Hv Hplain.
  exists (String.append (JsString.replace_first "/callback" "/" (Scripts.pathname url))
            (String "?" (Observe.query_string
                           [("code", c); ("state", v); ("state", s)]%string))).
  exists [("code", c); ("state", v); ("state", s)]%string.
  split; [|split; [|split; reflexivity]].
  - unfold Scripts.forgeRockCallback. rewrite Hcode, Hstate.
    destruct s; [contradiction|].
    assert (Hsome : JsString.nonempty (String.append c (String.append "&state=" v)) = true)
      by now destruct c.
    cbn [OAuth.field_truthy andb orb Scripts.interpolate]. rewrite Hsome.
    cbn [JsString.nonempty andb orb JsString.join fold_right].
    rewrite append_empty_r, !append_assoc. reflexivity.
  - apply UrlFacts.searchParams_plain.
    + now apply UrlFacts.replace_first_units.
    + repeat constructor; assumption.
Qed.

(** X24 on [/callback?code=a%26state%3Dvictim&state=good]: the decoded code
    is [a&state=victim]. *)
Lemma X24_spliced_state_witness :
  exists destination params,
    Scripts.forgeRockCallback
      (Scripts.Location "https://app" "/callback"
         [("code", "a&state=victim"); ("state", "good")]%string) true
    = [ Scripts.ConsoleLog "Handling callback in focus.";
        Scripts.LocationReplace destination ]
    /\ destination = "/?code=a&state=victim&state=good"%string
    /\ Url.searchParams destination = Some params
    /\ Scripts.get "state" params = Some "victim"%string.
Proof.
  destruct (X24_forwarded_values_are_not_escaped
              (Scripts.Location "https://app" "/callback"
                 [("code", "a&state=victim"); ("state", "good")]%string)
              "a" "victim" "good")
    as (destination & params & Hrun & Hread & _ & Hstate);
    try reflexivity; [discriminate|].
  exists destination, params. split; [exact Hrun|]. split; [|split; assumption].
  vm_compute in Hrun. now injection Hrun as <-.
Defined.

(** ** Session monitor: load on the provider, listeners, logout *)

Module RateFacts.

Import Js Session.

Section Monitor.

Variable cfg : iam_config.

(** Every validation call moves [lastCheck] forward by at least the
    interval, and [lastCheck] is always the creation time or the time of
    one of the events. *)
Lemma lastCheck_progress (evs : list activity) : forall c : checker,
  let run := activities cfg evs c in
  lastCheck c + Z.of_nat (validations (snd run)) * sessionCheckInterval cfg
  <= lastCheck (fst run)
  /\ (lastCheck (fst run) = lastCheck c
      \/ exists ev, In ev evs /\ lastCheck (fst run) = at_ms ev).
Proof.
  induction evs as [|ev rest IH]; intros c; cbn zeta.
  - cbn. split; [lia | now left].
  - rewrite SessionFacts.activities_cons. cbn [fst snd].
    rewrite SessionFacts.validations_app.
    destruct (Z.lt_ge_cases (at_ms ev - lastCheck c) (sessionCheckInterval cfg))
      as [Hlt | Hge].
    + rewrite (SessionFacts.handler_throttled cfg ev c Hlt). cbn [fst snd].
      destruct (IH c) as [Hprogress Hwhere]. cbn zeta in Hprogress, Hwhere.
      split; [exact Hprogress|].
      destruct Hwhere as [Hsame | (e & He & Hat)]; [now left|].
      right. exists e. split; [now right | exact Hat].
    + destruct (SessionFacts.handler_checks cfg ev c Hge) as (done & -> & Hone & _).
      cbn [fst snd]. rewrite Hone.
      destruct (IH (Checker (at_ms ev) (attached c))) as [Hprogress Hwhere].
      cbn zeta in Hprogress, Hwhere. cbn [lastCheck] in Hprogress, Hwhere.
      split; [rewrite Nat2Z.inj_add; lia|].
      right. destruct Hwhere as [Hsame | (e & He & Hat)].
      * exists ev. split; [now left | exact Hsame].
      * exists e. split; [now right | exact Hat].
Qed.

End Monitor.

End RateFacts.

(** X11. The throttle bounds the load on the provider for every sequence
    of activity events, in any order and whatever the provider answers: if
    no event is later than [T], the number of validation calls times the
    interval is at most [T] minus the time of the last check before the
    sequence (at most 0 when that is negative). Every validation call moves
    [lastCheck] forward by at least the interval. *)
Theorem X11_validation_rate_bound
    (cfg : iam_config) (evs : list Session.activity) (c : Session.checker) (T : Z) :
  (forall ev, In ev evs -> Session.at_ms ev <= T) ->
  let run := Session.activities cfg evs c in
  Z.of_nat (Session.validations (snd run)) * sessionCheckInterval cfg
  <= Z.max 0 (T - Session.lastCheck c)
  /\ Session.lastCheck c
     + Z.of_nat (Session.validations (snd run)) * sessionCheckInterval cfg
     <= Session.lastCheck (fst run).
Proof.
  intros Hbound run.
  destruct (RateFacts.lastCheck_progress cfg evs c) as [Hprogress Hwhere].
  cbn zeta in Hprogress, Hwhere. fold run in Hprogress, Hwhere.
  split; [|exact Hprogress].
  destruct Hwhere as [Hsame | (ev & Hev & Hat)].
  - lia.
  - specialize (Hbound ev Hev). lia.
Qed.

(** X11 with an interval of 120000 ms: five events in the first ten minutes
    of a checker created at 0 lead to at most five calls. *)
Lemma X11_rate_bound_witness :
  let ok := Js.Response true 200 "OK" (Some (Js.JObj [("valid"%string, Js.JBool true)])) in
  let evs := map (fun t => Session.Activity t ok ok) [1000; 130000; 130500; 400000; 600000] in
  Z.of_nat (Session.validations
              (snd (Session.activities Scenario.cfg evs (Session.createSessionChecker 0))))
  * 120000 <= 600000.
Proof.
  intros ok evs.
  apply (proj1 (X11_validation_rate_bound Scenario.cfg evs
                  (Session.createSessionChecker 0) 600000
                  ltac:(intros ev Hev; repeat (destruct Hev as [<- | Hev]; [vm_compute; discriminate|]); destruct Hev))).
Defined.

Module ListenerFacts.

Import Js Session SessionDom.

Lemma registration_eqb_eq (a b : registration) :
  registration_eqb a b = true <-> a = b.
Proof.
  destruct a as [ta sa], b as [tb sb]. unfold registration_eqb. cbn.
  rewrite andb_true_iff, String.eqb_eq.
  split.
  - intros [Ht ->]. destruct ta, tb; cbn in Ht; congruence.
  - intros [= -> ->]. split; [now destruct tb | reflexivity].
Qed.

Lemma registered_In (k : registration) (rs : list registration) :
  registered k rs = true <-> In k rs.
Proof.
  unfold registered. rewrite existsb_exists. split.
  - intros (x & Hx & Heq). apply registration_eqb_eq in Heq. now subst.
  - intros Hin. exists k. split; [exact Hin | now apply registration_eqb_eq].
Qed.

Lemma add_In (rs : list registration) (k k' : registration) :
  In k (addEventListener rs k') <-> In k rs \/ k = k'.
Proof.
  unfold addEventListener. destruct (registered k' rs) eqn:Hreg.
  - apply registered_In in Hreg. split; [auto | intros [H | ->]; auto].
  - rewrite in_app_iff. cbn. intuition.
Qed.

Lemma fold_add_In (ks : list registration) : forall (rs : list registration) k,
  In k (fold_left addEventListener ks rs) <-> In k rs \/ In k ks.
Proof.
  induction ks as [|k' ks IH]; intros rs k; cbn [fold_left].
  - cbn. intuition.
  - rewrite IH, add_In. cbn. intuition.
Qed.

Lemma remove_In (rs : list registration) (k k' : registration) :
  In k (removeEventListener rs k') <-> In k rs /\ k <> k'.
Proof.
  unfold removeEventListener. rewrite filter_In, negb_true_iff.
  split; intros [Hin Hne]; split; try exact Hin.
  - intros ->. rewrite (proj2 (registration_eqb_eq k' k') eq_refl) in Hne. discriminate.
  - destruct (registration_eqb k' k) eqn:Heq; [|reflexivity].
    apply registration_eqb_eq in Heq. congruence.
Qed.

Lemma fold_remove_In (ks : list registration) : forall (rs : list registration) k,
  In k (fold_left removeEventListener ks rs) <-> In k rs /\ ~ In k ks.
Proof.
  induction ks as [|k' ks IH]; intros rs k; cbn [fold_left].
  - cbn. intuition.
  - rewrite IH, remove_In. cbn. intuition.
Qed.

Lemma remove_nothing (rs : list registration) (k' : registration) :
  ~ In k' rs -> removeEventListener rs k' = rs.
Proof.
  intros Hout. unfold removeEventListener.
  induction rs as [|r rs IH]; [reflexivity|]. cbn.
  destruct (registration_eqb k' r) eqn:Heq.
  - apply registration_eqb_eq in Heq. subst. exfalso. apply Hout. now left.
  - cbn. f_equal. apply IH. intros Hin. apply Hout. now right.
Qed.

End ListenerFacts.

(** X12. [attach] and [detach] are idempotent: a second [attach] registers
    nothing and logs nothing, and likewise a second [detach]. Neither
    touches [lastCheck]. After [attach] the handler is registered for the
    nine activity events in addition to what was registered before; after
    [detach] it is registered for none of the nine; on a new checker
    [detach] after [attach] restores the initial state. *)
Theorem X12_attach_detach (m : SessionDom.monitor) :
  (fst (SessionDom.attach (fst (SessionDom.attach m))) = fst (SessionDom.attach m)
   /\ snd (SessionDom.attach (fst (SessionDom.attach m))) = [])
  /\ (fst (SessionDom.detach (fst (SessionDom.detach m))) = fst (SessionDom.detach m)
      /\ snd (SessionDom.detach (fst (SessionDom.detach m))) = [])
  /\ Session.lastCheck (SessionDom.state (fst (SessionDom.attach m)))
     = Session.lastCheck (SessionDom.state m)
  /\ Session.lastCheck (SessionDom.state (fst (SessionDom.detach m)))
     = Session.lastCheck (SessionDom.state m)
  /\ (Session.attached (SessionDom.state m) = false ->
      forall k, In k (SessionDom.regs (fst (SessionDom.attach m)))
                <-> In k (SessionDom.regs m) \/ In k SessionDom.activity_events)
  /\ (Session.attached (SessionDom.state m) = true ->
      forall k, In k (SessionDom.regs (fst (SessionDom.detach m)))
                <-> In k (SessionDom.regs m) /\ ~ In k SessionDom.activity_events)
  /\ (forall now,
        fst (SessionDom.detach
               (fst (SessionDom.attach
                       (SessionDom.Monitor (Session.createSessionChecker now) []))))
        = SessionDom.Monitor (Session.createSessionChecker now) []).
Proof.
  destruct m as [[last att] rs].
  unfold SessionDom.attach, SessionDom.detach. cbn [SessionDom.state Session.attached].
  repeat apply conj.
  - destruct att; reflexivity.
  - destruct att; reflexivity.
  - destruct att; reflexivity.
  - destruct att; reflexivity.
  - destruct att; reflexivity.
  - destruct att; reflexivity.
  - intros -> k. cbn [fst negb SessionDom.regs]. apply ListenerFacts.fold_add_In.
  - intros -> k. cbn [fst negb SessionDom.regs]. apply ListenerFacts.fold_remove_In.
  - intros now. reflexivity.
Qed.

(** X13. Activity reaches the handler only while the checker is attached,
    and only through the nine registered events. On a checker that was
    never attached, and on one that was detached, no event runs the handler;
    after [attach] each of the nine events runs [activityHandler] on the
    current state, and an event that is not among them (a [keydown], say)
    does nothing. *)
Theorem X13_dispatch_while_attached
    (cfg : iam_config) (now : Z) (k : SessionDom.registration) (ev : Session.activity) :
  let fresh := SessionDom.Monitor (Session.createSessionChecker now) [] in
  let on := fst (SessionDom.attach fresh) in
  let off := fst (SessionDom.detach on) in
  SessionDom.dispatch cfg k ev fresh = (fresh, [])
  /\ SessionDom.dispatch cfg k ev off = (off, [])
  /\ (~ In k SessionDom.activity_events -> SessionDom.dispatch cfg k ev on = (on, []))
  /\ (In k SessionDom.activity_events ->
      SessionDom.dispatch cfg k ev on
      = (SessionDom.Monitor (fst (Session.activityHandler cfg ev (Session.Checker now true)))
                            SessionDom.activity_events,
         fst (snd (Session.activityHandler cfg ev (Session.Checker now true)))))
  /\ ~ In (SessionDom.Window, "keydown"%string) SessionDom.activity_events.
Proof.
  intros fresh on off.
  assert (Hon : on = SessionDom.Monitor (Session.Checker now true) SessionDom.activity_events)
    by reflexivity.
  repeat apply conj.
  - reflexivity.
  - reflexivity.
  - intros Hout. unfold SessionDom.dispatch. rewrite Hon. cbn [SessionDom.regs].
    destruct (SessionDom.registered k SessionDom.activity_events) eqn:Hreg; [|reflexivity].
    apply ListenerFacts.registered_In in Hreg. contradiction.
  - intros Hin. unfold SessionDom.dispatch. rewrite Hon.
    cbn [SessionDom.regs SessionDom.state].
    rewrite (proj2 (ListenerFacts.registered_In k SessionDom.activity_events) Hin).
    destruct (Session.activityHandler cfg ev (Session.Checker now true)) as [c [done r]].
    reflexivity.
  - cbn. intuition discriminate.
Qed.

(** X14. A click on the logout link posts to the logout endpoint once and
    then reloads the page; when the request fails the failure goes to the
    console and the page is reloaded all the same. The handler never
    throws. *)
Theorem X14_logout_click_always_reloads (reply : Js.fetch_result) :
  snd (Header.logout_click reply) = Js.Returned tt
  /\ Observe.requests (fst (Header.logout_click reply))
     = [Session.PostLogout; Session.Reload]
  /\ (forall reason, reply = Js.NetworkError reason ->
        fst (Header.logout_click reply)
        = [Session.PostLogout; Session.ConsoleError "Logout API failed:"; Session.Reload]).
Proof.
  unfold Header.logout_click.
  destruct reply as [reason | ok status statusText body]; monitor_unfold; cbn.
  - split; [reflexivity|]. split; [reflexivity|]. intros reason' _. reflexivity.
  - split; [reflexivity|]. split; [reflexivity|]. intros reason' Habsurd. discriminate.
Qed.

(** ** Link helpers *)

Module LinkFacts.

Import OAuth Links.

Lemma append_nil_l (s : string) : String.append EmptyString s = s.
Proof. reflexivity. Qed.

Lemma starts_with_String a b (p s : string) :
  JsString.starts_with (String a p) (String b s)
  = Ascii.eqb a b && JsString.starts_with p s.
Proof. reflexivity. Qed.

Lemma starts_with_app (p s : string) : JsString.starts_with p (String.append p s) = true.
Proof.
  induction p as [|a p IH]; [reflexivity|].
  now rewrite append_String, starts_with_String, Ascii.eqb_refl, IH.
Qed.

Lemma drop_app (p s : string) : JsString.drop (String.length p) (String.append p s) = s.
Proof. induction p as [|a p IH]; [reflexivity|]. now rewrite append_String. Qed.

Lemma replace_first_found (p r s : string) :
  JsString.starts_with p s = true ->
  JsString.replace_first p r s = String.append r (JsString.drop (String.length p) s).
Proof. intros H. destruct s; cbn [JsString.replace_first]; now rewrite H. Qed.

Lemma replace_first_step (p r : string) a (s : string) :
  JsString.starts_with p (String a s) = false ->
  JsString.replace_first p r (String a s) = String a (JsString.replace_first p r s).
Proof. intros H. cbn [JsString.replace_first]. now rewrite H. Qed.

Lemma includes_String (p : string) a (s : string) :
  includes (String a s) p = JsString.starts_with p (String a s) || includes s p.
Proof. reflexivity. Qed.

(** Without an occurrence there is nothing to replace. *)
Lemma replace_first_absent (p r s : string) :
  includes s p = false -> JsString.replace_first p r s = s.
Proof.
  induction s as [|a s IH]; intros H.
  - cbn in H. rewrite orb_false_r in H. cbn [JsString.replace_first]. now rewrite H.
  - rewrite includes_String in H. apply orb_false_elim in H as [Hhead Htail].
    rewrite replace_first_step by exact Hhead. now rewrite IH.
Qed.

(** No occurrence of [.html] starts inside [q] and ends inside an appended
    [.html]: the dot occurs in the pattern at its first position only. *)
Lemma html_no_straddle (q : string) :
  q <> EmptyString ->
  JsString.starts_with ".html" (String.append q ".html")
  = JsString.starts_with ".html" q.
Proof.
  intros Hq.
  destruct q as [|a [|b [|c [|d [|e q]]]]]; [contradiction| | | | |];
    rewrite ?append_String, ?append_nil_l, ?starts_with_String.
  all: try reflexivity.
  all: repeat match goal with
       | |- context [Ascii.eqb ?x ?y] => is_var y; destruct (Ascii.eqb x y)
       end; reflexivity.
Qed.

(** The first [.html] of [path ++ ".html"] is the appended one when [path]
    has none of its own. *)
Lemma remove_appended_html (path : string) :
  includes path ".html" = false ->
  JsString.replace_first ".html" "" (String.append path ".html") = path.
Proof.
  induction path as [|a path IH]; intros Hnone; [reflexivity|].
  rewrite includes_String in Hnone. apply orb_false_elim in Hnone as [Hhead Htail].
  rewrite append_String, replace_first_step.
  - now rewrite IH.
  - rewrite <- append_String, html_no_straddle by discriminate. exact Hhead.
Qed.

End LinkFacts.

(** X15. [getLink] is idempotent: a path it has rewritten starts with the
    AEM root and is left alone by a second call, and a path it leaves alone
    is left alone again. *)
Theorem X15_getLink_idempotent (aemRoot : OAuth.field) (edsPath : string) :
  Links.getLink aemRoot (Links.getLink aemRoot edsPath) = Links.getLink aemRoot edsPath.
Proof.
  unfold Links.getLink at 2 3.
  destruct (OAuth.field_truthy aemRoot
            && negb (JsString.starts_with (OAuth.field_text aemRoot) edsPath)
            && negb (Links.includes edsPath ".html")) eqn:Hrewrite.
  - unfold Links.getLink. rewrite !join_cons.
    rewrite LinkFacts.starts_with_app. cbn [negb]. now rewrite andb_false_r.
  - unfold Links.getLink. now rewrite Hrewrite.
Qed.

(** X16. [getEDSLink] undoes [getLink] on every path that holds neither
    [.html] nor [/index] and does not start with the AEM root. (A path
    with [/index] does not come back: [getEDSLink] turns its first
    [/index] into [/].) *)
Theorem X16_getEDSLink_after_getLink (aemRoot : OAuth.field) (edsPath : string) :
  Links.includes edsPath ".html" = false ->
  Links.includes edsPath "/index" = false ->
  (OAuth.field_truthy aemRoot = true ->
   JsString.starts_with (OAuth.field_text aemRoot) edsPath = false) ->
  Links.getEDSLink aemRoot (Links.getLink aemRoot edsPath) = edsPath.
Proof.
  intros Hhtml Hindex Hroot. unfold Links.getLink, Links.getEDSLink.
  destruct (OAuth.field_truthy aemRoot); [|reflexivity].
  rewrite Hhtml, Hroot by reflexivity. cbn [negb andb].
  rewrite !join_cons. change (JsString.join []) with EmptyString.
  rewrite append_empty_r.
  rewrite (LinkFacts.replace_first_found (OAuth.field_text aemRoot))
    by apply LinkFacts.starts_with_app.
  rewrite LinkFacts.drop_app, LinkFacts.append_nil_l.
  rewrite LinkFacts.remove_appended_html by exact Hhtml.
  now apply LinkFacts.replace_first_absent.
Qed.

(** X16 on [/claims/new] under the root ['/content/cil']. *)
Lemma X16_round_trip_witness :
  Links.getLink (Some "/content/cil"%string) "/claims/new" = "/content/cil/claims/new.html"%string
  /\ Links.getEDSLink (Some "/content/cil"%string) "/content/cil/claims/new.html"
     = "/claims/new"%string.
Proof.
  split; [reflexivity|].
  apply (X16_getEDSLink_after_getLink (Some "/content/cil"%string) "/claims/new");
    reflexivity.
Defined.

(** ** Configuration *)

Module ConfigFacts.

Import Js Config.

(** What a successful [build] was made from. *)
Lemma build_inv (origin : string) (reply : fetch_result) (c : config) :
  build origin reply = Returned c ->
  exists ok status statusText data configValues key,
    reply = Response ok status statusText (Some data)
    /\ configValues <> JNull
    /\ environment_key (prop "environment" data) = Returned key
    /\ c = assemble origin (choose_environment key) configValues.
Proof.
  unfold build. intros H.
  destruct reply as [reason | ok status statusText [data|]]; try discriminate.
  destruct (member_of "data" (Some data)) as [data_data|]; [|discriminate].
  destruct (first_of data_data) as [configValues|]; [|discriminate].
  destruct (environment_key (prop "environment" data)) as [key|] eqn:Hkey; [|discriminate].
  destruct configValues as [cv|]; [|discriminate].
  exists ok, status, statusText, data, cv, key.
  destruct cv; try discriminate; cbn in H; injection H as <-;
    (split; [reflexivity|]; split; [discriminate|]; split; [exact Hkey | reflexivity]).
Qed.

End ConfigFacts.

(** X17. [forgeRockConfig] does not look at the HTTP status: an answer
    with any status whose body parses is taken as the configuration.
    Whatever the file holds, a configuration that is returned has the
    page's own origin as [app.baseUrl], that origin followed by
    [/callback] as redirect URI and the four fixed scopes, and nothing is
    logged; when no configuration is returned exactly one line is logged. *)
Theorem X17_config_ignores_status (origin : string) (reply : Js.fetch_result) :
  (forall ok status statusText ok' status' statusText' body,
      Config.forgeRockConfig origin (Js.Response ok status statusText body)
      = Config.forgeRockConfig origin (Js.Response ok' status' statusText' body))
  /\ (forall c, snd (Config.forgeRockConfig origin reply) = Some c ->
        Config.app_baseUrl c = origin
        /\ Config.iam_redirectUri c = String.append origin "/callback"
        /\ Config.iam_scopes c
           = ["openid"; "profile"; "email"; "attribute:agent_ids.read"]%string
        /\ fst (Config.forgeRockConfig origin reply) = [])
  /\ (snd (Config.forgeRockConfig origin reply) = None ->
      fst (Config.forgeRockConfig origin reply) = ["Error loading ForgeRock Config:"%string]).
Proof.
  split; [reflexivity|]. unfold Config.forgeRockConfig.
  destruct (Config.build origin reply) as [c0|e] eqn:Hbuild; cbn [fst snd].
  - split; [|discriminate]. intros c [= <-].
    destruct (ConfigFacts.build_inv origin reply c0 Hbuild)
      as (ok & status & statusText & data & cv & key & _ & _ & _ & ->).
    cbn. auto.
  - split; [discriminate | reflexivity].
Qed.

(** X18. The environment of a returned configuration is chosen by the
    lower-cased [environment] string of the file: [stage] and [prod] select
    their URLs whatever the case of the letters, and a missing, [null] or
    unknown environment selects the [dev] URL. The only values that are not
    one of the three URLs come from the names [constructor] and
    [__proto__], which [env] inherits. *)
Theorem X18_environment_selection
    (origin : string) (reply : Js.fetch_result) (c : Config.config) :
  snd (Config.forgeRockConfig origin reply) = Some c ->
  exists data,
    (exists ok status statusText, reply = Js.Response ok status statusText (Some data))
    /\ (forall s, Js.prop "environment" data = Some (Js.JStr s) ->
          (Config.toLowerCase s = "prod"%string ->
           Config.app_environment c = Config.EnvUrl Config.prod)
          /\ (Config.toLowerCase s = "stage"%string ->
              Config.app_environment c = Config.EnvUrl Config.stage)
          /\ (Config.toLowerCase s <> "prod"%string ->
              Config.toLowerCase s <> "stage"%string ->
              Config.toLowerCase s <> "constructor"%string ->
              Config.toLowerCase s <> "__proto__"%string ->
              Config.app_environment c = Config.EnvUrl Config.dev)
          /\ (forall name, Config.app_environment c = Config.EnvInherited name ->
                Config.toLowerCase s = name
                /\ (name = "constructor"%string \/ name = "__proto__"%string)))
    /\ (Js.prop "environment" data = None \/ Js.prop "environment" data = Some Js.JNull ->
        Config.app_environment c = Config.EnvUrl Config.dev).
Proof.
  unfold Config.forgeRockConfig.
  destruct (Config.build origin reply) as [c0|e] eqn:Hbuild; [|discriminate].
  cbn [snd]. intros [= <-].
  destruct (ConfigFacts.build_inv origin reply c0 Hbuild)
    as (ok & status & statusText & data & cv & key & -> & _ & Hkey & ->).
  exists data. split; [eauto|].
  unfold Config.assemble, Config.choose_environment. cbn [Config.app_environment]. split.
  - intros s Hs. rewrite Hs in Hkey. cbn in Hkey. injection Hkey as <-.
    unfold Config.env_member. repeat apply conj.
    + now intros ->.
    + now intros ->.
    + intros Hprod Hstage Hctor Hproto.
      destruct (String.eqb_spec (Config.toLowerCase s) "dev"); [reflexivity|].
      destruct (String.eqb_spec (Config.toLowerCase s) "stage"); [contradiction|].
      destruct (String.eqb_spec (Config.toLowerCase s) "prod"); [contradiction|].
      destruct (String.eqb_spec (Config.toLowerCase s) "constructor"); [contradiction|].
      destruct (String.eqb_spec (Config.toLowerCase s) "__proto__"); [contradiction|].
      reflexivity.
    + intros name.
      destruct (String.eqb_spec (Config.toLowerCase s) "dev"); [discriminate|].
      destruct (String.eqb_spec (Config.toLowerCase s) "stage"); [discriminate|].
      destruct (String.eqb_spec (Config.toLowerCase s) "prod"); [discriminate|].
      destruct (String.eqb_spec (Config.toLowerCase s) "constructor") as [Hc|];
        [cbn; intros [= <-]; auto|].
      destruct (String.eqb_spec (Config.toLowerCase s) "__proto__") as [Hp|];
        [cbn; intros [= <-]; auto | discriminate].
  - intros [Hnone | Hnull]; [rewrite Hnone in Hkey | rewrite Hnull in Hkey];
      cbn in Hkey; injection Hkey as <-; reflexivity.
Qed.

(** X18 on a file that says [PROD], answered with status 404. *)
Lemma X18_environment_witness :
  exists c,
    snd (Config.forgeRockConfig "https://app"
           (Js.Response false 404 "Not Found"
              (Some (Js.JObj [ ("data"%string,
                                Js.JArr [Js.JObj [("clientId"%string, Js.JStr "abc")]]);
                               ("environment"%string, Js.JStr "PROD") ]))))
    = Some c
    /\ Config.app_environment c = Config.EnvUrl Config.prod.
Proof.
  eexists. split; [reflexivity|].
  destruct (X18_environment_selection "https://app"
              (Js.Response false 404 "Not Found"
                 (Some (Js.JObj [ ("data"%string,
                                   Js.JArr [Js.JObj [("clientId"%string, Js.JStr "abc")]]);
                                  ("environment"%string, Js.JStr "PROD") ])))
              _ eq_refl) as (data & (ok & status & statusText & Hreply) & Hstring & _).
  injection Hreply as _ _ _ <-.
  apply (proj1 (Hstring "PROD"%string eq_refl)). reflexivity.
Defined.

(** ** The distributor block *)

Module DistributorFacts.

Import Distributor.

Lemma take_drop (n : nat) : forall s : string,
  String.append (take n s) (JsString.drop n s) = s.
Proof.
  induction n as [|n IH]; intros s; [now destruct s|].
  destruct s as [|a s]; [reflexivity|].
  cbn [take JsString.drop]. now rewrite append_String, IH.
Qed.

Lemma drop_drop (m : nat) : forall (n : nat) (s : string),
  JsString.drop n (JsString.drop m s) = JsString.drop (m + n) s.
Proof.
  induction m as [|m IH]; intros n s; [reflexivity|].
  destruct s as [|a s]; [now destruct n|]. cbn [JsString.drop Nat.add]. apply IH.
Qed.

Lemma length_take (n : nat) : forall s : string,
  String.length (take n s) = Nat.min n (String.length s).
Proof.
  induction n as [|n IH]; intros s; [reflexivity|].
  destruct s as [|a s]; [reflexivity|]. cbn [take String.length]. now rewrite IH.
Qed.

Lemma length_drop (n : nat) : forall s : string,
  String.length (JsString.drop n s) = (String.length s - n)%nat.
Proof.
  induction n as [|n IH]; intros s; [cbn; lia|].
  destruct s as [|a s]; [reflexivity|]. cbn [JsString.drop String.length]. now rewrite IH.
Qed.

End DistributorFacts.

(** X19. [formatPhoneNumber] keeps every character in its place. A number
    of four characters or more is cut into its first four characters, the
    next three (or fewer) and the rest, with one blank after the first and
    one after the second piece, so that a number of exactly four characters
    ends in two blanks; a shorter number is returned as it is, and an absent
    number is the empty string. *)
Theorem X19_formatPhoneNumber_pieces (s : string) :
  ((4 <= String.length s)%nat ->
   exists a b c,
     s = String.append a (String.append b c)
     /\ String.length a = 4%nat
     /\ String.length b = Nat.min 3 (String.length s - 4)
     /\ Distributor.formatPhoneNumber (Some s)
        = String.append a (String.append " " (String.append b (String.append " " c))))
  /\ (String.length s = 4%nat ->
      Distributor.formatPhoneNumber (Some s) = String.append s "  ")
  /\ ((String.length s < 4)%nat -> Distributor.formatPhoneNumber (Some s) = s)
  /\ Distributor.formatPhoneNumber None = EmptyString.
Proof.
  assert (Hlong : (4 <= String.length s)%nat ->
            Distributor.formatPhoneNumber (Some s)
            = String.append (Distributor.take 4 s)
                (String.append " "
                   (String.append (Distributor.take 3 (JsString.drop 4 s))
                      (String.append " " (JsString.drop 7 s))))).
  { intros Hlen. unfold Distributor.formatPhoneNumber.
    destruct (Nat.leb_spec 4 (String.length s)); [|lia].
    rewrite !join_cons. change (JsString.join []) with EmptyString.
    now rewrite append_empty_r. }
  repeat apply conj.
  - intros Hlen.
    exists (Distributor.take 4 s), (Distributor.take 3 (JsString.drop 4 s)), (JsString.drop 7 s).
    split; [|split; [|split]].
    + change 7%nat with (4 + 3)%nat. rewrite <- DistributorFacts.drop_drop.
      now rewrite !DistributorFacts.take_drop.
    + rewrite DistributorFacts.length_take. lia.
    + now rewrite DistributorFacts.length_take, DistributorFacts.length_drop.
    + now apply Hlong.
  - intros Hlen. rewrite Hlong by lia.
    destruct s as [|a [|b [|c [|d [|e s]]]]]; try discriminate. reflexivity.
  - intros Hlen. unfold Distributor.formatPhoneNumber.
    destruct (Nat.leb_spec 4 (String.length s)); [lia | reflexivity].
  - reflexivity.
Qed.

(** X20. What the distributor block does with the result of
    [getAccessToken]. When the silent attempt was rejected with
    [interaction_required], [getAccessToken] has resolved with [undefined]
    and the block sends the dealer-info request with the header
    [Authorization: Bearer undefined]; after any other rejection it sends
    nothing and shows its failure text; a token that is a string is sent as
    it is. *)
Theorem X20_distributor_request
    (text_of : Js.json -> string) (env : string) (silent redirected : Js.settled) :
  let token := OAuth.returns (OAuth.getAccessToken silent redirected) in
  (silent = Js.Rejects (Js.Error "interaction_required") ->
   Distributor.decorate_request text_of (Some env) token
   = [Distributor.FetchDealerInfo (String.append env "/bin/dealerinfo.json")
                                  "Bearer undefined"])
  /\ (forall e, silent = Js.Rejects e -> Js.message e <> "interaction_required"%string ->
        Distributor.decorate_request text_of (Some env) token
        = [Distributor.ConsoleError "Error loading dealer details:"; Distributor.ShowFailure])
  /\ (forall t, silent = Js.Resolves (Some (Js.JStr t)) ->
        Distributor.decorate_request text_of (Some env) token
        = [Distributor.FetchDealerInfo (String.append env "/bin/dealerinfo.json")
                                       (String.append "Bearer " t)])
  /\ (Distributor.decorate_request text_of None token
      = [Distributor.ConsoleError "Error loading dealer details:"; Distributor.ShowFailure]).
Proof.
  intros token. unfold token, OAuth.getAccessToken. repeat apply conj.
  - intros ->. reflexivity.
  - intros e -> He.
    destruct (String.eqb_spec (Js.message e) "interaction_required"); [contradiction|].
    reflexivity.
  - intros t ->. reflexivity.
  - destruct silent as [v|e]; [reflexivity|].
    destruct (String.eqb (Js.message e) "interaction_required"); reflexivity.
Qed.

(** ** Moving attributes *)

Module DomFacts.

Import Dom.

Lemma get_set_same name value a : getAttribute name (setAttribute name value a) = Some value.
Proof.
  induction a as [|[k v] a IH]; cbn; [now rewrite String.eqb_refl|].
  destruct (String.eqb k name) eqn:E; cbn; now rewrite E.
Qed.

Lemma get_set_other name name' value a :
  name <> name' -> getAttribute name (setAttribute name' value a) = getAttribute name a.
Proof.
  intros Hne. induction a as [|[k v] a IH]; cbn.
  - destruct (String.eqb_spec name' name); [congruence | reflexivity].
  - destruct (String.eqb_spec k name'); cbn.
    + subst. destruct (String.eqb_spec name' name); [congruence | reflexivity].
    + destruct (String.eqb k name); [reflexivity | exact IH].
Qed.

Lemma get_remove_other name name' a :
  name <> name' -> getAttribute name (removeAttribute name' a) = getAttribute name a.
Proof.
  intros Hne. induction a as [|[k v] a IH]; cbn; [reflexivity|].
  destruct (String.eqb_spec k name'); cbn.
  - subst. destruct (String.eqb_spec name' name); [congruence | reflexivity].
  - destruct (String.eqb k name); [reflexivity | exact IH].
Qed.

Lemma get_None_notin name a : getAttribute name a = None <-> ~ In name (map fst a).
Proof.
  induction a as [|[k v] a IH]; cbn; [tauto|].
  destruct (String.eqb_spec k name); [split; [discriminate | tauto] |].
  rewrite IH. tauto.
Qed.

Lemma get_remove_same name a :
  List.NoDup (map fst a) -> getAttribute name (removeAttribute name a) = None.
Proof.
  induction a as [|[k v] a IH]; cbn; intros Hnd; [reflexivity|].
  inversion Hnd as [|? ? Hout Hrest]; subst.
  destruct (String.eqb_spec k name); cbn.
  - subst. now apply get_None_notin.
  - destruct (String.eqb_spec k name); [congruence | now apply IH].
Qed.

Lemma remove_keys_incl name a x : In x (map fst (removeAttribute name a)) -> In x (map fst a).
Proof.
  induction a as [|[k v] a IH]; cbn; [tauto|].
  destruct (String.eqb k name); cbn; tauto.
Qed.

Lemma remove_NoDup name a : List.NoDup (map fst a) -> List.NoDup (map fst (removeAttribute name a)).
Proof.
  induction a as [|[k v] a IH]; cbn; intros Hnd; [constructor|].
  inversion Hnd as [|? ? Hout Hrest]; subst.
  destruct (String.eqb k name); cbn; [exact Hrest|].
  constructor; [|now apply IH]. intros Hin. apply Hout. eapply remove_keys_incl, Hin.
Qed.

Lemma set_keys name value a :
  getAttribute name a <> None -> map fst (setAttribute name value a) = map fst a.
Proof.
  induction a as [|[k v] a IH]; cbn; [congruence|].
  destruct (String.eqb k name); cbn; [reflexivity|]. intros H. now rewrite IH.
Qed.

Lemma attributes_insert_same (doc : document) el a : attributes (<[el := a]> doc) el = a.
Proof. unfold attributes. now rewrite lookup_insert_eq. Qed.

Lemma attributes_insert_other (doc : document) el el' a :
  el <> el' -> attributes (<[el := a]> doc) el' = attributes doc el'.
Proof. intros H. unfold attributes. now rewrite lookup_insert_ne. Qed.

Section Move.

Variables (from : nat) (to : option nat).

(** One step, seen from [from]. *)
Lemma move_one_from (doc : document) (a name : string) :
  List.NoDup (map fst (attributes doc from)) ->
  getAttribute name (attributes (move_one from to doc a) from)
  = (if String.eqb name a && OAuth.field_truthy (getAttribute a (attributes doc from))
     then None else getAttribute name (attributes doc from))
  /\ List.NoDup (map fst (attributes (move_one from to doc a) from)).
Proof.
  intros Hnd. unfold move_one.
  destruct (getAttribute a (attributes doc from)) as [value|] eqn:Hget; cbn [OAuth.field_truthy];
    [|rewrite andb_false_r; auto].
  destruct (JsString.nonempty value); [|rewrite andb_false_r; auto].
  rewrite andb_true_r, attributes_insert_same.
  assert (Hkeys : map fst (attributes
                    match to with
                    | Some t => <[t := setAttribute a value (attributes doc t)]> doc
                    | None => doc
                    end from) = map fst (attributes doc from)
                  /\ forall n, getAttribute n (attributes
                    match to with
                    | Some t => <[t := setAttribute a value (attributes doc t)]> doc
                    | None => doc
                    end from)
                     = if String.eqb n a then Some value
                       else getAttribute n (attributes doc from)).
  { destruct to as [t|].
    - destruct (decide (t = from)) as [->|Hne].
      + rewrite attributes_insert_same. split.
        * apply set_keys. congruence.
        * intros n. destruct (String.eqb_spec n a) as [->|Hn].
          -- apply get_set_same.
          -- now apply get_set_other.
      + rewrite attributes_insert_other by exact Hne. split; [reflexivity|].
        intros n. destruct (String.eqb_spec n a) as [->|Hn]; [exact Hget | reflexivity].
    - split; [reflexivity|].
      intros n. destruct (String.eqb_spec n a) as [->|Hn]; [exact Hget | reflexivity]. }
  destruct Hkeys as [Hkeys Hvals]. split.
  - destruct (String.eqb_spec name a) as [->|Hn].
    + apply get_remove_same. now rewrite Hkeys.
    + rewrite get_remove_other by exact Hn. rewrite Hvals.
      destruct (String.eqb_spec name a); [contradiction | reflexivity].
  - apply remove_NoDup. now rewrite Hkeys.
Qed.

Lemma existsb_cons (name a : string) rest :
  existsb (String.eqb name) (a :: rest) = String.eqb name a || existsb (String.eqb name) rest.
Proof. reflexivity. Qed.

(** The loop, seen from [from]. *)
Lemma loop_from (names : list string) : forall doc : document,
  List.NoDup (map fst (attributes doc from)) ->
  forall name,
    getAttribute name (attributes (fold_left (move_one from to) names doc) from)
    = if moved names (attributes doc from) name then None
      else getAttribute name (attributes doc from).
Proof.
  induction names as [|a rest IH]; intros doc Hnd name; [reflexivity|].
  cbn [fold_left].
  destruct (move_one_from doc a name Hnd) as [Hstep Hnd1].
  rewrite (IH _ Hnd1 name). unfold moved. rewrite existsb_cons, Hstep.
  destruct (String.eqb name a) eqn:Heq; cbn [andb orb]; [|reflexivity].
  apply String.eqb_eq in Heq. subst a.
  destruct (OAuth.field_truthy (getAttribute name (attributes doc from))) eqn:Ht.
  - cbn. now rewrite andb_false_r.
  - rewrite Ht. now rewrite andb_false_r.
Qed.

End Move.

Section MoveTo.

Variables (from t : nat).
Hypothesis Hdistinct : t <> from.

Lemma move_one_to (doc : document) (a name : string) :
  getAttribute name (attributes (move_one from (Some t) doc a) t)
  = if String.eqb name a && OAuth.field_truthy (getAttribute a (attributes doc from))
    then getAttribute a (attributes doc from)
    else getAttribute name (attributes doc t).
Proof.
  unfold move_one.
  destruct (getAttribute a (attributes doc from)) as [value|] eqn:Hget; cbn [OAuth.field_truthy];
    [|now rewrite andb_false_r].
  destruct (JsString.nonempty value); [|now rewrite andb_false_r].
  rewrite andb_true_r.
  rewrite attributes_insert_other by congruence. rewrite attributes_insert_same.
  destruct (String.eqb name a) eqn:Heq.
  - apply String.eqb_eq in Heq. subst a. apply get_set_same.
  - apply get_set_other. intros ->. rewrite String.eqb_refl in Heq. discriminate.
Qed.

Lemma loop_to (names : list string) : forall doc : document,
  List.NoDup (map fst (attributes doc from)) ->
  forall name,
    getAttribute name (attributes (fold_left (move_one from (Some t)) names doc) t)
    = if moved names (attributes doc from) name
      then getAttribute name (attributes doc from)
      else getAttribute name (attributes doc t).
Proof.
  induction names as [|a rest IH]; intros doc Hnd name; [reflexivity|].
  cbn [fold_left].
  destruct (move_one_from from (Some t) doc a name Hnd) as [Hstep Hnd1].
  rewrite (IH _ Hnd1 name). unfold moved. rewrite existsb_cons, Hstep, move_one_to.
  destruct (String.eqb name a) eqn:Heq; cbn [andb orb]; [|reflexivity].
  apply String.eqb_eq in Heq. subst a.
  destruct (OAuth.field_truthy (getAttribute name (attributes doc from))) eqn:Ht.
  - cbn. now rewrite andb_false_r.
  - rewrite Ht. now rewrite andb_false_r.
Qed.

End MoveTo.

Lemma move_one_elsewhere (from : nat) (to : option nat) (doc : document) (a : string) (el : nat) :
  el <> from -> to <> Some el -> move_one from to doc a !! el = doc !! el.
Proof.
  intros Hfrom Hto. unfold move_one.
  destruct (getAttribute a (attributes doc from)) as [value|]; [|reflexivity].
  destruct (JsString.nonempty value); [|reflexivity].
  rewrite lookup_insert_ne by congruence.
  destruct to as [t|]; [|reflexivity]. rewrite lookup_insert_ne; congruence.
Qed.

Lemma loop_elsewhere (from : nat) (to : option nat) (names : list string) (el : nat) :
  el <> from -> to <> Some el ->
  forall doc : document, fold_left (move_one from to) names doc !! el = doc !! el.
Proof.
  intros Hfrom Hto. induction names as [|a rest IH]; intros doc; [reflexivity|].
  cbn [fold_left]. rewrite IH. now apply move_one_elsewhere.
Qed.

Lemma moved_instrumentation (a : attrs) (name : string) :
  moved (List.filter is_instrumentation (map fst a)) a name
  = is_instrumentation name && OAuth.field_truthy (getAttribute name a).
Proof.
  unfold moved.
  destruct (getAttribute name a) as [v|] eqn:Hget; cbn [OAuth.field_truthy];
    [|now rewrite !andb_false_r].
  destruct (JsString.nonempty v); [|now rewrite !andb_false_r].
  rewrite !andb_true_r.
  assert (Hin : In name (map fst a)).
  { destruct (in_dec string_dec name (map fst a)) as [Hin|Hout]; [exact Hin|].
    apply get_None_notin in Hout. congruence. }
  destruct (is_instrumentation name) eqn:Hinstr.
  - apply existsb_exists. exists name. split; [|apply String.eqb_refl].
    apply filter_In. auto.
  - destruct (existsb (String.eqb name) (List.filter is_instrumentation (map fst a))) eqn:Hex;
      [|reflexivity].
    apply existsb_exists in Hex as (x & Hx & Heq). apply String.eqb_eq in Heq. subst x.
    apply filter_In in Hx as [_ Hx]. congruence.
Qed.

End DomFacts.

(** X21. [moveInstrumentation] between two different elements moves
    exactly the attributes of [from] whose name starts with [data-aue-] or
    [data-richtext-] and whose value is not empty: each of them is gone
    from [from] and has its value on [to], replacing what [to] had under
    that name. Every other attribute of [from], the instrumentation
    attributes with an empty value among them, stays where it is, every
    other attribute of [to] keeps its value, and no third element
    changes. *)
Theorem X21_moveInstrumentation_moves_nonempty
    (doc : Dom.document) (from t : nat) (name : string) :
  t <> from ->
  List.NoDup (map fst (Dom.attributes doc from)) ->
  let doc' := Dom.moveInstrumentation doc from (Some t) in
  let value := Dom.getAttribute name (Dom.attributes doc from) in
  (if Dom.is_instrumentation name && OAuth.field_truthy value
   then Dom.getAttribute name (Dom.attributes doc' from) = None
        /\ Dom.getAttribute name (Dom.attributes doc' t) = value
   else Dom.getAttribute name (Dom.attributes doc' from) = value
        /\ Dom.getAttribute name (Dom.attributes doc' t)
           = Dom.getAttribute name (Dom.attributes doc t))
  /\ (forall el, el <> from -> el <> t -> doc' !! el = doc !! el).
Proof.
  intros Hdistinct Hnd doc' value. unfold doc', Dom.moveInstrumentation, Dom.moveAttributes.
  split.
  - rewrite (DomFacts.loop_from from (Some t) _ doc Hnd name).
    rewrite (DomFacts.loop_to from t Hdistinct _ doc Hnd name).
    rewrite DomFacts.moved_instrumentation. fold value.
    destruct (Dom.is_instrumentation name && OAuth.field_truthy value); auto.
  - intros el Hfrom Ht. apply DomFacts.loop_elsewhere; congruence.
Qed.

(** X21 on a block with one instrumentation attribute that has a value and
    one that is empty. *)
Lemma X21_moveInstrumentation_witness :
  let doc : Dom.document :=
    {[ 1%nat := [("class", "hero"); ("data-aue-prop", "title"); ("data-aue-label", "")]%string;
       2%nat := [("id", "x")]%string ]} in
  Dom.moveInstrumentation doc 1 (Some 2%nat)
  = {[ 1%nat := [("class", "hero"); ("data-aue-label", "")]%string;
       2%nat := [("id", "x"); ("data-aue-prop", "title")]%string ]}
  /\ Dom.getAttribute "data-aue-prop" (Dom.attributes (Dom.moveInstrumentation doc 1 (Some 2%nat)) 2)
     = Some "title"%string.
Proof.
  intros doc. split; [vm_compute; reflexivity|].
  apply (proj1 (X21_moveInstrumentation_moves_nonempty doc 1 2 "data-aue-prop"
                  ltac:(discriminate)
                  ltac:(apply NoDup_ListNoDup, (bool_decide_unpack _); vm_compute; exact I))).
Defined.

(** X22. Without a target ([null] or [undefined]) [moveInstrumentation]
    still removes the non-empty instrumentation attributes from [from]:
    they are dropped. With [from] itself as the target they are removed as
    well. In both cases every other attribute of [from] and every other
    element stay as they are. *)
Theorem X22_moveInstrumentation_without_target
    (doc : Dom.document) (from : nat) (name : string) :
  List.NoDup (map fst (Dom.attributes doc from)) ->
  let value := Dom.getAttribute name (Dom.attributes doc from) in
  let left_on_from :=
    if Dom.is_instrumentation name && OAuth.field_truthy value then None else value in
  Dom.getAttribute name (Dom.attributes (Dom.moveInstrumentation doc from None) from)
  = left_on_from
  /\ Dom.getAttribute name
       (Dom.attributes (Dom.moveInstrumentation doc from (Some from)) from)
     = left_on_from
  /\ (forall el, el <> from ->
        Dom.moveInstrumentation doc from None !! el = doc !! el
        /\ Dom.moveInstrumentation doc from (Some from) !! el = doc !! el).
Proof.
  intros Hnd value left_on_from. unfold left_on_from, value.
  unfold Dom.moveInstrumentation, Dom.moveAttributes. split; [|split].
  - rewrite (DomFacts.loop_from from None _ doc Hnd name).
    now rewrite DomFacts.moved_instrumentation.
  - rewrite (DomFacts.loop_from from (Some from) _ doc Hnd name).
    now rewrite DomFacts.moved_instrumentation.
  - intros el Hel. split; apply DomFacts.loop_elsewhere; congruence.
Qed.

(** X22 on the same block, moved to nowhere. *)
Lemma X22_without_target_witness :
  let doc : Dom.document :=
    {[ 1%nat := [("class", "hero"); ("data-aue-prop", "title"); ("data-aue-label", "")]%string;
       2%nat := [("id", "x")]%string ]} in
  Dom.getAttribute "data-aue-prop" (Dom.attributes (Dom.moveInstrumentation doc 1 None) 1)
  = None.
Proof.
  intros doc.
  apply (proj1 (X22_moveInstrumentation_without_target doc 1 "data-aue-prop"
                  ltac:(apply NoDup_ListNoDup, (bool_decide_unpack _); vm_compute; exact I))).
Defined.

(** X23. [moveAttributes] without a list of names moves every attribute of
    [from] that has a non-empty value to a different element [to] and
    leaves the attributes with an empty value on [from]. *)
Theorem X23_moveAttributes_all
    (doc : Dom.document) (from t : nat) (name : string) :
  t <> from ->
  List.NoDup (map fst (Dom.attributes doc from)) ->
  let doc' := Dom.moveAttributes doc from (Some t) None in
  let value := Dom.getAttribute name (Dom.attributes doc from) in
  if OAuth.field_truthy value
  then Dom.getAttribute name (Dom.attributes doc' from) = None
       /\ Dom.getAttribute name (Dom.attributes doc' t) = value
  else Dom.getAttribute name (Dom.attributes doc' from) = value
       /\ Dom.getAttribute name (Dom.attributes doc' t)
          = Dom.getAttribute name (Dom.attributes doc t).
Proof.
  intros Hdistinct Hnd doc' value. unfold doc', Dom.moveAttributes.
  rewrite (DomFacts.loop_from from (Some t) _ doc Hnd name).
  rewrite (DomFacts.loop_to from t Hdistinct _ doc Hnd name).
  assert (Hmoved : Dom.moved (map fst (Dom.attributes doc from)) (Dom.attributes doc from) name
                   = OAuth.field_truthy value).
  { unfold Dom.moved. fold value.
    destruct value as [v|] eqn:Hv; cbn [OAuth.field_truthy]; [|apply andb_false_r].
    destruct (JsString.nonempty v); [|apply andb_false_r]. rewrite andb_true_r.
    apply existsb_exists. exists name. split; [|apply String.eqb_refl].
    destruct (in_dec string_dec name (map fst (Dom.attributes doc from))) as [Hin|Hout];
      [exact Hin|].
    apply DomFacts.get_None_notin in Hout. unfold value in Hv. congruence. }
  rewrite Hmoved. destruct (OAuth.field_truthy value); auto.
Qed.

(** X23 on the same block. *)
Lemma X23_moveAttributes_witness :
  let doc : Dom.document :=
    {[ 1%nat := [("class", "hero"); ("data-aue-prop", "title"); ("data-aue-label", "")]%string;
       2%nat := [("id", "x")]%string ]} in
  Dom.getAttribute "class" (Dom.attributes (Dom.moveAttributes doc 1 (Some 2%nat) None) 1) = None
  /\ Dom.getAttribute "class" (Dom.attributes (Dom.moveAttributes doc 1 (Some 2%nat) None) 2)
     = Some "hero"%string.
Proof.
  intros doc.
  apply (X23_moveAttributes_all doc 1 2 "class"
           ltac:(discriminate)
           ltac:(apply NoDup_ListNoDup, (bool_decide_unpack _); vm_compute; exact I)).
Defined.
